(** * Git TUI: the repository-state core of [textual-demo/git_tui.py]

    A shallow embedding of the command runner, the status, history and
    branch parsers and the commit panel of [git_tui.py], followed by the
    properties of the specification that concern them.

    Python text ([str]) is a sequence of Unicode code points; it is modelled
    as a list of code points, so that [len], indexing and slicing count what
    Python counts.  Widgets are modelled by the data they hold: a [Static] by
    its text, an [Input] by its value, a [DataTable] by its rows, a [RichLog]
    by its lines. *)

From Stdlib Require Import String Ascii Numbers.DecimalString.
From Stdlib Require Import List NArith ZArith Bool Arith Lia.
Import ListNotations.

Set Implicit Arguments.

(* ===================================================================== *)
(** * Python strings *)
(* ===================================================================== *)

Module PyStr.

Definition char := N.
Definition str := list char.

(** Source literals are written as in the program and decoded from the
    UTF-8 bytes of the file. *)
Fixpoint utf8_decode (bs : list N) : str :=
  (match bs with
   | [] => []
   | b0 :: r0 =>
     if b0 <? 128 then b0 :: utf8_decode r0
     else match r0 with
     | [] => [b0]
     | b1 :: r1 =>
       if b0 <? 224 then ((b0 - 192) * 64 + (b1 - 128)) :: utf8_decode r1
       else match r1 with
       | [] => [b0; b1]
       | b2 :: r2 =>
         if b0 <? 240
         then ((b0 - 224) * 4096 + (b1 - 128) * 64 + (b2 - 128)) :: utf8_decode r2
         else match r2 with
         | [] => [b0; b1; b2]
         | b3 :: r3 =>
           ((b0 - 240) * 262144 + (b1 - 128) * 4096 + (b2 - 128) * 64 + (b3 - 128))
             :: utf8_decode r3
         end
       end
     end
   end)%N.

Definition py (s : string) : str :=
  utf8_decode (map N_of_ascii (list_ascii_of_string s)).

(** The one-character separators of the program: ["\n"] and ["|"]. *)
Definition NL : char := 10%N.
Definition BAR : char := 124%N.

(** [str(n)] for a non-negative integer. *)
Definition str_of_nat (n : nat) : str :=
  py (NilEmpty.string_of_uint (Nat.to_uint n)).

(** [len(s)], [s[i:]], [s[:i]] *)
Definition len (s : str) : nat := length s.
Definition slice_from (i : nat) (s : str) : str := skipn i s.
Definition slice_to (i : nat) (s : str) : str := firstn i s.

(** [s[i]]: the one-character string at index [i].  Python raises
    [IndexError] when [i >= len(s)]; every use in the program is guarded by
    a length test, and the model returns the empty string there. *)
Definition char_at (s : str) (i : nat) : str := firstn 1 (skipn i s).

(** Truthiness of a string: [if s:] holds for every non-empty string. *)
Definition truthy (s : str) : bool :=
  match s with [] => false | _ :: _ => true end.

Fixpoint str_eqb (a b : str) : bool :=
  match a, b with
  | [], [] => true
  | x :: a', y :: b' => (x =? y)%N && str_eqb a' b'
  | _, _ => false
  end.

(** [s.startswith(prefix)] *)
Fixpoint startswith (s prefix : str) : bool :=
  match prefix, s with
  | [], _ => true
  | p :: prefix', c :: s' => (c =? p)%N && startswith s' prefix'
  | _ :: _, [] => false
  end.

(** [needle in s]: substring test. *)
Fixpoint str_in (needle s : str) : bool :=
  startswith s needle ||
  match s with
  | [] => false
  | _ :: s' => str_in needle s'
  end.

(** Membership of a character in a set of characters given as a string. *)
Definition mem (c : char) (chars : str) : bool := existsb (N.eqb c) chars.

(** [str.isspace] on one character, as used by [strip()] and [split(None)]:
    the ASCII controls 0x09-0x0D and 0x1C-0x1F, the space, and the Unicode
    white space characters. *)
Definition isspace (c : char) : bool :=
  ((9 <=? c) && (c <=? 13) || (28 <=? c) && (c <=? 32)
   || (c =? 133) || (c =? 160) || (c =? 5760)
   || (8192 <=? c) && (c <=? 8202)
   || (c =? 8232) || (c =? 8233) || (c =? 8239) || (c =? 8287)
   || (c =? 12288))%N.

Fixpoint dropwhile (p : char -> bool) (s : str) : str :=
  match s with
  | [] => []
  | c :: s' => if p c then dropwhile p s' else s
  end.

Fixpoint takewhile (p : char -> bool) (s : str) : str :=
  match s with
  | [] => []
  | c :: s' => if p c then c :: takewhile p s' else []
  end.

(** [s.lstrip()], [s.rstrip()], [s.strip()] *)
Definition lstrip (s : str) : str := dropwhile isspace s.
Definition rstrip (s : str) : str := rev (dropwhile isspace (rev s)).
Definition strip (s : str) : str := rstrip (lstrip s).

(** [s.lstrip(chars)]: removes the leading characters that occur in
    [chars]. *)
Definition lstrip_chars (chars s : str) : str :=
  dropwhile (fun c => mem c chars) s.

(** [maxsplit]: [None] stands for Python's default [-1], no limit. *)
Definition may_split (maxsplit : option nat) : bool :=
  match maxsplit with Some 0 => false | _ => true end.

Definition one_less (maxsplit : option nat) : option nat :=
  option_map pred maxsplit.

(** [s.split(sep, maxsplit)] for a one-character separator: the first part
    and the parts after it.  The result has [maxsplit + 1] parts at most and
    one part at least. *)
Fixpoint split_parts (sep : char) (maxsplit : option nat) (s : str)
  : str * list str :=
  match s with
  | [] => ([], [])
  | c :: s' =>
    if (c =? sep)%N && may_split maxsplit
    then ([], let (p, ps) := split_parts sep (one_less maxsplit) s' in p :: ps)
    else let (p, ps) := split_parts sep maxsplit s' in (c :: p, ps)
  end.

Definition split (sep : char) (maxsplit : option nat) (s : str) : list str :=
  let (p, ps) := split_parts sep maxsplit s in p :: ps.

(** [s.split(None, maxsplit)]: runs of white space separate the fields,
    leading white space is skipped, and once [maxsplit] fields are cut the
    rest (without its leading white space) is the last field. *)
Fixpoint split_whitespace (maxsplit : nat) (s : str) : list str :=
  match lstrip s with
  | [] => []
  | c :: r =>
    match maxsplit with
    | 0 => [c :: r]
    | S k =>
      takewhile (fun x => negb (isspace x)) (c :: r)
        :: split_whitespace k (dropwhile (fun x => negb (isspace x)) (c :: r))
    end
  end.


End PyStr.
Import PyStr.


(* ===================================================================== *)
(** * The outside world, the widgets and the monad of the handlers *)
(* ===================================================================== *)

(** What [subprocess.run(..., capture_output=True, text=True)] does: the
    process completes with an exit code and two captured texts, or the call
    raises (tool missing, permission denied); [description] is [str(e)]. *)
Inductive process_outcome : Type :=
| Completed (returncode : Z) (stdout stderr : str)
| Raised (description : str).

(** [severity] argument of [App.notify]; the default is [information]. *)
Inductive severity : Type := information | warning | error.

(** A [DataTable] is modelled by its rows, a row by its cells.  [clear()]
    removes the rows and keeps the columns. *)
Definition DataTable := list (list str).
Definition clear (t : DataTable) : DataTable := [].
Definition add_row (cells : list str) (t : DataTable) : DataTable := t ++ [cells].
Definition row_count (t : DataTable) : nat := length t.

(** The widgets of the four panels that hold data. *)
Record GitStatus : Type := {
  repo_info : str;
  staged_table : DataTable;
  unstaged_table : DataTable;
  untracked_table : DataTable
}.

Record GitLog : Type := {
  log_table : DataTable;
  commit_detail : str
}.

Record GitBranches : Type := {
  new_branch_input : str;
  local_branches_table : DataTable;
  remote_branches_table : DataTable
}.

Record GitCommit : Type := {
  changes_summary : str;
  commit_message : str;
  commit_log : list str
}.

Definition set_repo_info (v : str) (g : GitStatus) : GitStatus :=
  {| repo_info := v; staged_table := staged_table g;
     unstaged_table := unstaged_table g; untracked_table := untracked_table g |}.
Definition with_staged_table (f : DataTable -> DataTable) (g : GitStatus) : GitStatus :=
  {| repo_info := repo_info g; staged_table := f (staged_table g);
     unstaged_table := unstaged_table g; untracked_table := untracked_table g |}.
Definition with_unstaged_table (f : DataTable -> DataTable) (g : GitStatus) : GitStatus :=
  {| repo_info := repo_info g; staged_table := staged_table g;
     unstaged_table := f (unstaged_table g); untracked_table := untracked_table g |}.
Definition with_untracked_table (f : DataTable -> DataTable) (g : GitStatus) : GitStatus :=
  {| repo_info := repo_info g; staged_table := staged_table g;
     unstaged_table := unstaged_table g; untracked_table := f (untracked_table g) |}.

Definition with_log_table (f : DataTable -> DataTable) (g : GitLog) : GitLog :=
  {| log_table := f (log_table g); commit_detail := commit_detail g |}.

Definition with_local_branches_table (f : DataTable -> DataTable) (g : GitBranches)
  : GitBranches :=
  {| new_branch_input := new_branch_input g;
     local_branches_table := f (local_branches_table g);
     remote_branches_table := remote_branches_table g |}.
Definition with_remote_branches_table (f : DataTable -> DataTable) (g : GitBranches)
  : GitBranches :=
  {| new_branch_input := new_branch_input g;
     local_branches_table := local_branches_table g;
     remote_branches_table := f (remote_branches_table g) |}.

Definition set_changes_summary (v : str) (g : GitCommit) : GitCommit :=
  {| changes_summary := v; commit_message := commit_message g;
     commit_log := commit_log g |}.
Definition set_commit_message (v : str) (g : GitCommit) : GitCommit :=
  {| changes_summary := changes_summary g; commit_message := v;
     commit_log := commit_log g |}.
Definition write_commit_log (line : str) (g : GitCommit) : GitCommit :=
  {| changes_summary := changes_summary g; commit_message := commit_message g;
     commit_log := commit_log g ++ [line] |}.

(** What a handler of a panel with widgets [P] runs in: the outside world
    (repository, remote, clock), the notifications shown by the application
    and the widgets.  [calls] is a ghost field: the arguments and the result
    of every [run_git_command] so far, oldest first. *)
Record Env (World P : Type) : Type := {
  world : World;
  calls : list (list str * (bool * str));
  notifications : list (str * severity);
  panel : P
}.

Definition M (World P A : Type) : Type := Env World P -> A * Env World P.

Definition ret {World P A : Type} (a : A) : M World P A := fun e => (a, e).

Definition bind {World P A B : Type} (m : M World P A) (k : A -> M World P B)
  : M World P B :=
  fun e => let (a, e') := m e in k a e'.

Declare Scope py_scope.
Delimit Scope py_scope with pyM.
Notation "x <- m ;; k" := (bind m (fun x => k))
  (at level 61, m at next level, right associativity) : py_scope.
Notation "' pat <- m ;; k" := (bind m (fun x => match x with pat => k end))
  (at level 61, pat pattern, m at next level, right associativity) : py_scope.
Notation "m ;; k" := (bind m (fun _ => k))
  (at level 61, right associativity) : py_scope.
Open Scope py_scope.

(** Changing a widget of the panel. *)
Definition modify {World P : Type} (f : P -> P) : M World P unit :=
  fun e => (tt, {| world := world e; calls := calls e;
                   notifications := notifications e; panel := f (panel e) |}).

(** Reading a widget of the panel. *)
Definition query {World P A : Type} (f : P -> A) : M World P A :=
  fun e => (f (panel e), e).

(** [self.app.notify(message, severity=...)] *)
Definition notify {World P : Type} (message : str) (sev : severity) : M World P unit :=
  fun e => (tt, {| world := world e; calls := calls e;
                   notifications := notifications e ++ [(message, sev)];
                   panel := panel e |}).

(** [for x in xs: body(x)] *)
Fixpoint for_each {World P A : Type} (xs : list A) (body : A -> M World P unit)
  : M World P unit :=
  match xs with
  | [] => ret tt
  | x :: xs' => body x ;; for_each xs' body
  end.

(** The calls made from [e] to [e']. *)
Definition calls_since {World P : Type} (e e' : Env World P)
  : list (list str * (bool * str)) :=
  skipn (length (calls e)) (calls e').

(** A handler that an exception can leave gives [None] when it does, with
    the state reached when the exception was raised, and [Some] of its
    result when it returns. *)
Definition returns {World P A : Type} (m : M World P A) : M World P (option A) :=
  a <- m ;; ret (Some a).

Definition raise {World P A : Type} : M World P (option A) := ret None.

(** [m] and then [k], unless [m] raised. *)
Definition and_then {World P A B : Type} (m : M World P (option A))
  (k : A -> M World P (option B)) : M World P (option B) :=
  r <- m ;;
  match r with
  | Some a => k a
  | None => raise
  end.

Notation "m ;;; k" := (and_then m (fun _ => k))
  (at level 61, right associativity) : py_scope.

(* ===================================================================== *)
(** * The program *)
(* ===================================================================== *)

(** [d.get(key, default)] for the two literal dictionaries of
    [refresh_status]. *)
Fixpoint dict_get (d : list (str * str)) (key default : str) : str :=
  match d with
  | [] => default
  | (k, v) :: d' => if str_eqb k key then v else dict_get d' key default
  end.

Section Program.

(** The external collaborators: [subprocess.run] on an argument vector, and
    [datetime.now().strftime("%H:%M:%S")]. *)
Variable World : Type.
Variable subprocess_run : list str -> World -> process_outcome * World.
Variable strftime_now : World -> str.

(** The markup parser of the widget library, which is not part of the
    program: [markup_error text] holds when parsing [text] raises
    [MarkupError], as it does for a closing tag that closes nothing.
    [RichLog.write] on the log of the commit panel, built with
    [markup=True] (line 356), and [Static.update] on the commit detail parse
    the text they are given, which holds text of the tool or of the user. *)
Variable markup_error : str -> bool.

(** [run_git_command(cmd)], lines 23-37.  The working directory is always
    the current one and belongs to the world. *)
Definition run_git_command {P : Type} (cmd : list str) : M World P (bool * str) :=
  fun e =>
    let (outcome, w) := subprocess_run (py "git" :: cmd) (world e) in
    let result :=
      match outcome with
      | Completed returncode stdout stderr =>
        if (returncode =? 0)%Z then (true, strip stdout) else (false, strip stderr)
      | Raised description => (false, description)
      end in
    (result, {| world := w; calls := calls e ++ [(cmd, result)];
                notifications := notifications e; panel := panel e |}).

(** [get_repo_root()], lines 40-43. *)
Definition get_repo_root {P : Type} : M World P (option str) :=
  '(success, output) <- run_git_command [py "rev-parse"; py "--show-toplevel"] ;;
  ret (if success then Some output else None).

(** ** GitStatus *)

(** The body of the loop of [refresh_status], lines 103-122. *)
Definition status_line (line : str) : M World GitStatus unit :=
  if len line <? 3 then ret tt
  else
    let index_status := char_at line 0 in
    let worktree_status := char_at line 1 in
    let filename := slice_from 3 line in
    (if str_in index_status (py "MADRC")
     then
       let status_map := [(py "M", py "修改"); (py "A", py "新增"); (py "D", py "删除");
                          (py "R", py "重命名"); (py "C", py "复制")] in
       modify (with_staged_table (add_row
         [py "[green]" ++ dict_get status_map index_status index_status ++ py "[/green]";
          filename]))
     else ret tt) ;;
    (if str_in worktree_status (py "MD")
     then
       let status_map := [(py "M", py "修改"); (py "D", py "删除")] in
       modify (with_unstaged_table (add_row
         [py "[yellow]" ++ dict_get status_map worktree_status worktree_status
            ++ py "[/yellow]";
          filename]))
     else ret tt) ;;
    (if str_eqb index_status (py "?") && str_eqb worktree_status (py "?")
     then modify (with_untracked_table (add_row [py "[red]新文件[/red]"; filename]))
     else ret tt).

(** [GitStatus.refresh_status], lines 73-122.  [if not repo_root] holds for
    [None] and for the empty string. *)
Definition refresh_status : M World GitStatus unit :=
  repo_root <- get_repo_root ;;
  let not_a_repository :=
    modify (set_repo_info (py "[red]⚠️ 当前目录不是 Git 仓库[/red]")) in
  match repo_root with
  | None => not_a_repository
  | Some root =>
    if negb (truthy root) then not_a_repository
    else
      '(success, branch) <- run_git_command [py "branch"; py "--show-current"] ;;
      (if success
       then modify (set_repo_info
              (py "[green]📂 " ++ root ++ py "[/green]" ++ [NL]
                 ++ py "[cyan]🌿 分支: " ++ branch ++ py "[/cyan]"))
       else ret tt) ;;
      '(success, status) <- run_git_command [py "status"; py "--porcelain"] ;;
      modify (with_staged_table clear) ;;
      modify (with_unstaged_table clear) ;;
      modify (with_untracked_table clear) ;;
      if negb (truthy status) then ret tt
      else for_each (split NL None status) status_line
  end.

(** ** GitLog *)

(** The body of the loop of [load_commits], lines 181-189: the row is added
    when [len(parts) == 4], and then [parts] unpacks into four names. *)
Definition commit_line (line : str) : M World GitLog unit :=
  let parts := split BAR (Some 3) line in
  match parts with
  | [hash_val; author; date; message] =>
    modify (with_log_table (add_row
      [py "[cyan]" ++ hash_val ++ py "[/cyan]";
       author;
       py "[dim]" ++ date ++ py "[/dim]";
       if 50 <? len message then slice_to 50 message ++ py "..." else message]))
  | _ => ret tt
  end.

(** [GitLog.load_commits(count)], lines 167-189. *)
Definition load_commits (count : nat) : M World GitLog unit :=
  '(success, output) <- run_git_command
     [py "log"; py "-" ++ str_of_nat count; py "--pretty=format:%h|%an|%ar|%s"] ;;
  modify (with_log_table clear) ;;
  if negb success || negb (truthy output) then ret tt
  else for_each (split NL None output) commit_line.

(** ** GitBranches *)

(** The body of the first loop of [refresh_branches], lines 257-270. *)
Definition local_branch_line (line : str) : M World GitBranches unit :=
  let line := strip line in
  if negb (truthy line) then ret tt
  else
    let is_current := startswith line (py "*") in
    let parts := split_whitespace 2 (lstrip_chars (py "* ") line) in
    if 2 <=? length parts
    then
      let branch_name := nth 0 parts [] in
      let commit_info := if 1 <? length parts then nth 1 parts [] else [] in
      let message := if 2 <? length parts then nth 2 parts [] else [] in
      let status := if is_current then py "[green]●[/green]" else py "[dim]○[/dim]" in
      modify (with_local_branches_table (add_row
        [status; branch_name; slice_to 40 (commit_info ++ py " " ++ message)]))
    else ret tt.

(** The body of the second loop of [refresh_branches], lines 279-281. *)
Definition remote_branch_line (line : str) : M World GitBranches unit :=
  let branch := strip line in
  if truthy branch && negb (str_in (py "->") branch)
  then modify (with_remote_branches_table (add_row [py "[cyan]→[/cyan]"; branch; []]))
  else ret tt.

(** [GitBranches.refresh_branches], lines 248-281. *)
Definition refresh_branches : M World GitBranches unit :=
  '(success, output) <- run_git_command [py "branch"; py "-v"] ;;
  modify (with_local_branches_table clear) ;;
  (if success && truthy output
   then for_each (split NL None output) local_branch_line
   else ret tt) ;;
  '(success, output) <- run_git_command [py "branch"; py "-r"] ;;
  modify (with_remote_branches_table clear) ;;
  (if success && truthy output
   then for_each (split NL None output) remote_branch_line
   else ret tt).

(** ** GitCommit *)

(** The text of the summary, lines 373-375. *)
Definition summary_text (staged unstaged untracked : nat) : str :=
  py "[green]已暂存: " ++ str_of_nat staged ++ py "[/green] | "
    ++ py "[yellow]未暂存: " ++ str_of_nat unstaged ++ py "[/yellow] | "
    ++ py "[red]未跟踪: " ++ str_of_nat untracked ++ py "[/red]".

(** The three tests of the counting of [update_summary], lines 368-370. *)
Definition counts_staged (l : str) : bool :=
  truthy l && str_in (char_at l 0) (py "MADRC").
Definition counts_unstaged (l : str) : bool :=
  truthy l && (1 <? len l) && str_in (char_at l 1) (py "MD").
Definition counts_untracked (l : str) : bool :=
  startswith l (py "??").

(** [GitCommit.update_summary], lines 361-378. *)
Definition update_summary : M World GitCommit unit :=
  '(success, status) <- run_git_command [py "status"; py "--short"] ;;
  if success
  then
    let lines := if truthy status then split NL None status else [] in
    let staged := length (filter counts_staged lines) in
    let unstaged := length (filter counts_unstaged lines) in
    let untracked := length (filter counts_untracked lines) in
    modify (set_changes_summary (summary_text staged unstaged untracked))
  else modify (set_changes_summary (py "[red]无法获取状态[/red]")).

(** [GitCommit.log_message], lines 380-384.  The line is written when the
    log accepts it as markup; otherwise [write] raises and nothing is
    written. *)
Definition log_message (message : str) : M World GitCommit (option unit) :=
  fun e =>
    let timestamp := strftime_now (world e) in
    let line := py "[dim]" ++ timestamp ++ py "[/dim] " ++ message in
    if markup_error line
    then raise e
    else returns (modify (write_commit_log line)) e.

(** [GitCommit.on_commit], lines 386-403. *)
Definition on_commit : M World GitCommit (option unit) :=
  message <- query (fun g => strip (commit_message g)) ;;
  if negb (truthy message)
  then returns (notify (py "请输入提交信息") warning)
  else
    '(success, output) <- run_git_command [py "commit"; py "-m"; message] ;;
    if success
    then
      modify (set_commit_message []) ;;
      update_summary ;;
      log_message (py "[green]✅ 提交成功[/green]: " ++ message) ;;;
      returns (notify (py "✅ 提交成功") information)
    else
      log_message (py "[red]❌ 提交失败[/red]: " ++ output) ;;;
      returns (notify (py "❌ 提交失败") error).

(** [GitCommit.on_commit_push], lines 405-431. *)
Definition on_commit_push : M World GitCommit (option unit) :=
  message <- query (fun g => strip (commit_message g)) ;;
  if negb (truthy message)
  then returns (notify (py "请输入提交信息") warning)
  else
    '(success, output) <- run_git_command [py "commit"; py "-m"; message] ;;
    if negb success
    then log_message (py "[red]❌ 提交失败[/red]: " ++ output)
    else
      log_message (py "[green]✅ 提交成功[/green]: " ++ message) ;;;
      '(success, output) <- run_git_command [py "push"] ;;
      if success
      then
        modify (set_commit_message []) ;;
        update_summary ;;
        log_message (py "[green]✅ 推送成功[/green]") ;;;
        returns (notify (py "✅ 提交并推送成功") information)
      else
        log_message (py "[yellow]⚠️ 推送失败[/yellow]: " ++ output) ;;;
        returns (notify (py "提交成功，但推送失败") warning).

End Program.

(* ===================================================================== *)
(** * The program: the other handlers of [git_tui.py] *)
(* ===================================================================== *)

(** [s.replace(old, new)]: the occurrences of [old] are replaced from the
    left and do not overlap; [skip] counts the characters of an occurrence
    still to pass over.  With an empty [old], [new] is put before every
    character and at the end. *)
Fixpoint replace_from (old new : str) (skip : nat) (s : str) : str :=
  match s with
  | [] => []
  | c :: s' =>
    match skip with
    | S k => replace_from old new k s'
    | 0 =>
      if startswith s old
      then new ++ replace_from old new (pred (length old)) s'
      else c :: replace_from old new 0 s'
    end
  end.

Definition replace (old new s : str) : str :=
  match old with
  | [] => new ++ flat_map (fun c => c :: new) s
  | _ :: _ => replace_from old new 0 s
  end.

(** [table.get_cell_at((row, column))]; [None] stands for the exception
    [CellDoesNotExist] that the table raises outside its cells. *)
Definition get_cell_at (t : DataTable) (row column : nat) : option str :=
  match nth_error t row with
  | Some cells => nth_error cells column
  | None => None
  end.

(** What the handlers read of a [DataTable.RowSelected] event: the truth
    value of [event.row_key] and [event.cursor_row]. *)
Record RowSelected : Type := {
  row_key : bool;
  cursor_row : nat
}.

Definition set_commit_detail (v : str) (g : GitLog) : GitLog :=
  {| log_table := log_table g; commit_detail := v |}.

Definition set_new_branch_input (v : str) (g : GitBranches) : GitBranches :=
  {| new_branch_input := v;
     local_branches_table := local_branches_table g;
     remote_branches_table := remote_branches_table g |}.

(** The application: the four panels, the active tab, the content shown by
    the switcher and the theme. *)
Record GitTUI : Type := {
  status_view : GitStatus;
  log_view : GitLog;
  branches_view : GitBranches;
  commit_view : GitCommit;
  tabs_active : str;
  switcher_current : str;
  theme : str
}.

Definition set_theme (v : str) (a : GitTUI) : GitTUI :=
  {| status_view := status_view a; log_view := log_view a;
     branches_view := branches_view a; commit_view := commit_view a;
     tabs_active := tabs_active a; switcher_current := switcher_current a;
     theme := v |}.


Section Handlers.

Variable World : Type.
Variable subprocess_run : list str -> World -> process_outcome * World.
Variable strftime_now : World -> str.

(** The markup parser of the widget library, which is not part of the
    program: [markup_error text] holds when parsing [text] raises
    [MarkupError], as it does for a closing tag that closes nothing.
    [RichLog.write] on the log of the commit panel, built with
    [markup=True] (line 356), and [Static.update] on the commit detail parse
    the text they are given, which holds text of the tool or of the user. *)
Variable markup_error : str -> bool.

(** ** GitStatus *)

(** [GitStatus.on_refresh], lines 124-127. *)
Definition GitStatus_on_refresh : M World GitStatus unit :=
  refresh_status subprocess_run ;;
  notify (py "状态已刷新") information.



(** ** GitLog *)

(** [GitLog.on_refresh], lines 191-194. *)
Definition GitLog_on_refresh : M World GitLog unit :=
  load_commits subprocess_run 20 ;;
  notify (py "历史已刷新") information.

(** [GitLog.on_load_more], lines 196-201.  [table] is the widget, so the
    count in the notification is read after the reload. *)
Definition on_load_more : M World GitLog unit :=
  current_count <- query (fun g => row_count (log_table g)) ;;
  load_commits subprocess_run (current_count + 20) ;;
  shown <- query (fun g => row_count (log_table g)) ;;
  notify (py "已加载 " ++ str_of_nat shown ++ py " 条记录") information.

(** [GitLog.on_row_selected], lines 203-217.  [None]: an exception leaves
    the handler, that of [get_cell_at] or that of [update] when the detail
    is not accepted as markup. *)
Definition on_row_selected (event : RowSelected)
  : Env World GitLog -> option (unit * Env World GitLog) :=
  fun e =>
    if row_key event
    then
      match get_cell_at (log_table (panel e)) (cursor_row event) 0 with
      | None => None
      | Some cell_value =>
        let hash_val := replace (py "[/cyan]") [] (replace (py "[cyan]") [] cell_value) in
        let '((success, detail), e1) :=
          run_git_command subprocess_run [py "show"; py "--stat"; hash_val] e in
        if success
        then
          let shown := if 500 <? len detail
                       then py "[dim]" ++ slice_to 500 detail ++ py "...[/dim]"
                       else py "[dim]" ++ detail ++ py "[/dim]" in
          if markup_error shown
          then None
          else Some (modify (set_commit_detail shown) e1)
        else Some (tt, e1)
      end
    else Some (tt, e).

(** ** GitBranches *)

(** [GitBranches.on_refresh], lines 283-286. *)
Definition GitBranches_on_refresh : M World GitBranches unit :=
  refresh_branches subprocess_run ;;
  notify (py "分支已刷新") information.

(** [GitBranches.on_pull], lines 288-296. *)
Definition on_pull : M World GitBranches unit :=
  notify (py "正在拉取...") information ;;
  '(success, output) <- run_git_command subprocess_run [py "pull"] ;;
  if success
  then
    refresh_branches subprocess_run ;;
    notify (py "✅ 拉取成功") information
  else notify (py "❌ 拉取失败: " ++ slice_to 50 output) error.

(** [GitBranches.on_push], lines 298-305. *)
Definition on_push : M World GitBranches unit :=
  notify (py "正在推送...") information ;;
  '(success, output) <- run_git_command subprocess_run [py "push"] ;;
  if success
  then notify (py "✅ 推送成功") information
  else notify (py "❌ 推送失败: " ++ slice_to 50 output) error.

(** [GitBranches.on_create_branch], lines 307-322. *)
Definition on_create_branch : M World GitBranches unit :=
  branch_name <- query (fun g => strip (new_branch_input g)) ;;
  if negb (truthy branch_name)
  then notify (py "请输入分支名称") warning
  else
    '(success, output) <- run_git_command subprocess_run
                            [py "checkout"; py "-b"; branch_name] ;;
    if success
    then
      modify (set_new_branch_input []) ;;
      refresh_branches subprocess_run ;;
      notify (py "✅ 已创建并切换到分支: " ++ branch_name) information
    else notify (py "❌ 创建失败: " ++ output) error.

(** [GitBranches.on_branch_selected], lines 324-335. *)
Definition on_branch_selected (event : RowSelected)
  : Env World GitBranches -> option (unit * Env World GitBranches) :=
  fun e =>
    match get_cell_at (local_branches_table (panel e)) (cursor_row event) 1 with
    | None => None
    | Some branch_name =>
      Some
        (('(success, output) <- run_git_command subprocess_run
                                  [py "checkout"; branch_name] ;;
          if success
          then
            refresh_branches subprocess_run ;;
            notify (py "✅ 已切换到分支: " ++ branch_name) information
          else notify (py "❌ 切换失败: " ++ output) error) e)
    end.

(** ** GitCommit *)

(** [GitCommit.on_undo_commit], lines 433-442. *)
Definition on_undo_commit : M World GitCommit (option unit) :=
  '(success, output) <- run_git_command subprocess_run
                          [py "reset"; py "--soft"; py "HEAD~1"] ;;
  if success
  then
    update_summary subprocess_run ;;
    log_message strftime_now markup_error (py "[yellow]↩️ 已撤销上次提交[/yellow]") ;;;
    returns (notify (py "✅ 已撤销上次提交") information)
  else
    log_message strftime_now markup_error (py "[red]❌ 操作失败[/red]: " ++ output) ;;;
    returns (notify (py "❌ 操作失败") error).

(** [GitCommit.on_amend_commit], lines 444-460. *)
Definition on_amend_commit : M World GitCommit (option unit) :=
  message <- query (fun g => strip (commit_message g)) ;;
  '(success, output) <-
     (if truthy message
      then run_git_command subprocess_run
             [py "commit"; py "--amend"; py "-m"; message]
      else run_git_command subprocess_run
             [py "commit"; py "--amend"; py "--no-edit"]) ;;
  if success
  then
    modify (set_commit_message []) ;;
    log_message strftime_now markup_error (py "[green]✏️ 已修改上次提交[/green]") ;;;
    returns (notify (py "✅ 已修改上次提交") information)
  else
    log_message strftime_now markup_error (py "[red]❌ 操作失败[/red]: " ++ output) ;;;
    returns (notify (py "❌ 操作失败") error).

(** ** GitTUI *)


(** [GitTUI.action_toggle_dark], lines 593-594. *)
Definition action_toggle_dark : M World GitTUI unit :=
  current <- query theme ;;
  modify (set_theme (if str_eqb current (py "textual-dark")
                     then py "textual-light" else py "textual-dark")).






End Handlers.

(* ===================================================================== *)
(** * The program: the task manager and the application of [app.py] *)
(* ===================================================================== *)

(** The widgets of [TaskManager] and its counter, an integer that the
    program only increments from 3. *)
Record TaskManager : Type := {
  task_counter : nat;
  task_input : str;
  task_table : DataTable
}.

(** The active tab, the content shown by the switcher and the theme of
    [DemoApp]. *)
Record DemoApp : Type := {
  demo_tabs_active : str;
  demo_switcher_current : str;
  demo_theme : str
}.

Section Demo.

Variable World : Type.

(** [datetime.now().strftime("%H:%M")] *)
Variable strftime_now_hm : World -> str.

(** [TaskManager.on_mount], lines 72-79. *)
Definition TaskManager_on_mount : M World TaskManager unit :=
  modify (fun g =>
    {| task_counter := task_counter g; task_input := task_input g;
       task_table :=
         add_row [py "3"; py "编写文档"; py "⏳ 待办"; py "15:00"]
           (add_row [py "2"; py "创建演示项目"; py "🔄 进行中"; py "14:30"]
              (add_row [py "1"; py "学习 Textual 框架"; py "✅ 完成"; py "14:00"]
                 (task_table g))) |}).

(** [TaskManager.add_task], lines 81-95. *)
Definition add_task : M World TaskManager unit :=
  task_text <- query (fun g => strip (task_input g)) ;;
  if truthy task_text
  then
    fun e =>
      let counter := task_counter (panel e) + 1 in
      let current_time := strftime_now_hm (world e) in
      (modify (fun g =>
         {| task_counter := counter;
            task_input := [];
            task_table := add_row [str_of_nat counter; task_text; py "⏳ 待办";
                                   current_time] (task_table g) |}) ;;
       notify (py "✅ 任务已添加: " ++ task_text) information) e
  else notify (py "⚠️ 请输入任务内容") warning.

(** [TaskManager.on_input_submitted], lines 97-100. *)
Definition on_input_submitted : M World TaskManager unit := add_task.


(** [DemoApp.action_toggle_dark], lines 277-280. *)
Definition DemoApp_action_toggle_dark : M World DemoApp unit :=
  current <- query demo_theme ;;
  let new_theme := if str_eqb current (py "textual-dark")
                   then py "textual-light" else py "textual-dark" in
  modify (fun a =>
    {| demo_tabs_active := demo_tabs_active a;
       demo_switcher_current := demo_switcher_current a;
       demo_theme := new_theme |}) ;;
  notify (py "主题已切换: "
            ++ (if str_in (py "light") new_theme then py "浅色" else py "深色"))
    information.

End Demo.

(* ===================================================================== *)
(** * A small repository to run the program on *)
(* ===================================================================== *)

Module Toy.

(** Whether the directory is a repository, the paths staged for the next
    commit, whether the remote accepts a push, and the lines that
    [log --pretty=format:%h|%an|%ar|%s] prints. *)
Record repo : Type := {
  is_repository : bool;
  staged_paths : list str;
  remote_reachable : bool;
  history : list str
}.

Fixpoint argv_eqb (a b : list str) : bool :=
  match a, b with
  | [], [] => true
  | x :: a', y :: b' => str_eqb x y && argv_eqb a' b'
  | _, _ => false
  end.

Definition lines_of (ls : list str) : str :=
  concat (map (fun l => l ++ [NL]) ls).

Definition status_text (r : repo) : str :=
  lines_of (map (fun p => py "A  " ++ p) (staged_paths r)).

(** The tool: every command fails outside a repository; [commit] needs a
    staged path and empties the index; [push] needs the remote. *)
Definition git (argv : list str) (r : repo) : process_outcome * repo :=
  if negb (is_repository r)
  then (Completed 128 []
          (py "fatal: not a git repository (or any of the parent directories): .git"
             ++ [NL]), r)
  else if argv_eqb argv [py "git"; py "rev-parse"; py "--show-toplevel"]
  then (Completed 0 (py "/home/dev/project" ++ [NL]) [], r)
  else if argv_eqb argv [py "git"; py "branch"; py "--show-current"]
  then (Completed 0 (py "main" ++ [NL]) [], r)
  else if argv_eqb argv [py "git"; py "status"; py "--porcelain"]
          || argv_eqb argv [py "git"; py "status"; py "--short"]
  then (Completed 0 (status_text r) [], r)
  else if argv_eqb (firstn 2 argv) [py "git"; py "log"]
  then (Completed 0 (lines_of (history r)) [], r)
  else if argv_eqb argv [py "git"; py "branch"; py "-v"]
  then (Completed 0 (py "* main abc1234 Initial commit" ++ [NL]) [], r)
  else if argv_eqb argv [py "git"; py "branch"; py "-r"]
  then (Completed 0 (lines_of [py "  origin/HEAD -> origin/main"; py "  origin/main"]) [],
        r)
  else if argv_eqb (firstn 3 argv) [py "git"; py "commit"; py "-m"]
  then
    match staged_paths r with
    | [] => (Completed 1 (py "nothing to commit, working tree clean" ++ [NL]) [], r)
    | _ :: _ =>
      (Completed 0 (py "[main 1a2b3c4] " ++ nth 3 argv [] ++ [NL]) [],
       {| is_repository := true; staged_paths := [];
          remote_reachable := remote_reachable r;
          history := (py "1a2b3c4|dev|now|" ++ nth 3 argv []) :: history r |})
    end
  else if argv_eqb argv [py "git"; py "push"]
  then
    if remote_reachable r
    then (Completed 0 [] (py "Everything up-to-date" ++ [NL]), r)
    else (Completed 128 []
            (py "fatal: unable to access 'https://example.org/project.git/'" ++ [NL]),
          r)
  else (Completed 1 [] (py "git: unknown command" ++ [NL]), r).

Definition clock (r : repo) : str := py "12:00:00".

(** A markup parser.  A tag is [[], then a small letter, [#], [/] or [@],
    then characters other than [[] up to the first []]].  A closing tag
    [[/name]] closes the last tag [name] that is open and [[/]] the last tag
    that is open; the text is in error when there is none. *)
Definition tag_start (c : char) : bool :=
  ((97 <=? c)%N && (c <=? 122)%N) || mem c (py "#/@").

Fixpoint close_named (name : str) (opened : list str) : option (list str) :=
  match opened with
  | [] => None
  | t :: opened' =>
    if str_eqb t name then Some opened'
    else option_map (cons t) (close_named name opened')
  end.

Definition close_tag (name : str) (opened : list str) : option (list str) :=
  match name with
  | [] => match opened with [] => None | _ :: opened' => Some opened' end
  | _ :: _ => close_named name opened
  end.

(** [tag] holds the characters read since a [[] that is not closed yet;
    [opened] holds the tags that are open, the last one first. *)
Fixpoint scan_markup (s : str) (tag : option str) (opened : list str) : bool :=
  match s with
  | [] => false
  | c :: s' =>
    match tag with
    | None => scan_markup s' (if mem c (py "[") then Some [] else None) opened
    | Some t =>
      if mem c (py "[") then scan_markup s' (Some []) opened
      else if mem c (py "]")
      then
        match t with
        | [] => scan_markup s' None opened
        | first :: name =>
          if negb (tag_start first) then scan_markup s' None opened
          else if mem first (py "/")
          then
            match close_tag (strip name) opened with
            | Some opened' => scan_markup s' None opened'
            | None => true
            end
          else scan_markup s' None (strip t :: opened)
        end
      else scan_markup s' (Some (t ++ [c])) opened
    end
  end.

Definition markup_error (text : str) : bool := scan_markup text None [].

Definition start {P : Type} (r : repo) (p : P) : Env repo P :=
  {| world := r; calls := []; notifications := []; panel := p |}.

End Toy.

(* ===================================================================== *)
(** * Notions used in the statements *)
(* ===================================================================== *)

Arguments py s : simpl never.

(** The environment [e] with another panel. *)
Definition set_panel {World P : Type} (p : P) (e : Env World P) : Env World P :=
  {| world := world e; calls := calls e; notifications := notifications e;
     panel := p |}.

(** [needle] occurs in [s] as a contiguous run of characters. *)
Definition occurs_in (needle s : str) : Prop :=
  exists before after, s = before ++ needle ++ after.

(** The rows that one status line adds to the three tables. *)
Definition staged_rows (line : str) : DataTable :=
  if (3 <=? length line) && mem (nth 0 line 0%N) (py "MADRC")
  then [[py "[green]"
           ++ dict_get [(py "M", py "修改"); (py "A", py "新增"); (py "D", py "删除");
                        (py "R", py "重命名"); (py "C", py "复制")]
                (char_at line 0) (char_at line 0)
           ++ py "[/green]";
         skipn 3 line]]
  else [].

Definition unstaged_rows (line : str) : DataTable :=
  if (3 <=? length line) && mem (nth 1 line 0%N) (py "MD")
  then [[py "[yellow]"
           ++ dict_get [(py "M", py "修改"); (py "D", py "删除")]
                (char_at line 1) (char_at line 1)
           ++ py "[/yellow]";
         skipn 3 line]]
  else [].

Definition untracked_rows (line : str) : DataTable :=
  if (3 <=? length line) && (nth 0 line 0 =? 63)%N && (nth 1 line 0 =? 63)%N
  then [[py "[red]新文件[/red]"; skipn 3 line]]
  else [].

Definition add_status_rows (s u n : DataTable) (g : GitStatus) : GitStatus :=
  {| repo_info := repo_info g;
     staged_table := staged_table g ++ s;
     unstaged_table := unstaged_table g ++ u;
     untracked_table := untracked_table g ++ n |}.

(** The rows that one line of the history, of the local branch listing and
    of the remote branch listing adds to its table. *)
Definition commit_rows (line : str) : DataTable :=
  match split BAR (Some 3) line with
  | [hash_val; author; date; message] =>
    [[py "[cyan]" ++ hash_val ++ py "[/cyan]";
      author;
      py "[dim]" ++ date ++ py "[/dim]";
      if 50 <? length message then firstn 50 message ++ py "..." else message]]
  | _ => []
  end.

Definition local_branch_rows (line : str) : DataTable :=
  let parts := split_whitespace 2 (lstrip_chars (py "* ") (strip line)) in
  if truthy (strip line) && (2 <=? length parts)
  then [[if startswith (strip line) (py "*")
         then py "[green]●[/green]" else py "[dim]○[/dim]";
         nth 0 parts [];
         firstn 40 (nth 1 parts [] ++ py " " ++ nth 2 parts [])]]
  else [].

Definition remote_branch_rows (line : str) : DataTable :=
  if truthy (strip line) && negb (str_in (py "->") (strip line))
  then [[py "[cyan]→[/cyan]"; strip line; []]]
  else [].

(** The table that a refresh builds from the result of its invocation. *)
Definition status_rows_of (rows : str -> DataTable) (status : str) : DataTable :=
  if truthy status then flat_map rows (split NL None status) else [].

Definition history_rows_of (r : bool * str) : DataTable :=
  if fst r && truthy (snd r) then flat_map commit_rows (split NL None (snd r)) else [].

Definition branch_rows_of (rows : str -> DataTable) (r : bool * str) : DataTable :=
  if fst r && truthy (snd r) then flat_map rows (split NL None (snd r)) else [].

(** The environment after one more invocation. *)
Definition after_call {World P : Type} (w : World) (cmd : list str) (r : bool * str)
  (e : Env World P) : Env World P :=
  {| world := w; calls := calls e ++ [(cmd, r)];
     notifications := notifications e; panel := panel e |}.

(** The panels that the refreshes leave, from the results of their
    invocations. *)
Definition refreshed_status (root branch status : bool * str) (g : GitStatus)
  : GitStatus :=
  if fst root && truthy (snd root)
  then {| repo_info :=
            if fst branch
            then py "[green]📂 " ++ snd root ++ py "[/green]" ++ [NL]
                   ++ py "[cyan]🌿 分支: " ++ snd branch ++ py "[/cyan]"
            else repo_info g;
          staged_table := status_rows_of staged_rows (snd status);
          unstaged_table := status_rows_of unstaged_rows (snd status);
          untracked_table := status_rows_of untracked_rows (snd status) |}
  else set_repo_info (py "[red]⚠️ 当前目录不是 Git 仓库[/red]") g.

Definition refreshed_log (r : bool * str) (g : GitLog) : GitLog :=
  {| log_table := history_rows_of r; commit_detail := commit_detail g |}.

Definition refreshed_branches (loc rem : bool * str) (g : GitBranches) : GitBranches :=
  {| new_branch_input := new_branch_input g;
     local_branches_table := branch_rows_of local_branch_rows loc;
     remote_branches_table := branch_rows_of remote_branch_rows rem |}.

Definition refreshed_summary (r : bool * str) (g : GitCommit) : GitCommit :=
  set_changes_summary
    (if fst r
     then
       let lines := if truthy (snd r) then split NL None (snd r) else [] in
       summary_text (length (filter counts_staged lines))
         (length (filter counts_unstaged lines))
         (length (filter counts_untracked lines))
     else py "[red]无法获取状态[/red]") g.

(** The character written as a one-character literal. *)
Definition chr (s : string) : char := nth 0 (py s) 0%N.

(** Concrete panels and repositories. *)
Definition blank_status : GitStatus :=
  {| repo_info := []; staged_table := []; unstaged_table := [];
     untracked_table := [] |}.

Definition shown_history : GitLog :=
  {| log_table := [[py "[cyan]abc123[/cyan]"; py "Jane"; py "[dim]2 days ago[/dim]";
                    py "Fix bug: a | b"]];
     commit_detail := [] |}.

Definition shown_branches : GitBranches :=
  {| new_branch_input := [];
     local_branches_table := [[py "[green]●[/green]"; py "main";
                               py "abc1234 Initial commit"]];
     remote_branches_table := [[py "[cyan]→[/cyan]"; py "origin/main"; []]] |}.

Definition shown_status : GitStatus :=
  {| repo_info := [];
     staged_table := [[py "[green]新增[/green]"; py "src/a.py"]];
     unstaged_table := [];
     untracked_table := [] |}.

Definition no_repository : Toy.repo :=
  {| Toy.is_repository := false; Toy.staged_paths := [];
     Toy.remote_reachable := false; Toy.history := [] |}.

Definition one_staged_no_remote : Toy.repo :=
  {| Toy.is_repository := true; Toy.staged_paths := [py "src/a.py"];
     Toy.remote_reachable := false; Toy.history := [] |}.

Definition nothing_staged : Toy.repo :=
  {| Toy.is_repository := true; Toy.staged_paths := [];
     Toy.remote_reachable := true;
     Toy.history := [py "abc123|Jane|2 days ago|Fix bug: a | b"] |}.

(** [s] neither starts nor ends with white space. *)
Definition trimmed (s : str) : Prop :=
  (forall c r, s = c :: r -> isspace c = false)
  /\ (forall c r, s = r ++ [c] -> isspace c = false).

(** The line that [log_message] writes for [message] at [timestamp]. *)
Definition log_line (timestamp message : str) : str :=
  py "[dim]" ++ timestamp ++ py "[/dim] " ++ message.


(** The user types [text] in the task field and presses the button, for
    each of [texts] in turn. *)
Definition submit_tasks {World : Type} (strftime_now_hm : World -> str)
  (texts : list str) : M World TaskManager unit :=
  for_each texts (fun text =>
    modify (fun g => {| task_counter := task_counter g; task_input := text;
                        task_table := task_table g |}) ;;
    add_task strftime_now_hm).

(** The task manager before it is mounted. *)
Definition new_task_manager : TaskManager :=
  {| task_counter := 3; task_input := []; task_table := [] |}.

(** The first cells of the rows of a table. *)
Definition first_cells (t : DataTable) : list str :=
  map (fun row => nth 0 row []) t.

(** A concrete application. *)
Definition shown_app : GitTUI :=
  {| status_view := shown_status; log_view := shown_history;
     branches_view := shown_branches;
     commit_view := {| changes_summary := []; commit_message := [];
                       commit_log := [] |};
     tabs_active := py "tab-log"; switcher_current := py "content-log";
     theme := py "textual-dark" |}.

(** A world that answers the invocations with the outcomes of a list, in
    order, whatever is asked. *)
Definition scripted (argv : list str) (w : list process_outcome)
  : process_outcome * list process_outcome :=
  match w with
  | [] => (Raised [], [])
  | outcome :: w' => (outcome, w')
  end.

(* ===================================================================== *)
(** * Strings: what the primitives compute *)
(* ===================================================================== *)

Section StringFacts.

Lemma mem_In (c : char) (chars : str) : mem c chars = true <-> In c chars.
Proof.
  unfold mem. rewrite existsb_exists. split.
  - intros [x [Hin Heq]]. apply N.eqb_eq in Heq. now subst.
  - intros Hin. exists c. split; [assumption | apply N.eqb_refl].
Qed.

Lemma mem_not_In (c : char) (chars : str) : mem c chars = false <-> ~ In c chars.
Proof.
  rewrite <- mem_In. destruct (mem c chars); split; intro H; try reflexivity;
    try discriminate; try (intro; discriminate). exfalso. now apply H.
Qed.

Lemma str_eqb_eq (a b : str) : str_eqb a b = true <-> a = b.
Proof.
  revert b. induction a as [|x a IH]; intros [|y b]; simpl; split;
    try reflexivity; try discriminate.
  - rewrite andb_true_iff, N.eqb_eq, IH. intros [-> ->]. reflexivity.
  - intros E. injection E as -> ->. rewrite N.eqb_refl. simpl. now apply IH.
Qed.

Lemma startswith_nil (s : str) : startswith s [] = true.
Proof. now destruct s. Qed.

Lemma startswith_spec (s prefix : str) :
  startswith s prefix = true <-> exists rest, s = prefix ++ rest.
Proof.
  revert s. induction prefix as [|p prefix IH]; intros [|c s]; simpl.
  - split; [intros _; now exists [] | reflexivity].
  - split; [intros _; now exists (c :: s) | reflexivity].
  - split; [discriminate | intros [rest E]; discriminate].
  - rewrite andb_true_iff, N.eqb_eq, IH. split.
    + intros [-> [rest ->]]. now exists rest.
    + intros [rest E]. injection E as -> ->. split; [reflexivity | now exists rest].
Qed.

Lemma str_in_nil (needle : str) : str_in needle [] = startswith [] needle.
Proof. simpl. apply orb_false_r. Qed.

Lemma str_in_cons (needle : str) (c : char) (s : str) :
  str_in needle (c :: s) = startswith (c :: s) needle || str_in needle s.
Proof. reflexivity. Qed.

Lemma str_in_spec (needle s : str) : str_in needle s = true <-> occurs_in needle s.
Proof.
  unfold occurs_in. induction s as [|c s IH].
  - rewrite str_in_nil, startswith_spec. split.
    + intros [rest E]. exists [], rest. exact E.
    + intros [[|b before] [after E]].
      * now exists after.
      * discriminate.
  - rewrite str_in_cons, orb_true_iff, startswith_spec, IH. split.
    + intros [[rest E] | [before [after E]]].
      * exists [], rest. exact E.
      * exists (c :: before), after. simpl. now rewrite E.
    + intros [[|b before] [after E]].
      * left. now exists after.
      * right. injection E as -> ->. now exists before, after.
Qed.

(** On a one-character string, [in] is membership of the character. *)
Lemma str_in_char (c : char) (chars : str) : str_in [c] chars = mem c chars.
Proof.
  induction chars as [|x chars IH]; [reflexivity|].
  rewrite str_in_cons, IH. simpl.
  now rewrite startswith_nil, andb_true_r, (N.eqb_sym c x).
Qed.

End StringFacts.

Section SplitFacts.








End SplitFacts.

Section WhitespaceFacts.

Lemma dropwhile_idem (p : char -> bool) (s : str) :
  dropwhile p (dropwhile p s) = dropwhile p s.
Proof.
  induction s as [|c s IH]; [reflexivity|]. simpl.
  destruct (p c) eqn:E; [exact IH|]. simpl. now rewrite E.
Qed.

Lemma takewhile_dropwhile (p : char -> bool) (s : str) :
  takewhile p s ++ dropwhile p s = s.
Proof.
  induction s as [|c s IH]; [reflexivity|]. simpl.
  destruct (p c); simpl; [now rewrite IH | reflexivity].
Qed.

Lemma takewhile_all (p : char -> bool) (s : str) :
  forall c, In c (takewhile p s) -> p c = true.
Proof.
  induction s as [|x s IH]; simpl; [tauto|].
  destruct (p x) eqn:E; simpl; [|tauto].
  intros c [<- | H]; [exact E | now apply IH].
Qed.

Lemma dropwhile_head (p : char -> bool) (s : str) (c : char) (r : str) :
  dropwhile p s = c :: r -> p c = false.
Proof.
  induction s as [|x s IH]; simpl; [discriminate|].
  destruct (p x) eqn:E; [exact IH|]. intros H. injection H as -> _. exact E.
Qed.

Lemma split_whitespace_unfold (k : nat) (s : str) :
  split_whitespace k s =
  match lstrip s with
  | [] => []
  | c :: r =>
    match k with
    | 0 => [c :: r]
    | S k' =>
      takewhile (fun x => negb (isspace x)) (c :: r)
        :: split_whitespace k' (dropwhile (fun x => negb (isspace x)) (c :: r))
    end
  end.
Proof. destruct k; reflexivity. Qed.

(** [s.split(None, k)] has [k + 1] fields at most. *)
Lemma split_whitespace_length (k : nat) (s : str) :
  length (split_whitespace k s) <= S k.
Proof.
  revert s. induction k as [|k IH]; intros s; rewrite split_whitespace_unfold;
    destruct (lstrip s) as [|c r]; cbn [length]; try lia.
  specialize (IH (dropwhile (fun x => negb (isspace x)) (c :: r))). lia.
Qed.

(** Leading white space does not change the fields. *)
Lemma split_whitespace_lstrip (k : nat) (s : str) :
  split_whitespace k (lstrip s) = split_whitespace k s.
Proof.
  rewrite (split_whitespace_unfold k (lstrip s)), (split_whitespace_unfold k s).
  unfold lstrip. now rewrite dropwhile_idem.
Qed.

(** Every field starts with a character that is not white space. *)
Lemma split_whitespace_fields (k : nat) (s : str) :
  forall f, In f (split_whitespace k s) ->
            exists c r, f = c :: r /\ isspace c = false.
Proof.
  revert s. induction k as [|k IH]; intros s f; rewrite split_whitespace_unfold;
    destruct (lstrip s) as [|c r] eqn:E; simpl In; try tauto.
  - intros [<- | []]. exists c, r. split; [reflexivity|].
    exact (dropwhile_head _ _ E).
  - pose proof (dropwhile_head _ _ E) as Hc.
    intros [<- | H]; [|exact (IH _ f H)].
    simpl. rewrite Hc. simpl. eexists _, _. split; [reflexivity | exact Hc].
Qed.

(** The fields cut before the limit contain no white space. *)
Lemma split_whitespace_cut (k : nat) (s : str) (i : nat) :
  i < k -> forall c, In c (nth i (split_whitespace k s) []) -> isspace c = false.
Proof.
  revert s i. induction k as [|k IH]; intros s i Hi; [lia|].
  rewrite split_whitespace_unfold. destruct (lstrip s) as [|x r].
  - destruct i; simpl; tauto.
  - destruct i as [|i].
    + cbn [nth]. intros c H. apply takewhile_all in H.
      now apply negb_true_iff in H.
    + cbn [nth]. apply IH. lia.
Qed.

End WhitespaceFacts.

(** The primitives on the texts of the program. *)
Example strip_output : strip (py "  * main abc1234 Initial commit " ++ [NL])
  = py "* main abc1234 Initial commit".
Proof. reflexivity. Qed.

Example split_lines : split NL None (py "M  a.py" ++ [NL] ++ py "?? b.py")
  = [py "M  a.py"; py "?? b.py"].
Proof. reflexivity. Qed.

Example split_empty : split NL None [] = [[]].
Proof. reflexivity. Qed.

Example split_three_bars : split BAR (Some 3) (py "a|b|c|d|e") = [py "a"; py "b"; py "c"; py "d|e"].
Proof. reflexivity. Qed.

Example split_fields : split_whitespace 2 (py "  feature/x   def5678 WIP  on it")
  = [py "feature/x"; py "def5678"; py "WIP  on it"].
Proof. reflexivity. Qed.

Example lstrip_marker : lstrip_chars (py "* ") (py "* main abc1234") = py "main abc1234".
Proof. reflexivity. Qed.

Example literal_code_points : py "修改" = [20462%N; 25913%N].
Proof. reflexivity. Qed.

Example summary_text_ex :
  summary_text 2 0 11
  = py "[green]已暂存: 2[/green] | [yellow]未暂存: 0[/yellow] | [red]未跟踪: 11[/red]".
Proof. reflexivity. Qed.

(* ===================================================================== *)
(** * The loops: what a line does, what a loop does *)
(* ===================================================================== *)

Section Loops.

Variable World : Type.

Lemma set_panel_same (P : Type) (e : Env World P) : set_panel (panel e) e = e.
Proof. now destruct e. Qed.

Lemma py_question : py "?" = [63%N].
Proof. reflexivity. Qed.

Lemma py_question2 : py "??" = [63%N; 63%N].
Proof. reflexivity. Qed.

Lemma py_star : py "*" = [42%N].
Proof. reflexivity. Qed.

Lemma add_status_rows_nil (g : GitStatus) : add_status_rows [] [] [] g = g.
Proof. destruct g. unfold add_status_rows. simpl. now rewrite !app_nil_r. Qed.

Lemma add_status_rows_twice (s1 u1 n1 s2 u2 n2 : DataTable) (g : GitStatus) :
  add_status_rows s2 u2 n2 (add_status_rows s1 u1 n1 g)
  = add_status_rows (s1 ++ s2) (u1 ++ u2) (n1 ++ n2) g.
Proof. unfold add_status_rows. simpl. now rewrite !app_assoc. Qed.

(** One status line appends its rows to the three tables. *)
Lemma status_line_effect (line : str) (e : Env World GitStatus) :
  status_line line e =
  (tt, set_panel (add_status_rows (staged_rows line) (unstaged_rows line)
                    (untracked_rows line) (panel e)) e).
Proof.
  unfold status_line, staged_rows, unstaged_rows, untracked_rows, len.
  destruct (Nat.ltb_spec (length line) 3) as [Hlt | Hge].
  - replace (3 <=? length line) with false
      by (symmetry; apply Nat.leb_gt; exact Hlt).
    cbn [andb]. rewrite add_status_rows_nil. unfold ret. now rewrite set_panel_same.
  - replace (3 <=? length line) with true
      by (symmetry; apply Nat.leb_le; exact Hge).
    destruct line as [|c0 [|c1 [|c2 path]]]; simpl in Hge; try lia.
    unfold char_at, slice_from. cbn [skipn firstn nth andb].
    rewrite !str_in_char, py_question.
    destruct e as [w c n [ri s u t]].
    unfold bind, modify, ret, set_panel, add_status_rows, with_staged_table,
      with_unstaged_table, with_untracked_table, add_row.
    cbn [str_eqb]. rewrite !andb_true_r.
    destruct (mem c0 (py "MADRC")), (mem c1 (py "MD")), (c0 =? 63)%N, (c1 =? 63)%N;
      cbn; rewrite ?app_nil_r; reflexivity.
Qed.

Lemma status_lines_effect (lines : list str) (e : Env World GitStatus) :
  for_each lines (@status_line World) e =
  (tt, set_panel (add_status_rows (flat_map staged_rows lines)
                    (flat_map unstaged_rows lines)
                    (flat_map untracked_rows lines) (panel e)) e).
Proof.
  revert e. induction lines as [|l lines IH]; intros e.
  - simpl. rewrite add_status_rows_nil. unfold ret. now rewrite set_panel_same.
  - cbn [for_each flat_map]. unfold bind. rewrite status_line_effect, IH.
    cbn [panel set_panel]. now rewrite add_status_rows_twice.
Qed.

(** A loop whose body appends rows to one table appends the rows of all
    its lines. *)
Lemma for_each_rows (P : Type) (with_table : (DataTable -> DataTable) -> P -> P)
  (rows : str -> DataTable) (body : str -> M World P unit) :
  (forall p, with_table (fun t => t ++ []) p = p) ->
  (forall r1 r2 p, with_table (fun t => t ++ r2) (with_table (fun t => t ++ r1) p)
                   = with_table (fun t => t ++ (r1 ++ r2)) p) ->
  (forall l e, body l e = (tt, set_panel (with_table (fun t => t ++ rows l) (panel e)) e)) ->
  forall lines e,
    for_each lines body e =
    (tt, set_panel (with_table (fun t => t ++ flat_map rows lines) (panel e)) e).
Proof.
  intros Hnil Happ Hbody lines. induction lines as [|l lines IH]; intros e.
  - simpl. rewrite Hnil. unfold ret. now rewrite set_panel_same.
  - cbn [for_each flat_map]. unfold bind. rewrite Hbody, IH.
    cbn [panel set_panel]. now rewrite Happ.
Qed.

Lemma commit_line_effect (line : str) (e : Env World GitLog) :
  commit_line line e =
  (tt, set_panel (with_log_table (fun t => t ++ commit_rows line) (panel e)) e).
Proof.
  unfold commit_line, commit_rows, len, slice_to.
  destruct e as [w c n [t d]].
  destruct (split BAR (Some 3) line) as [|h [|a [|d' [|m [|x r]]]]];
    unfold ret, modify, set_panel, with_log_table, add_row; cbn;
    rewrite ?app_nil_r; reflexivity.
Qed.

Lemma commit_lines_effect (lines : list str) (e : Env World GitLog) :
  for_each lines (@commit_line World) e =
  (tt, set_panel (with_log_table (fun t => t ++ flat_map commit_rows lines) (panel e)) e).
Proof.
  apply for_each_rows.
  - intros [t d]. unfold with_log_table. simpl. now rewrite app_nil_r.
  - intros r1 r2 [t d]. unfold with_log_table. simpl. now rewrite app_assoc.
  - apply commit_line_effect.
Qed.

Lemma local_branch_line_effect (line : str) (e : Env World GitBranches) :
  local_branch_line line e =
  (tt, set_panel (with_local_branches_table (fun t => t ++ local_branch_rows line)
                    (panel e)) e).
Proof.
  unfold local_branch_line, local_branch_rows, slice_to. cbv zeta.
  destruct e as [w c n [i l r]].
  destruct (truthy (strip line)); cbn [negb andb].
  - set (parts := split_whitespace 2 (lstrip_chars (py "* ") (strip line))).
    destruct (Nat.leb_spec 2 (length parts)) as [H2 | H2].
    + replace (1 <? length parts) with true
        by (symmetry; apply Nat.ltb_lt; lia).
      assert (E : (if 2 <? length parts then nth 2 parts [] else []) = nth 2 parts []).
      { destruct (Nat.ltb_spec 2 (length parts)) as [H3 | H3]; [reflexivity|].
        symmetry. apply nth_overflow. exact H3. }
      rewrite E. reflexivity.
    + unfold ret, set_panel, with_local_branches_table. cbn. now rewrite app_nil_r.
  - unfold ret, set_panel, with_local_branches_table. cbn. now rewrite app_nil_r.
Qed.

Lemma local_branch_lines_effect (lines : list str) (e : Env World GitBranches) :
  for_each lines (@local_branch_line World) e =
  (tt, set_panel (with_local_branches_table
                    (fun t => t ++ flat_map local_branch_rows lines) (panel e)) e).
Proof.
  apply for_each_rows.
  - intros [i l r]. unfold with_local_branches_table. simpl. now rewrite app_nil_r.
  - intros r1 r2 [i l r]. unfold with_local_branches_table. simpl.
    now rewrite app_assoc.
  - apply local_branch_line_effect.
Qed.

Lemma remote_branch_line_effect (line : str) (e : Env World GitBranches) :
  remote_branch_line line e =
  (tt, set_panel (with_remote_branches_table (fun t => t ++ remote_branch_rows line)
                    (panel e)) e).
Proof.
  unfold remote_branch_line, remote_branch_rows. cbv zeta.
  destruct e as [w c n [i l r]].
  destruct (truthy (strip line) && negb (str_in (py "->") (strip line))).
  - reflexivity.
  - unfold ret, set_panel, with_remote_branches_table. cbn. now rewrite app_nil_r.
Qed.

Lemma remote_branch_lines_effect (lines : list str) (e : Env World GitBranches) :
  for_each lines (@remote_branch_line World) e =
  (tt, set_panel (with_remote_branches_table
                    (fun t => t ++ flat_map remote_branch_rows lines) (panel e)) e).
Proof.
  apply for_each_rows.
  - intros [i l r]. unfold with_remote_branches_table. simpl. now rewrite app_nil_r.
  - intros r1 r2 [i l r]. unfold with_remote_branches_table. simpl.
    now rewrite app_assoc.
  - apply remote_branch_line_effect.
Qed.

End Loops.

(* ===================================================================== *)
(** * The refreshes: what they leave, from the results of their calls *)
(* ===================================================================== *)

Section Refreshes.

Variable World : Type.
Variable run : list str -> World -> process_outcome * World.

Lemma run_git_command_snd (P : Type) (cmd : list str) (e : Env World P) :
  snd (run_git_command run cmd e)
  = after_call (snd (run (py "git" :: cmd) (world e))) cmd
      (fst (run_git_command run cmd e)) e.
Proof.
  unfold run_git_command. now destruct (run (py "git" :: cmd) (world e)).
Qed.

(** The result of an invocation depends on the world alone. *)
Lemma run_git_command_set_panel (P : Type) (cmd : list str) (q : P)
  (e : Env World P) :
  run_git_command run cmd (set_panel q e)
  = (fst (run_git_command run cmd e), set_panel q (snd (run_git_command run cmd e))).
Proof.
  unfold run_git_command. cbn [world set_panel].
  now destruct (run (py "git" :: cmd) (world e)).
Qed.

Lemma run_git_command_calls (P : Type) (cmd : list str) (e : Env World P) :
  calls (snd (run_git_command run cmd e))
  = calls e ++ [(cmd, fst (run_git_command run cmd e))].
Proof. now rewrite run_git_command_snd. Qed.

Lemma run_git_command_panel (P : Type) (cmd : list str) (e : Env World P) :
  panel (snd (run_git_command run cmd e)) = panel e.
Proof. now rewrite run_git_command_snd. Qed.

Lemma run_git_command_notifications (P : Type) (cmd : list str) (e : Env World P) :
  notifications (snd (run_git_command run cmd e)) = notifications e.
Proof. now rewrite run_git_command_snd. Qed.

Lemma calls_since_app (P : Type) (e e' : Env World P)
  (l : list (list str * (bool * str))) :
  calls e' = calls e ++ l -> calls_since e e' = l.
Proof.
  intros E. unfold calls_since. rewrite E, skipn_app, skipn_all, Nat.sub_diag.
  reflexivity.
Qed.

Lemma load_commits_effect (count : nat) (e : Env World GitLog) :
  let c := run_git_command run
             [py "log"; py "-" ++ str_of_nat count; py "--pretty=format:%h|%an|%ar|%s"]
             e in
  load_commits run count e = (tt, set_panel (refreshed_log (fst c) (panel e)) (snd c)).
Proof.
  cbv zeta. unfold load_commits, bind.
  destruct (run_git_command run _ e) as [[success output] e1] eqn:E.
  assert (Hp : panel e1 = panel e).
  { change e1 with (snd ((success, output), e1)). rewrite <- E.
    apply run_git_command_panel. }
  cbn [fst snd]. unfold modify at 1. unfold refreshed_log, history_rows_of.
  cbn [fst snd].
  destruct success, (truthy output); cbn [negb orb andb].
  - rewrite commit_lines_effect. cbn [panel set_panel]. rewrite Hp.
    unfold with_log_table, clear. reflexivity.
  - unfold ret, set_panel. cbn. now rewrite Hp.
  - unfold ret, set_panel. cbn. now rewrite Hp.
  - unfold ret, set_panel. cbn. now rewrite Hp.
Qed.

Lemma update_summary_effect (e : Env World GitCommit) :
  let c := run_git_command run [py "status"; py "--short"] e in
  update_summary run e = (tt, set_panel (refreshed_summary (fst c) (panel e)) (snd c)).
Proof.
  cbv zeta. unfold update_summary, bind.
  destruct (run_git_command run _ e) as [[success status] e1] eqn:E.
  assert (Hp : panel e1 = panel e).
  { change e1 with (snd ((success, status), e1)). rewrite <- E.
    apply run_git_command_panel. }
  cbn [fst snd]. unfold refreshed_summary. cbn [fst snd].
  destruct success; unfold modify, set_panel; cbn; now rewrite Hp.
Qed.

Lemma refresh_branches_effect (e : Env World GitBranches) :
  let c1 := run_git_command run [py "branch"; py "-v"] e in
  let c2 := run_git_command run [py "branch"; py "-r"] (snd c1) in
  refresh_branches run e
  = (tt, set_panel (refreshed_branches (fst c1) (fst c2) (panel e)) (snd c2)).
Proof.
  cbv zeta. unfold refresh_branches, bind.
  destruct (run_git_command run [py "branch"; py "-v"] e) as [[ok1 out1] e1] eqn:E1.
  assert (Hp : panel e1 = panel e).
  { change e1 with (snd ((ok1, out1), e1)). rewrite <- E1.
    apply run_git_command_panel. }
  cbn [fst snd]. unfold modify at 1.
  set (e1' := {| world := world e1; calls := calls e1;
                 notifications := notifications e1;
                 panel := with_local_branches_table clear (panel e1) |}).
  assert (Hloop :
    (if ok1 && truthy out1
     then for_each (split NL None out1) (@local_branch_line World)
     else ret tt) e1'
    = (tt, set_panel {| new_branch_input := new_branch_input (panel e);
                        local_branches_table :=
                          branch_rows_of local_branch_rows (ok1, out1);
                        remote_branches_table := remote_branches_table (panel e) |}
             e1)).
  { unfold branch_rows_of. cbn [fst snd]. destruct (ok1 && truthy out1).
    - rewrite local_branch_lines_effect. unfold e1', set_panel. cbn. now rewrite Hp.
    - unfold ret, e1', set_panel. cbn. now rewrite Hp. }
  rewrite Hloop. rewrite run_git_command_set_panel.
  destruct (run_git_command run [py "branch"; py "-r"] e1) as [[ok2 out2] e2] eqn:E2.
  cbn [fst snd]. unfold modify at 1. unfold refreshed_branches, branch_rows_of.
  cbn [fst snd panel set_panel world calls notifications].
  destruct (ok2 && truthy out2).
  - rewrite remote_branch_lines_effect. reflexivity.
  - reflexivity.
Qed.

Lemma refresh_status_effect (e : Env World GitStatus) :
  let c1 := run_git_command run [py "rev-parse"; py "--show-toplevel"] e in
  let c2 := run_git_command run [py "branch"; py "--show-current"] (snd c1) in
  let c3 := run_git_command run [py "status"; py "--porcelain"] (snd c2) in
  refresh_status run e
  = (tt, set_panel (refreshed_status (fst c1) (fst c2) (fst c3) (panel e))
           (if fst (fst c1) && truthy (snd (fst c1)) then snd c3 else snd c1)).
Proof.
  cbv zeta. unfold refresh_status, get_repo_root, bind.
  destruct (run_git_command run [py "rev-parse"; py "--show-toplevel"] e)
    as [[ok1 root] e1] eqn:E1.
  assert (Hp1 : panel e1 = panel e).
  { change e1 with (snd ((ok1, root), e1)). rewrite <- E1.
    apply run_git_command_panel. }
  cbn [fst snd]. unfold ret at 1. unfold refreshed_status. cbn [fst snd].
  destruct ok1; cbn [andb].
  2:{ unfold modify, set_panel. cbn. now rewrite Hp1. }
  destruct (truthy root); cbn [negb].
  2:{ unfold modify, set_panel. cbn. now rewrite Hp1. }
  destruct (run_git_command run [py "branch"; py "--show-current"] e1)
    as [[ok2 branch] e2] eqn:E2.
  assert (Hp2 : panel e2 = panel e).
  { change e2 with (snd ((ok2, branch), e2)). rewrite <- E2.
    now rewrite run_git_command_panel. }
  cbn [fst snd].
  set (info := py "[green]📂 " ++ root ++ py "[/green]" ++ [NL]
                 ++ py "[cyan]🌿 分支: " ++ branch ++ py "[/cyan]").
  assert (Hinfo :
    (if ok2 then modify (set_repo_info info) else ret tt) e2
    = (tt, set_panel (set_repo_info (if ok2 then info else repo_info (panel e))
                        (panel e)) e2)).
  { destruct ok2; unfold modify, ret, set_panel; cbn; rewrite ?Hp2;
      [reflexivity|]. destruct e2 as [w c n p]. cbn in *. subst p.
    now destruct (panel e). }
  rewrite Hinfo. rewrite run_git_command_set_panel.
  destruct (run_git_command run [py "status"; py "--porcelain"] e2)
    as [[ok3 status] e3] eqn:E3.
  cbn [fst snd]. unfold modify. cbn [fst snd panel set_panel world calls notifications].
  unfold status_rows_of.
  destruct (truthy status); cbn [negb].
  - rewrite status_lines_effect. reflexivity.
  - reflexivity.
Qed.

End Refreshes.

(* ===================================================================== *)
(** * StatusParser *)
(* ===================================================================== *)

Section StatusParser.

Variable World : Type.

Lemma truthy_true (s : str) : truthy s = true <-> s <> [].
Proof. destruct s; simpl; split; congruence. Qed.

Lemma truthy_false (s : str) : truthy s = false <-> s = [].
Proof. destruct s; simpl; split; congruence. Qed.

Lemma chr_question : chr "?" = 63%N.
Proof. reflexivity. Qed.

(** C4.  A status line shorter than 3 characters changes nothing.  A line of
    at least 3 characters adds one row to the staged table exactly when its
    character at index 0 is one of M, A, D, R, C, one row to the unstaged
    table exactly when its character at index 1 is M or D, and one row to
    the untracked table exactly when both characters are [?]; the path of
    every added row is the line from index 3 on, and nothing but the three
    tables changes. *)
Theorem status_line_classification (line : str) (e : Env World GitStatus) :
  let e' := snd (status_line line e) in
  let path := skipn 3 line in
  let x := nth 0 line 0%N in
  let y := nth 1 line 0%N in
  (length line < 3 -> e' = e)
  /\ (3 <= length line ->
      (world e' = world e /\ calls e' = calls e
       /\ notifications e' = notifications e
       /\ repo_info (panel e') = repo_info (panel e))
      /\ (In x (py "MADRC") ->
          exists label,
            staged_table (panel e') = staged_table (panel e) ++ [[label; path]])
      /\ (~ In x (py "MADRC") -> staged_table (panel e') = staged_table (panel e))
      /\ (In y (py "MD") ->
          exists label,
            unstaged_table (panel e') = unstaged_table (panel e) ++ [[label; path]])
      /\ (~ In y (py "MD") -> unstaged_table (panel e') = unstaged_table (panel e))
      /\ (x = chr "?" /\ y = chr "?" ->
          exists label,
            untracked_table (panel e') = untracked_table (panel e) ++ [[label; path]])
      /\ (~ (x = chr "?" /\ y = chr "?") ->
          untracked_table (panel e') = untracked_table (panel e))).
Proof.
  cbv zeta. rewrite status_line_effect. cbn [snd panel set_panel].
  unfold staged_rows, unstaged_rows, untracked_rows. rewrite chr_question. split.
  - intros Hlt. replace (3 <=? length line) with false
      by (symmetry; apply Nat.leb_gt; exact Hlt).
    cbn [andb]. rewrite add_status_rows_nil. apply set_panel_same.
  - intros Hge. replace (3 <=? length line) with true
      by (symmetry; apply Nat.leb_le; exact Hge).
    cbn [andb add_status_rows staged_table unstaged_table untracked_table repo_info
         world calls notifications].
    repeat split.
    + intros H. apply mem_In in H. rewrite H. eexists. reflexivity.
    + intros H. apply mem_not_In in H. rewrite H. apply app_nil_r.
    + intros H. apply mem_In in H. rewrite H. eexists. reflexivity.
    + intros H. apply mem_not_In in H. rewrite H. apply app_nil_r.
    + intros [-> ->]. cbn. eexists. reflexivity.
    + intros H.
      destruct (N.eqb_spec (nth 0 line 0%N) 63) as [E0 | E0];
        destruct (N.eqb_spec (nth 1 line 0%N) 63) as [E1 | E1];
        cbn [andb]; try apply app_nil_r.
      exfalso. apply H. now split.
Qed.

(** The two lines of the specification. *)
Example status_line_MM (e : Env World GitStatus) :
  panel (snd (status_line (py "MM src/a.py") e))
  = add_status_rows [[py "[green]修改[/green]"; py "src/a.py"]]
      [[py "[yellow]修改[/yellow]"; py "src/a.py"]] [] (panel e).
Proof. rewrite status_line_effect. reflexivity. Qed.

Example status_line_untracked (e : Env World GitStatus) :
  panel (snd (status_line (py "?? newfile.txt") e))
  = add_status_rows [] [] [[py "[red]新文件[/red]"; py "newfile.txt"]] (panel e).
Proof. rewrite status_line_effect. reflexivity. Qed.

End StatusParser.

Lemma status_line_classification_witness :
  let e := Toy.start nothing_staged blank_status in
  let e' := snd (status_line (py "MM src/a.py") e) in
  (exists label, staged_table (panel e') = [[label; py "src/a.py"]])
  /\ (exists label, unstaged_table (panel e') = [[label; py "src/a.py"]])
  /\ untracked_table (panel e') = []
  /\ snd (status_line (py "M") e) = e.
Proof.
  cbv zeta.
  destruct (status_line_classification (py "MM src/a.py")
              (Toy.start nothing_staged blank_status)) as [_ Hlong].
  destruct (status_line_classification (py "M")
              (Toy.start nothing_staged blank_status)) as [Hshort _].
  assert (L : 3 <= length (py "MM src/a.py")) by (vm_compute; lia).
  destruct (Hlong L) as (_ & Hs & _ & Hu & _ & _ & Hn).
  split; [|split; [|split]].
  - apply Hs. vm_compute. tauto.
  - apply Hu. vm_compute. tauto.
  - apply Hn. vm_compute. intros [E _]. discriminate E.
  - apply Hshort. vm_compute. lia.
Defined.


(* ===================================================================== *)
(** * HistoryParser *)
(* ===================================================================== *)

Section HistoryParser.

Variable World : Type.



(** C6.  The subject of an added row is the 4th part when it has 50
    characters at most, and its first 50 characters followed by the three
    characters [...] when it has more. *)
Theorem commit_line_subject (line h a d m : str) (e : Env World GitLog) :
  split BAR (Some 3) line = [h; a; d; m] ->
  exists hash_cell date_cell subject,
    log_table (panel (snd (commit_line line e)))
    = log_table (panel e) ++ [[hash_cell; a; date_cell; subject]]
    /\ (50 < length m ->
        subject = firstn 50 m ++ py "..." /\ length subject = 53)
    /\ (length m <= 50 -> subject = m).
Proof.
  intros E. rewrite commit_line_effect. cbn [snd panel set_panel with_log_table log_table].
  unfold commit_rows. rewrite E. eexists _, _, _. split; [reflexivity|]. split.
  - intros H. replace (50 <? length m) with true by (symmetry; apply Nat.ltb_lt; exact H).
    split; [reflexivity|]. rewrite length_app, length_firstn.
    change (length (py "...")) with 3. lia.
  - intros H. replace (50 <? length m) with false
      by (symmetry; apply Nat.ltb_ge; exact H).
    reflexivity.
Qed.

End HistoryParser.


Lemma commit_line_subject_witness :
  let m60 := repeat (chr "x") 60 in
  let m50 := repeat (chr "x") 50 in
  let e := Toy.start nothing_staged (Build_GitLog [] []) in
  (exists hash_cell date_cell subject,
     log_table (panel (snd (commit_line (py "abc123|Jane|now|" ++ m60) e)))
     = [[hash_cell; py "Jane"; date_cell; subject]]
     /\ subject = m50 ++ py "..." /\ length subject = 53)
  /\ (exists hash_cell date_cell subject,
        log_table (panel (snd (commit_line (py "abc123|Jane|now|" ++ m50) e)))
        = [[hash_cell; py "Jane"; date_cell; subject]]
        /\ subject = m50).
Proof.
  cbv zeta. split.
  - destruct (@commit_line_subject Toy.repo
                (py "abc123|Jane|now|" ++ repeat (chr "x") 60)
                (py "abc123") (py "Jane") (py "now") (repeat (chr "x") 60)
                (Toy.start nothing_staged (Build_GitLog [] [])))
      as (hc & dc & subject & Hrow & Hlong & _); [vm_compute; reflexivity|].
    exists hc, dc, subject. split; [exact Hrow|]. apply Hlong. vm_compute. lia.
  - destruct (@commit_line_subject Toy.repo
                (py "abc123|Jane|now|" ++ repeat (chr "x") 50)
                (py "abc123") (py "Jane") (py "now") (repeat (chr "x") 50)
                (Toy.start nothing_staged (Build_GitLog [] [])))
      as (hc & dc & subject & Hrow & _ & Hshort); [vm_compute; reflexivity|].
    exists hc, dc, subject. split; [exact Hrow|]. apply Hshort. vm_compute. lia.
Defined.

(** The line of the specification. *)
Example commit_line_bar_in_subject (World : Type) (e : Env World GitLog) :
  log_table (panel (snd (commit_line (py "abc123|Jane|2 days ago|Fix bug: a | b") e)))
  = log_table (panel e)
      ++ [[py "[cyan]abc123[/cyan]"; py "Jane"; py "[dim]2 days ago[/dim]";
           py "Fix bug: a | b"]].
Proof. rewrite commit_line_effect. reflexivity. Qed.

(* ===================================================================== *)
(** * BranchParser *)
(* ===================================================================== *)

Section BranchParser.

Variable World : Type.

Lemma chr_star : chr "*" = 42%N.
Proof. reflexivity. Qed.

Lemma startswith_star (s : str) :
  startswith s (py "*") = true <-> exists rest, s = chr "*" :: rest.
Proof. rewrite startswith_spec, py_star, chr_star. reflexivity. Qed.

(** [lstrip(chars)] removes a prefix made of [chars] and stops at the first
    character that is not one of them. *)
Lemma lstrip_chars_spec (chars s : str) :
  exists lead,
    s = lead ++ lstrip_chars chars s
    /\ (forall c, In c lead -> In c chars)
    /\ (forall c r, lstrip_chars chars s = c :: r -> ~ In c chars).
Proof.
  unfold lstrip_chars. exists (takewhile (fun c => mem c chars) s). split; [|split].
  - symmetry. apply takewhile_dropwhile.
  - intros c H. apply takewhile_all in H. now apply mem_In.
  - intros c r H. apply dropwhile_head in H. now apply mem_not_In.
Qed.

(** On a line that starts with the marker, [lstrip("* ")] removes the marker
    and the spaces after it, and nothing else, when what follows the spaces
    is not another [*]. *)
Lemma lstrip_chars_marker (after : str) :
  (forall c r, lstrip_chars (py " ") after = c :: r -> c <> chr "*") ->
  lstrip_chars (py "* ") (chr "*" :: after) = lstrip_chars (py " ") after.
Proof.
  unfold lstrip_chars. change (py "* ") with [42%N; 32%N].
  change (py " ") with [32%N]. change (chr "*") with 42%N.
  cbn [dropwhile mem existsb]. rewrite N.eqb_refl. cbn [orb].
  induction after as [|c after IH]; intros H; [reflexivity|].
  cbn [dropwhile mem existsb] in *. rewrite orb_false_r in *.
  destruct (N.eqb_spec c 42) as [-> | H42].
  - cbn [N.eqb Pos.eqb orb] in *. exfalso. now apply (H 42%N after).
  - destruct (N.eqb_spec c 32) as [-> | H32]; cbn [orb].
    + apply IH. exact H.
    + reflexivity.
Qed.

(** C7.  A line of the local branch listing is trimmed; a blank line is
    skipped.  The leading [*] and space characters are removed and the rest
    is split at white space into 3 fields at most, the first two of them
    free of white space.  With fewer than 2 fields the line is skipped and
    changes nothing; otherwise one row is added, with the first field as the
    name, and it is marked current exactly when the trimmed line starts with
    [*]. *)
Theorem local_branch_line_fields (line : str) (e : Env World GitBranches) :
  let s := strip line in
  let rest := lstrip_chars (py "* ") s in
  let parts := split_whitespace 2 rest in
  let e' := snd (local_branch_line line e) in
  (exists lead, s = lead ++ rest
                /\ (forall c, In c lead -> c = chr "*" \/ c = chr " ")
                /\ (forall c r, rest = c :: r -> c <> chr "*" /\ c <> chr " "))
  /\ length parts <= 3
  /\ (forall f, In f parts -> exists c r, f = c :: r /\ isspace c = false)
  /\ (forall i c, i < 2 -> In c (nth i parts []) -> isspace c = false)
  /\ (s <> [] -> 2 <= length parts ->
      exists (current : bool) (summary : str),
        e' = set_panel
               (with_local_branches_table
                  (fun t => t ++ [[if current then py "[green]●[/green]"
                                   else py "[dim]○[/dim]";
                                   nth 0 parts []; summary]])
                  (panel e)) e
        /\ (current = true <-> exists after, s = chr "*" :: after)
        /\ summary = firstn 40 (nth 1 parts [] ++ py " " ++ nth 2 parts []))
  /\ (s = [] \/ length parts < 2 -> e' = e).
Proof.
  cbv zeta. split.
  { destruct (lstrip_chars_spec (py "* ") (strip line)) as (lead & E & Hlead & Hrest).
    exists lead. split; [exact E|]. split.
    - intros c H. apply Hlead in H. change (py "* ") with [chr "*"; chr " "] in H.
      cbn [In] in H. intuition congruence.
    - intros c r H. apply Hrest in H. change (py "* ") with [chr "*"; chr " "] in H.
      cbn [In] in H. intuition congruence. }
  split; [apply split_whitespace_length|].
  split; [apply split_whitespace_fields|].
  split; [intros i c Hi; now apply split_whitespace_cut|].
  rewrite local_branch_line_effect. cbn [snd]. unfold local_branch_rows. cbv zeta.
  split.
  - intros Hs Hlen. apply truthy_true in Hs. rewrite Hs.
    replace (2 <=? _) with true by (symmetry; apply Nat.leb_le; exact Hlen).
    cbn [andb]. eexists (startswith (strip line) (py "*")), _.
    split; [reflexivity|]. split; [apply startswith_star | reflexivity].
  - intros H.
    assert (E : truthy (strip line)
                && (2 <=? length (split_whitespace 2
                                    (lstrip_chars (py "* ") (strip line)))) = false).
    { destruct H as [H | H].
      - apply truthy_false in H. now rewrite H.
      - apply andb_false_iff. right. apply Nat.leb_gt. exact H. }
    rewrite E. destruct e as [w c n [i l r]].
    unfold set_panel, with_local_branches_table. cbn. now rewrite app_nil_r.
Qed.

(** C8.  A line of the remote branch listing adds one row, whose name is the
    trimmed line, exactly when the trimmed line is not empty and [->] does
    not occur in it; any other line changes nothing. *)
Theorem remote_branch_line_alias (line : str) (e : Env World GitBranches) :
  let branch := strip line in
  let e' := snd (remote_branch_line line e) in
  (branch <> [] /\ ~ occurs_in (py "->") branch ->
   e' = set_panel
          (with_remote_branches_table
             (fun t => t ++ [[py "[cyan]→[/cyan]"; branch; []]]) (panel e)) e)
  /\ (branch = [] \/ occurs_in (py "->") branch -> e' = e).
Proof.
  cbv zeta. rewrite remote_branch_line_effect. cbn [snd]. unfold remote_branch_rows.
  split.
  - intros [Hne Hno]. apply truthy_true in Hne. rewrite Hne.
    destruct (str_in (py "->") (strip line)) eqn:E.
    + exfalso. apply Hno. now apply str_in_spec.
    + reflexivity.
  - intros H.
    assert (E : truthy (strip line) && negb (str_in (py "->") (strip line)) = false).
    { destruct H as [H | H].
      - apply truthy_false in H. now rewrite H.
      - apply str_in_spec in H. rewrite H. apply andb_false_r. }
    rewrite E. destruct e as [w c n [i l r]].
    unfold set_panel, with_remote_branches_table. cbn. now rewrite app_nil_r.
Qed.

(** The lines of the specification. *)
Example local_branch_line_current (e : Env World GitBranches) :
  local_branches_table (panel (snd (local_branch_line
                                      (py "* main abc1234 Initial commit") e)))
  = local_branches_table (panel e)
      ++ [[py "[green]●[/green]"; py "main"; py "abc1234 Initial commit"]].
Proof. rewrite local_branch_line_effect. reflexivity. Qed.

Example local_branch_line_other (e : Env World GitBranches) :
  local_branches_table (panel (snd (local_branch_line
                                      (py "  feature/x def5678 WIP") e)))
  = local_branches_table (panel e)
      ++ [[py "[dim]○[/dim]"; py "feature/x"; py "def5678 WIP"]].
Proof. rewrite local_branch_line_effect. reflexivity. Qed.

Example remote_branch_line_head (e : Env World GitBranches) :
  snd (remote_branch_line (py "origin/HEAD -> origin/main") e) = e.
Proof.
  rewrite remote_branch_line_effect. destruct e as [w c n [i l r]].
  unfold set_panel, with_remote_branches_table. cbn. now rewrite app_nil_r.
Qed.

Example remote_branch_line_main (e : Env World GitBranches) :
  remote_branches_table (panel (snd (remote_branch_line (py "origin/main") e)))
  = remote_branches_table (panel e) ++ [[py "[cyan]→[/cyan]"; py "origin/main"; []]].
Proof. rewrite remote_branch_line_effect. reflexivity. Qed.

End BranchParser.

Lemma local_branch_line_fields_witness :
  let e := Toy.start nothing_staged shown_branches in
  (exists (current : bool) (summary : str),
     snd (local_branch_line (py "* main abc1234 Initial commit") e)
     = set_panel
         (with_local_branches_table
            (fun t => t ++ [[if current then py "[green]●[/green]"
                             else py "[dim]○[/dim]";
                             py "main"; summary]])
            (panel e)) e
     /\ current = true
     /\ summary = py "abc1234 Initial commit")
  /\ snd (local_branch_line (py "  main  ") e) = e.
Proof.
  cbv zeta. split.
  - destruct (local_branch_line_fields (py "* main abc1234 Initial commit")
                (Toy.start nothing_staged shown_branches))
      as (_ & _ & _ & _ & Hrow & _).
    destruct Hrow as (current & summary & E & Hcur & Hsum).
    + vm_compute. intros H. discriminate H.
    + vm_compute. lia.
    + exists current, summary. split; [exact E|]. split.
      * apply Hcur. eexists. vm_compute. reflexivity.
      * rewrite Hsum. vm_compute. reflexivity.
  - destruct (local_branch_line_fields (py "  main  ")
                (Toy.start nothing_staged shown_branches))
      as (_ & _ & _ & _ & _ & Hskip).
    apply Hskip. right. vm_compute. lia.
Defined.

Lemma remote_branch_line_alias_witness :
  let e := Toy.start nothing_staged (Build_GitBranches [] [] []) in
  remote_branches_table (panel (snd (remote_branch_line (py "  origin/main") e)))
  = [[py "[cyan]→[/cyan]"; py "origin/main"; []]]
  /\ snd (remote_branch_line (py "  origin/HEAD -> origin/main") e) = e.
Proof.
  cbv zeta. split.
  - destruct (remote_branch_line_alias (py "  origin/main")
                (Toy.start nothing_staged (Build_GitBranches [] [] []))) as [Hadd _].
    rewrite Hadd; [vm_compute; reflexivity|]. split.
    + vm_compute. intros H. discriminate H.
    + intros H. apply str_in_spec in H. vm_compute in H. discriminate H.
  - destruct (remote_branch_line_alias (py "  origin/HEAD -> origin/main")
                (Toy.start nothing_staged (Build_GitBranches [] [] []))) as [_ Hskip].
    apply Hskip. right. apply str_in_spec. vm_compute. reflexivity.
Defined.

(* ===================================================================== *)
(** * Refreshes whose invocation fails *)
(* ===================================================================== *)

Section FailedRefresh.

Variable World : Type.
Variable run : list str -> World -> process_outcome * World.

Lemma load_commits_calls (count : nat) (e : Env World GitLog) :
  let cmd := [py "log"; py "-" ++ str_of_nat count;
              py "--pretty=format:%h|%an|%ar|%s"] in
  calls_since e (snd (load_commits run count e))
  = [(cmd, fst (run_git_command run cmd e))].
Proof.
  cbv zeta. apply calls_since_app. rewrite load_commits_effect. cbn [snd set_panel calls].
  apply run_git_command_calls.
Qed.

Lemma refresh_branches_calls (e : Env World GitBranches) :
  let c1 := run_git_command run [py "branch"; py "-v"] e in
  let c2 := run_git_command run [py "branch"; py "-r"] (snd c1) in
  calls_since e (snd (refresh_branches run e))
  = [([py "branch"; py "-v"], fst c1); ([py "branch"; py "-r"], fst c2)].
Proof.
  cbv zeta. apply calls_since_app. rewrite refresh_branches_effect.
  cbn [snd set_panel calls]. rewrite !run_git_command_calls, <- app_assoc.
  reflexivity.
Qed.

Lemma refresh_status_calls (e : Env World GitStatus) :
  let c1 := run_git_command run [py "rev-parse"; py "--show-toplevel"] e in
  let c2 := run_git_command run [py "branch"; py "--show-current"] (snd c1) in
  let c3 := run_git_command run [py "status"; py "--porcelain"] (snd c2) in
  calls_since e (snd (refresh_status run e))
  = if fst (fst c1) && truthy (snd (fst c1))
    then [([py "rev-parse"; py "--show-toplevel"], fst c1);
          ([py "branch"; py "--show-current"], fst c2);
          ([py "status"; py "--porcelain"], fst c3)]
    else [([py "rev-parse"; py "--show-toplevel"], fst c1)].
Proof.
  cbv zeta. apply calls_since_app. rewrite refresh_status_effect.
  cbn [snd set_panel calls].
  destruct (fst (fst (run_git_command run [py "rev-parse"; py "--show-toplevel"] e))
            && truthy _).
  - rewrite !run_git_command_calls, <- !app_assoc. reflexivity.
  - apply run_git_command_calls.
Qed.

Lemma update_summary_calls (e : Env World GitCommit) :
  calls_since e (snd (update_summary run e))
  = [([py "status"; py "--short"],
      fst (run_git_command run [py "status"; py "--short"] e))].
Proof.
  apply calls_since_app. rewrite update_summary_effect. cbn [snd set_panel calls].
  apply run_git_command_calls.
Qed.

(** C1, as the program has it.  A history load or a branch refresh whose
    invocation fails leaves its table empty, whatever the table held; a
    status refresh whose lookup of the repository root fails leaves the
    three file tables as they were. *)
Theorem failed_refresh_outcome :
  (forall (e : Env World GitStatus) (err : str),
      let e' := snd (refresh_status run e) in
      In ([py "rev-parse"; py "--show-toplevel"], (false, err)) (calls_since e e') ->
      staged_table (panel e') = staged_table (panel e)
      /\ unstaged_table (panel e') = unstaged_table (panel e)
      /\ untracked_table (panel e') = untracked_table (panel e))
  /\ (forall (count : nat) (e : Env World GitLog) (err : str),
         let e' := snd (load_commits run count e) in
         In ([py "log"; py "-" ++ str_of_nat count;
              py "--pretty=format:%h|%an|%ar|%s"], (false, err)) (calls_since e e') ->
         log_table (panel e') = [])
  /\ (forall (e : Env World GitBranches) (err : str),
         let e' := snd (refresh_branches run e) in
         In ([py "branch"; py "-v"], (false, err)) (calls_since e e') ->
         local_branches_table (panel e') = [])
  /\ (forall (e : Env World GitBranches) (err : str),
         let e' := snd (refresh_branches run e) in
         In ([py "branch"; py "-r"], (false, err)) (calls_since e e') ->
         remote_branches_table (panel e') = []).
Proof.
  split; [|split; [|split]].
  - intros e err e' H. subst e'. rewrite refresh_status_calls in H.
    rewrite refresh_status_effect. cbn [snd set_panel panel]. unfold refreshed_status.
    destruct (run_git_command run [py "rev-parse"; py "--show-toplevel"] e)
      as [[ok root] e1].
    cbn [fst snd] in *. destruct (ok && truthy root) eqn:E.
    + exfalso. cbn [In] in H. destruct H as [H | [H | [H | []]]].
      * injection H as -> _. discriminate E.
      * injection H as H _. discriminate H.
      * injection H as H _. discriminate H.
    + now destruct (panel e).
  - intros count e err e' H. subst e'. rewrite load_commits_calls in H.
    rewrite load_commits_effect. cbn [snd set_panel panel refreshed_log log_table].
    destruct H as [H | []]. apply (f_equal snd) in H. cbn [snd] in H.
    rewrite H. reflexivity.
  - intros e err e' H. subst e'. rewrite refresh_branches_calls in H.
    rewrite refresh_branches_effect.
    cbn [snd set_panel panel refreshed_branches local_branches_table].
    destruct H as [H | [H | []]].
    + injection H as H. rewrite H. reflexivity.
    + injection H as H _. discriminate H.
  - intros e err e' H. subst e'. rewrite refresh_branches_calls in H.
    rewrite refresh_branches_effect.
    cbn [snd set_panel panel refreshed_branches remote_branches_table].
    destruct H as [H | [H | []]].
    + injection H as H _. discriminate H.
    + injection H as H. rewrite H. reflexivity.
Qed.

End FailedRefresh.

(** C1, as the specification has it, fails: outside a repository the
    history load fails, and the table that showed a commit is empty after
    it. *)
Lemma failed_load_commits_clears_table :
  let e := Toy.start no_repository shown_history in
  let e' := snd (load_commits Toy.git 20 e) in
  (exists err,
      calls_since e e'
      = [([py "log"; py "-20"; py "--pretty=format:%h|%an|%ar|%s"], (false, err))])
  /\ log_table (panel e') <> log_table (panel e).
Proof.
  cbv zeta. split.
  - eexists. vm_compute. reflexivity.
  - vm_compute. intros H. discriminate H.
Qed.

Lemma failed_refresh_outcome_witness :
  let e := Toy.start no_repository shown_history in
  log_table (panel (snd (load_commits Toy.git 20 e))) = []
  /\ staged_table (panel (snd (refresh_status Toy.git
                                 (Toy.start no_repository shown_status))))
     = staged_table shown_status
  /\ local_branches_table (panel (snd (refresh_branches Toy.git
                                         (Toy.start no_repository shown_branches))))
     = []
  /\ remote_branches_table (panel (snd (refresh_branches Toy.git
                                          (Toy.start no_repository shown_branches))))
     = [].
Proof.
  cbv zeta.
  destruct (failed_refresh_outcome Toy.git) as (Hs & Hl & Hb & Hr).
  split; [|split; [|split]].
  - eapply (Hl 20). vm_compute. left. reflexivity.
  - eapply Hs. vm_compute. left. reflexivity.
  - eapply Hb. vm_compute. left. reflexivity.
  - eapply Hr. vm_compute. right. left. reflexivity.
Defined.

(* ===================================================================== *)
(** * Refreshing twice *)
(* ===================================================================== *)

Section RefreshTwice.

Variable World : Type.
Variable run : list str -> World -> process_outcome * World.

Lemma refreshed_status_twice (root branch status : bool * str) (g : GitStatus) :
  refreshed_status root branch status (refreshed_status root branch status g)
  = refreshed_status root branch status g.
Proof.
  unfold refreshed_status. destruct (fst root && truthy (snd root)); [|reflexivity].
  cbn [repo_info]. now destruct (fst branch).
Qed.

(** C9.  When a refresh is run twice and its invocations return the second
    time what they returned the first time, the panel after the second run
    is the panel after the first.  What a refresh leaves is a function of
    what its invocations returned: two history loads, or two branch
    refreshes, whose invocations return the same leave the same tables,
    wherever they start from; so do two status refreshes that find the
    repository root, and two status refreshes that start from equal panels
    leave equal panels. *)
Theorem refresh_twice_same_snapshot :
  (forall e : Env World GitStatus,
      let e1 := snd (refresh_status run e) in
      let e2 := snd (refresh_status run e1) in
      calls_since e1 e2 = calls_since e e1 -> panel e2 = panel e1)
  /\ (forall (count : nat) (e : Env World GitLog),
         let e1 := snd (load_commits run count e) in
         let e2 := snd (load_commits run count e1) in
         calls_since e1 e2 = calls_since e e1 -> panel e2 = panel e1)
  /\ (forall e : Env World GitBranches,
         let e1 := snd (refresh_branches run e) in
         let e2 := snd (refresh_branches run e1) in
         calls_since e1 e2 = calls_since e e1 -> panel e2 = panel e1)
  /\ (forall e f : Env World GitStatus,
         let e' := snd (refresh_status run e) in
         let f' := snd (refresh_status run f) in
         calls_since e e' = calls_since f f' ->
         (panel e = panel f -> panel e' = panel f')
         /\ (length (calls_since e e') = 3 ->
             staged_table (panel e') = staged_table (panel f')
             /\ unstaged_table (panel e') = unstaged_table (panel f')
             /\ untracked_table (panel e') = untracked_table (panel f')))
  /\ (forall (count : nat) (e f : Env World GitLog),
         let e' := snd (load_commits run count e) in
         let f' := snd (load_commits run count f) in
         calls_since e e' = calls_since f f' ->
         log_table (panel e') = log_table (panel f'))
  /\ (forall e f : Env World GitBranches,
         let e' := snd (refresh_branches run e) in
         let f' := snd (refresh_branches run f) in
         calls_since e e' = calls_since f f' ->
         local_branches_table (panel e') = local_branches_table (panel f')
         /\ remote_branches_table (panel e') = remote_branches_table (panel f')).
Proof.
  assert (Hstatus : forall e f : Env World GitStatus,
             calls_since e (snd (refresh_status run e))
             = calls_since f (snd (refresh_status run f)) ->
             exists a b c,
               panel (snd (refresh_status run e)) = refreshed_status a b c (panel e)
               /\ panel (snd (refresh_status run f))
                  = refreshed_status a b c (panel f)
               /\ (length (calls_since e (snd (refresh_status run e))) = 3 ->
                   fst a && truthy (snd a) = true)).
  { intros e f H. rewrite !refresh_status_calls in H. rewrite refresh_status_calls.
    rewrite !refresh_status_effect. cbn [snd set_panel panel].
    set (e1 := run_git_command run [py "rev-parse"; py "--show-toplevel"] e) in *.
    set (f1 := run_git_command run [py "rev-parse"; py "--show-toplevel"] f) in *.
    set (e2 := run_git_command run [py "branch"; py "--show-current"] (snd e1)) in *.
    set (f2 := run_git_command run [py "branch"; py "--show-current"] (snd f1)) in *.
    set (e3 := run_git_command run [py "status"; py "--porcelain"] (snd e2)) in *.
    set (f3 := run_git_command run [py "status"; py "--porcelain"] (snd f2)) in *.
    exists (fst e1), (fst e2), (fst e3). split; [reflexivity|].
    destruct (fst (fst e1) && truthy (snd (fst e1))) eqn:Ee;
      destruct (fst (fst f1) && truthy (snd (fst f1))) eqn:Ef.
    - injection H as H1 H2 H3. rewrite H1, H2, H3. split; reflexivity.
    - discriminate H.
    - discriminate H.
    - injection H as H1. unfold refreshed_status. rewrite Ee, <- H1, Ee.
      split; [reflexivity | intros H; discriminate H]. }
  assert (Hlog : forall count (e f : Env World GitLog),
             calls_since e (snd (load_commits run count e))
             = calls_since f (snd (load_commits run count f)) ->
             exists r,
               panel (snd (load_commits run count e)) = refreshed_log r (panel e)
               /\ panel (snd (load_commits run count f)) = refreshed_log r (panel f)).
  { intros count e f H. rewrite !load_commits_calls in H.
    rewrite !load_commits_effect. cbn [snd set_panel panel].
    set (c := run_git_command run _ e) in *.
    set (d := run_git_command run _ f) in *.
    exists (fst c). split; [reflexivity|].
    injection H as H. now rewrite H. }
  assert (Hbranches : forall e f : Env World GitBranches,
             calls_since e (snd (refresh_branches run e))
             = calls_since f (snd (refresh_branches run f)) ->
             exists a b,
               panel (snd (refresh_branches run e)) = refreshed_branches a b (panel e)
               /\ panel (snd (refresh_branches run f))
                  = refreshed_branches a b (panel f)).
  { intros e f H. rewrite !refresh_branches_calls in H.
    rewrite !refresh_branches_effect. cbn [snd set_panel panel].
    eexists _, _. split; [reflexivity|].
    injection H as H1 H2. now rewrite H1, H2. }
  split; [|split; [|split; [|split; [|split]]]].
  - intros e e1 e2 H. subst e1 e2. symmetry in H.
    destruct (Hstatus _ _ H) as (a & b & c & E1 & E2 & _).
    rewrite E2, E1. apply refreshed_status_twice.
  - intros count e e1 e2 H. subst e1 e2. symmetry in H.
    destruct (Hlog _ _ _ H) as (r & E1 & E2). rewrite E2, E1. reflexivity.
  - intros e e1 e2 H. subst e1 e2. symmetry in H.
    destruct (Hbranches _ _ H) as (a & b & E1 & E2). rewrite E2, E1. reflexivity.
  - intros e f e' f' H. subst e' f'.
    destruct (Hstatus _ _ H) as (a & b & c & E1 & E2 & Hok). split.
    + intros Hp. now rewrite E1, E2, Hp.
    + intros Hlen. rewrite E1, E2. unfold refreshed_status. rewrite (Hok Hlen).
      repeat split.
  - intros count e f e' f' H. subst e' f'.
    destruct (Hlog _ _ _ H) as (r & E1 & E2). now rewrite E1, E2.
  - intros e f e' f' H. subst e' f'.
    destruct (Hbranches _ _ H) as (a & b & E1 & E2). rewrite E1, E2. split; reflexivity.
Qed.

End RefreshTwice.

Lemma refresh_twice_same_snapshot_witness :
  let other := {| Toy.is_repository := true; Toy.staged_paths := [];
                  Toy.remote_reachable := false;
                  Toy.history := [py "abc123|Jane|2 days ago|Fix bug: a | b"] |} in
  let s1 := snd (refresh_status Toy.git (Toy.start nothing_staged shown_status)) in
  let l1 := snd (load_commits Toy.git 20 (Toy.start nothing_staged shown_history)) in
  let b1 := snd (refresh_branches Toy.git (Toy.start nothing_staged shown_branches)) in
  panel (snd (refresh_status Toy.git s1)) = panel s1
  /\ panel (snd (load_commits Toy.git 20 l1)) = panel l1
  /\ panel (snd (refresh_branches Toy.git b1)) = panel b1
  /\ staged_table (panel s1)
     = staged_table (panel (snd (refresh_status Toy.git (Toy.start other blank_status))))
  /\ log_table (panel l1)
     = log_table (panel (snd (load_commits Toy.git 20
                                (Toy.start other (Build_GitLog [] [])))))
  /\ local_branches_table (panel b1)
     = local_branches_table
         (panel (snd (refresh_branches Toy.git
                        (Toy.start other (Build_GitBranches [] [] []))))).
Proof.
  cbv zeta.
  destruct (refresh_twice_same_snapshot Toy.git) as (Hs & Hl & Hb & Hs' & Hl' & Hb').
  split; [|split; [|split; [|split; [|split]]]].
  - apply Hs. vm_compute. reflexivity.
  - apply Hl. vm_compute. reflexivity.
  - apply Hb. vm_compute. reflexivity.
  - eapply Hs'; vm_compute; reflexivity.
  - apply Hl'. vm_compute. reflexivity.
  - eapply Hb'. vm_compute. reflexivity.
Defined.

(* ===================================================================== *)
(** * The summary of the commit panel and the tables of the status panel *)
(* ===================================================================== *)

Section SummaryCounts.

Variable World : Type.
Variable run : list str -> World -> process_outcome * World.

Lemma staged_rows_count (line : str) :
  3 <= length line ->
  length (staged_rows line) = if counts_staged line then 1 else 0.
Proof.
  intros H. destruct line as [|c0 [|c1 [|c2 path]]]; simpl in H; try lia.
  unfold staged_rows, counts_staged, char_at. cbn [length skipn firstn nth truthy andb].
  rewrite str_in_char. cbn [Nat.leb andb]. now destruct (mem c0 (py "MADRC")).
Qed.

Lemma unstaged_rows_count (line : str) :
  3 <= length line ->
  length (unstaged_rows line) = if counts_unstaged line then 1 else 0.
Proof.
  intros H. destruct line as [|c0 [|c1 [|c2 path]]]; simpl in H; try lia.
  unfold unstaged_rows, counts_unstaged, char_at, len.
  cbn [length skipn firstn nth truthy andb Nat.ltb Nat.leb].
  rewrite str_in_char. now destruct (mem c1 (py "MD")).
Qed.

Lemma untracked_rows_count (line : str) :
  3 <= length line ->
  length (untracked_rows line) = if counts_untracked line then 1 else 0.
Proof.
  intros H. destruct line as [|c0 [|c1 [|c2 path]]]; simpl in H; try lia.
  unfold untracked_rows, counts_untracked. rewrite py_question2.
  cbn [length nth startswith Nat.leb andb]. rewrite ?startswith_nil, ?andb_true_r.
  now destruct (c0 =? 63)%N, (c1 =? 63)%N.
Qed.

Lemma rows_count (rows : str -> DataTable) (counts : str -> bool) (lines : list str) :
  (forall l, 3 <= length l -> length (rows l) = if counts l then 1 else 0) ->
  Forall (fun l => 3 <= length l) lines ->
  length (flat_map rows lines) = length (filter counts lines).
Proof.
  intros Hrows Hall. induction Hall as [|l lines Hl _ IH]; [reflexivity|].
  cbn [flat_map filter]. rewrite length_app, IH, (Hrows l Hl).
  now destruct (counts l).
Qed.

(** C10.  On a line of at least 3 characters the three tests of the summary
    hold exactly when the parser adds a row to the staged, the unstaged and
    the untracked table.  So when the status refresh and the summary read
    the same text, every line of which has at least 3 characters, the counts
    shown in the summary are the numbers of rows of the three tables. *)
Theorem summary_counts_agree :
  (forall (line : str) (e : Env World GitStatus),
      3 <= length line ->
      let e' := snd (status_line line e) in
      length (staged_table (panel e'))
      = length (staged_table (panel e)) + (if counts_staged line then 1 else 0)
      /\ length (unstaged_table (panel e'))
         = length (unstaged_table (panel e)) + (if counts_unstaged line then 1 else 0)
      /\ length (untracked_table (panel e'))
         = length (untracked_table (panel e))
           + (if counts_untracked line then 1 else 0))
  /\ (forall (es : Env World GitStatus) (ec : Env World GitCommit) (text : str)
             (b : bool) (c1 c2 : list str * (bool * str)),
         let es' := snd (refresh_status run es) in
         let ec' := snd (update_summary run ec) in
         calls_since es es' = [c1; c2; ([py "status"; py "--porcelain"], (b, text))] ->
         calls_since ec ec' = [([py "status"; py "--short"], (true, text))] ->
         text = [] \/ Forall (fun l => 3 <= length l) (split NL None text) ->
         changes_summary (panel ec')
         = summary_text (length (staged_table (panel es')))
             (length (unstaged_table (panel es')))
             (length (untracked_table (panel es')))).
Proof.
  split.
  - intros line e H e'. subst e'. rewrite status_line_effect.
    cbn [snd panel set_panel add_status_rows staged_table unstaged_table
         untracked_table].
    rewrite !length_app, staged_rows_count, unstaged_rows_count, untracked_rows_count
      by exact H.
    repeat split.
  - intros es ec text b c1 c2 es' ec' Hs Hc Hwf. subst es' ec'.
    rewrite refresh_status_calls in Hs. rewrite update_summary_calls in Hc.
    rewrite refresh_status_effect, update_summary_effect.
    cbn [snd set_panel panel]. unfold refreshed_status, refreshed_summary.
    set (r1 := run_git_command run [py "rev-parse"; py "--show-toplevel"] es) in *.
    set (r2 := run_git_command run [py "branch"; py "--show-current"] (snd r1)) in *.
    set (r3 := run_git_command run [py "status"; py "--porcelain"] (snd r2)) in *.
    set (r := run_git_command run [py "status"; py "--short"] ec) in *.
    destruct (fst (fst r1) && truthy (snd (fst r1))); [|discriminate Hs].
    injection Hs as _ _ Hs. injection Hc as Hc. rewrite Hs, Hc.
    cbn [fst snd changes_summary set_changes_summary staged_table unstaged_table
         untracked_table].
    unfold status_rows_of. destruct Hwf as [-> | Hwf]; [reflexivity|].
    destruct (truthy text); [|reflexivity].
    rewrite (rows_count staged_rows counts_staged staged_rows_count Hwf),
      (rows_count unstaged_rows counts_unstaged unstaged_rows_count Hwf),
      (rows_count untracked_rows counts_untracked untracked_rows_count Hwf).
    reflexivity.
Qed.

End SummaryCounts.

Lemma summary_counts_agree_witness :
  let es := Toy.start one_staged_no_remote blank_status in
  let ec := Toy.start one_staged_no_remote (Build_GitCommit [] [] []) in
  let es' := snd (refresh_status Toy.git es) in
  length (staged_table (panel (snd (status_line (py "MM src/a.py") es)))) = 1
  /\ changes_summary (panel (snd (update_summary Toy.git ec)))
     = summary_text (length (staged_table (panel es')))
         (length (unstaged_table (panel es')))
         (length (untracked_table (panel es'))).
Proof.
  cbv zeta. destruct (summary_counts_agree Toy.git) as [Hline Hall]. split.
  - destruct (Hline (py "MM src/a.py") (Toy.start one_staged_no_remote blank_status))
      as [H _]; [vm_compute; lia|].
    rewrite H. vm_compute. reflexivity.
  - eapply Hall.
    + vm_compute. reflexivity.
    + vm_compute. reflexivity.
    + right. vm_compute. repeat constructor.
Defined.

(* ===================================================================== *)
(** * Commit and push *)
(* ===================================================================== *)

Section CommitPush.

Variable World : Type.
Variable run : list str -> World -> process_outcome * World.
Variable now : World -> str.
Variable markup_error : str -> bool.

(** What [log_message] does, from the verdict of the parser on the line. *)
Lemma log_message_run (message : str) (e : Env World GitCommit) :
  let line := py "[dim]" ++ now (world e) ++ py "[/dim] " ++ message in
  log_message now markup_error message e
  = if markup_error line
    then (None, e)
    else (Some tt, set_panel (write_commit_log line (panel e)) e).
Proof. cbv zeta. unfold log_message. now destruct (markup_error _). Qed.

Lemma log_message_then (A : Type) (message : str) (k : M World GitCommit (option A))
  (e : Env World GitCommit) :
  let line := py "[dim]" ++ now (world e) ++ py "[/dim] " ++ message in
  (log_message now markup_error message ;;; k) e
  = if markup_error line
    then (None, e)
    else k (set_panel (write_commit_log line (panel e)) e).
Proof.
  cbv zeta. unfold and_then, bind. rewrite log_message_run.
  now destruct (markup_error _).
Qed.


End CommitPush.



(** C2, on a repository with one staged path whose remote cannot be reached.
    The summary shows 1 staged path.  Commit-and-push commits, fails to push
    and notifies ["committed, but the push failed"] as a warning; the index
    is empty after it, and the summary still shows 1 staged path.  A fresh
    [update_summary] would show 0, and so does [on_commit] from the same
    state, which calls [update_summary] after its commit. *)
Theorem commit_push_partial_success_stale_summary :
  let e0 := Toy.start one_staged_no_remote (Build_GitCommit [] (py "fix parser") []) in
  let e := snd (update_summary Toy.git e0) in
  let e' := snd (on_commit_push Toy.git Toy.clock Toy.markup_error e) in
  changes_summary (panel e) = summary_text 1 0 0
  /\ calls_since e e'
     = [([py "commit"; py "-m"; py "fix parser"], (true, py "[main 1a2b3c4] fix parser"));
        ([py "push"],
         (false, py "fatal: unable to access 'https://example.org/project.git/'"))]
  /\ notifications e' = [(py "提交成功，但推送失败", warning)]
  /\ Toy.staged_paths (world e') = []
  /\ changes_summary (panel e') = summary_text 1 0 0
  /\ changes_summary (panel (snd (update_summary Toy.git e'))) = summary_text 0 0 0
  /\ changes_summary (panel (snd (on_commit Toy.git Toy.clock Toy.markup_error e)))
     = summary_text 0 0 0.
Proof. vm_compute. repeat split. Qed.

(* ===================================================================== *)
(** * More on strings: trimming, replacing, counting *)
(* ===================================================================== *)

Section TrimFacts.

Lemma dropwhile_suffix (p : char -> bool) (s : str) :
  exists lead, s = lead ++ dropwhile p s /\ forall c, In c lead -> p c = true.
Proof.
  exists (takewhile p s). split.
  - symmetry. apply takewhile_dropwhile.
  - apply takewhile_all.
Qed.

(** [rstrip] keeps a prefix and drops white space only. *)
Lemma rstrip_prefix (s : str) :
  exists tail, s = rstrip s ++ tail /\ forall c, In c tail -> isspace c = true.
Proof.
  unfold rstrip. destruct (dropwhile_suffix isspace (rev s)) as (lead & E & H).
  exists (rev lead). split.
  - rewrite <- rev_app_distr, <- E. symmetry. apply rev_involutive.
  - intros c Hc. apply H. now apply in_rev.
Qed.

Lemma rstrip_last (s r : str) (c : char) : rstrip s = r ++ [c] -> isspace c = false.
Proof.
  unfold rstrip. intros E. apply (f_equal (@rev _)) in E.
  rewrite rev_involutive, rev_app_distr in E. cbn in E.
  exact (dropwhile_head _ _ E).
Qed.

Lemma dropwhile_none (p : char -> bool) (s : str) :
  (forall c r, s = c :: r -> p c = false) -> dropwhile p s = s.
Proof.
  destruct s as [|c s]; [reflexivity|]. intros H. cbn. now rewrite (H c s eq_refl).
Qed.

(** The text that [strip] returns is trimmed. *)
Lemma strip_trimmed (s : str) : trimmed (strip s).
Proof.
  unfold strip. split.
  - intros c r E. destruct (rstrip_prefix (lstrip s)) as (tail & Et & _).
    rewrite E in Et. cbn in Et. exact (dropwhile_head _ _ Et).
  - intros c r E. eapply rstrip_last. exact E.
Qed.

(** [strip] leaves a trimmed text as it is. *)
Lemma strip_of_trimmed (s : str) : trimmed s -> strip s = s.
Proof.
  intros [Hh Hl]. unfold strip, lstrip. rewrite (dropwhile_none _ Hh).
  unfold rstrip. rewrite dropwhile_none; [apply rev_involutive|].
  intros c r E. apply (Hl c (rev r)). apply (f_equal (@rev _)) in E.
  rewrite rev_involutive in E. rewrite E. reflexivity.
Qed.

Lemma strip_idempotent (s : str) : strip (strip s) = strip s.
Proof. apply strip_of_trimmed, strip_trimmed. Qed.

Lemma strip_nonspace (s : str) : strip s <> [] -> exists c, In c s /\ isspace c = false.
Proof.
  intros H. destruct (strip s) as [|c r] eqn:E; [congruence|].
  exists c. split; [|exact (proj1 (strip_trimmed s) c r E)].
  unfold strip in E. destruct (rstrip_prefix (lstrip s)) as (tail & Et & _).
  rewrite E in Et. destruct (dropwhile_suffix isspace s) as (lead & El & _).
  unfold lstrip in Et. rewrite El, Et. apply in_or_app. right. now left.
Qed.

End TrimFacts.

Section ReplaceFacts.

Lemma startswith_app (old s : str) : startswith (old ++ s) old = true.
Proof. apply startswith_spec. now exists s. Qed.

(** The characters of an occurrence to pass over are passed over. *)
Lemma replace_from_skip (old new pre s : str) :
  replace_from old new (length pre) (pre ++ s) = replace_from old new 0 s.
Proof.
  induction pre as [|c pre IH]; [reflexivity|]. cbn. exact IH.
Qed.

(** An occurrence at the start is replaced. *)
Lemma replace_from_here (old new s : str) :
  old <> [] ->
  replace_from old new 0 (old ++ s) = new ++ replace_from old new 0 s.
Proof.
  destruct old as [|o old]; [congruence|]. intros _.
  change ((o :: old) ++ s) with (o :: (old ++ s)).
  cbn [replace_from]. change (o :: old ++ s) with ((o :: old) ++ s).
  rewrite startswith_app. cbn [length pred]. now rewrite replace_from_skip.
Qed.

(** Characters that are not the first of [old] start no occurrence. *)
Lemma replace_from_other (o : char) (old new h s : str) :
  ~ In o h ->
  replace_from (o :: old) new 0 (h ++ s) = h ++ replace_from (o :: old) new 0 s.
Proof.
  induction h as [|c h IH]; intros H; [reflexivity|].
  cbn [app replace_from startswith].
  assert (E : (c =? o)%N = false).
  { apply N.eqb_neq. intros ->. apply H. now left. }
  rewrite E. cbn [andb]. f_equal. apply IH. intros Hin. apply H. now right.
Qed.


End ReplaceFacts.

Section CountFacts.


End CountFacts.

(* ===================================================================== *)
(** * The command runner and what the parsers get from it *)
(* ===================================================================== *)

Section Runner.

Variable World : Type.
Variable run : list str -> World -> process_outcome * World.



(** X1.  [run_git_command] succeeds exactly when the process completes with
    exit code 0.  The text it returns for a completed process is the
    standard output (on success) or the standard error (on failure) without
    the white space around it, and is trimmed; when the call raises, the
    result is a failure with the description of the exception. *)
Theorem run_git_command_result (P : Type) (cmd : list str) (e : Env World P) :
  let r := fst (run_git_command run cmd e) in
  match fst (run (py "git" :: cmd) (world e)) with
  | Completed returncode stdout stderr =>
    (fst r = true <-> returncode = 0%Z)
    /\ trimmed (snd r)
    /\ exists lead tail,
         (if fst r then stdout else stderr) = lead ++ snd r ++ tail
         /\ (forall c, In c lead -> isspace c = true)
         /\ (forall c, In c tail -> isspace c = true)
  | Raised description => r = (false, description)
  end.
Proof.
  cbv zeta. unfold run_git_command.
  destruct (run (py "git" :: cmd) (world e)) as [[rc out err | d] w]; cbn [fst snd].
  2: reflexivity.
  assert (Hpad : forall s, exists lead tail,
             s = lead ++ strip s ++ tail
             /\ (forall c, In c lead -> isspace c = true)
             /\ (forall c, In c tail -> isspace c = true)).
  { intros s. destruct (dropwhile_suffix isspace s) as (lead & E1 & H1).
    destruct (rstrip_prefix (lstrip s)) as (tail & E2 & H2).
    exists lead, tail. split; [|split; assumption].
    unfold strip. rewrite <- E2. exact E1. }
  destruct (Z.eqb_spec rc 0) as [-> | Hrc]; cbn [fst snd].
  - split; [tauto|]. split; [apply strip_trimmed | apply Hpad].
  - split; [split; [discriminate | tauto]|].
    split; [apply strip_trimmed | apply Hpad].
Qed.


End Runner.

Lemma run_git_command_result_witness :
  let r := fst (run_git_command Toy.git [py "branch"; py "-v"]
                  (Toy.start nothing_staged blank_status)) in
  fst r = true /\ trimmed (snd r) /\ snd r = py "* main abc1234 Initial commit".
Proof.
  cbv zeta.
  pose proof (run_git_command_result Toy.git [py "branch"; py "-v"]
                (Toy.start nothing_staged blank_status)) as H.
  cbv zeta in H.
  change (fst (Toy.git (py "git" :: [py "branch"; py "-v"])
                 (world (Toy.start nothing_staged blank_status))))
    with (Completed 0 (py "* main abc1234 Initial commit" ++ [NL]) []) in H.
  destruct H as (Hok & Htrim & _).
  split; [apply Hok; reflexivity|]. split; [exact Htrim | reflexivity].
Defined.


(* ===================================================================== *)
(** * The tables that the refreshes build *)
(* ===================================================================== *)

Section Tables.

Variable World : Type.
Variable run : list str -> World -> process_outcome * World.

Lemma app_same_nil (A : Type) (t rows : list A) : t ++ rows <> t -> rows <> [].
Proof. intros H ->. apply H. apply app_nil_r. Qed.

(** X3.  One status line adds one row at most to each table, and a line
    that adds a row to the untracked table adds none to the staged and the
    unstaged tables. *)
Theorem status_line_untracked_exclusive (line : str) (e : Env World GitStatus) :
  let e' := snd (status_line line e) in
  length (staged_table (panel e')) <= length (staged_table (panel e)) + 1
  /\ length (unstaged_table (panel e')) <= length (unstaged_table (panel e)) + 1
  /\ length (untracked_table (panel e')) <= length (untracked_table (panel e)) + 1
  /\ (untracked_table (panel e') <> untracked_table (panel e) ->
      staged_table (panel e') = staged_table (panel e)
      /\ unstaged_table (panel e') = unstaged_table (panel e)).
Proof.
  cbv zeta. rewrite status_line_effect.
  cbn [snd panel set_panel add_status_rows staged_table unstaged_table
       untracked_table].
  rewrite !length_app. unfold staged_rows, unstaged_rows, untracked_rows.
  split; [|split; [|split]].
  - destruct (_ && _); cbn [length]; lia.
  - destruct (_ && _); cbn [length]; lia.
  - destruct (_ && _); cbn [length]; lia.
  - intros H. apply app_same_nil in H.
    destruct (3 <=? length line); cbn [andb] in *; [|now rewrite !app_nil_r].
    destruct (N.eqb_spec (nth 0 line 0%N) 63) as [-> | _]; cbn [andb] in H;
      [|congruence].
    destruct (N.eqb_spec (nth 1 line 0%N) 63) as [-> | _]; [|congruence].
    change (mem 63%N (py "MADRC")) with false. change (mem 63%N (py "MD")) with false.
    now rewrite !app_nil_r.
Qed.

Lemma flat_map_length_le (rows : str -> DataTable) (lines : list str) :
  (forall l, length (rows l) <= 1) -> length (flat_map rows lines) <= length lines.
Proof.
  intros H. induction lines as [|l lines IH]; [cbn; lia|].
  cbn [flat_map length]. rewrite length_app. specialize (H l). lia.
Qed.

Lemma status_rows_of_In (rows : str -> DataTable) (text : str) (row : list str) :
  In row (status_rows_of rows text) ->
  exists line, In line (split NL None text) /\ In row (rows line).
Proof.
  unfold status_rows_of. destruct (truthy text); [|intros []].
  intros H. apply in_flat_map in H. exact H.
Qed.

Lemma status_rows_of_length (rows : str -> DataTable) (text : str) :
  (forall l, length (rows l) <= 1) ->
  length (status_rows_of rows text) <= length (split NL None text).
Proof.
  intros H. unfold status_rows_of. destruct (truthy text).
  - now apply flat_map_length_le.
  - cbn. lia.
Qed.

(** X4.  After a status refresh that found the repository, every row of the
    three tables comes from a line of the status text that has 3 characters
    at least and the status characters of its table; its path is that line
    from index 3 on.  No table has more rows than the text has lines. *)
Theorem refresh_status_rows_from_lines (e : Env World GitStatus)
  (b : bool) (text : str) (c1 c2 : list str * (bool * str)) :
  let e' := snd (refresh_status run e) in
  let lines := split NL None text in
  calls_since e e' = [c1; c2; ([py "status"; py "--porcelain"], (b, text))] ->
  (forall row, In row (staged_table (panel e')) ->
     exists label line,
       row = [label; skipn 3 line] /\ In line lines /\ 3 <= length line
       /\ In (nth 0 line 0%N) (py "MADRC"))
  /\ (forall row, In row (unstaged_table (panel e')) ->
        exists label line,
          row = [label; skipn 3 line] /\ In line lines /\ 3 <= length line
          /\ In (nth 1 line 0%N) (py "MD"))
  /\ (forall row, In row (untracked_table (panel e')) ->
        exists label line,
          row = [label; skipn 3 line] /\ In line lines /\ 3 <= length line
          /\ nth 0 line 0%N = chr "?" /\ nth 1 line 0%N = chr "?")
  /\ length (staged_table (panel e')) <= length lines
  /\ length (unstaged_table (panel e')) <= length lines
  /\ length (untracked_table (panel e')) <= length lines.
Proof.
  cbv zeta. intros H. rewrite refresh_status_calls in H.
  rewrite refresh_status_effect. cbn [snd set_panel panel]. unfold refreshed_status.
  set (r1 := run_git_command run [py "rev-parse"; py "--show-toplevel"] e) in *.
  set (r2 := run_git_command run [py "branch"; py "--show-current"] (snd r1)) in *.
  set (r3 := run_git_command run [py "status"; py "--porcelain"] (snd r2)) in *.
  destruct (fst (fst r1) && truthy (snd (fst r1))); [|discriminate H].
  injection H as _ _ H. rewrite H.
  cbn [fst snd staged_table unstaged_table untracked_table].
  split; [|split; [|split; [|split; [|split]]]].
  - intros row Hrow. apply status_rows_of_In in Hrow.
    destruct Hrow as (line & Hline & Hrow). unfold staged_rows in Hrow.
    destruct (Nat.leb_spec 3 (length line)) as [Hlen | _]; [|destruct Hrow].
    cbn [andb] in Hrow. destruct (mem _ _) eqn:Hm; [|destruct Hrow].
    destruct Hrow as [<- | []]. eexists _, line.
    split; [reflexivity|]. split; [exact Hline|]. split; [exact Hlen|].
    now apply mem_In.
  - intros row Hrow. apply status_rows_of_In in Hrow.
    destruct Hrow as (line & Hline & Hrow). unfold unstaged_rows in Hrow.
    destruct (Nat.leb_spec 3 (length line)) as [Hlen | _]; [|destruct Hrow].
    cbn [andb] in Hrow. destruct (mem _ _) eqn:Hm; [|destruct Hrow].
    destruct Hrow as [<- | []]. eexists _, line.
    split; [reflexivity|]. split; [exact Hline|]. split; [exact Hlen|].
    now apply mem_In.
  - intros row Hrow. apply status_rows_of_In in Hrow.
    destruct Hrow as (line & Hline & Hrow). unfold untracked_rows in Hrow.
    destruct (Nat.leb_spec 3 (length line)) as [Hlen | _]; [|destruct Hrow].
    cbn [andb] in Hrow.
    destruct (N.eqb_spec (nth 0 line 0%N) 63) as [E0 | _]; [|destruct Hrow].
    destruct (N.eqb_spec (nth 1 line 0%N) 63) as [E1 | _]; [|destruct Hrow].
    destruct Hrow as [<- | []]. eexists _, line.
    split; [reflexivity|]. split; [exact Hline|]. split; [exact Hlen|].
    split; [exact E0 | exact E1].
  - apply status_rows_of_length. intros l. unfold staged_rows.
    destruct (_ && _); cbn; lia.
  - apply status_rows_of_length. intros l. unfold unstaged_rows.
    destruct (_ && _); cbn; lia.
  - apply status_rows_of_length. intros l. unfold untracked_rows.
    destruct (_ && _); cbn; lia.
Qed.




Lemma branch_rows_of_In (rows : str -> DataTable) (r : bool * str) (row : list str) :
  In row (branch_rows_of rows r) -> exists line, In row (rows line).
Proof.
  unfold branch_rows_of. destruct (fst r && truthy (snd r)); [|intros []].
  intros H. apply in_flat_map in H. destruct H as (line & _ & H). now exists line.
Qed.

(** X6.  After any branch refresh, every row of the local table has a name
    that is not empty and contains no white space, a summary of 40
    characters at most, and one of the two status marks; every row of the
    remote table has a name that is trimmed, not empty and without [->]. *)
Theorem refresh_branches_rows (e : Env World GitBranches) :
  let e' := snd (refresh_branches run e) in
  (forall row, In row (local_branches_table (panel e')) ->
     exists mark name summary,
       row = [mark; name; summary]
       /\ (mark = py "[green]●[/green]" \/ mark = py "[dim]○[/dim]")
       /\ name <> [] /\ (forall c, In c name -> isspace c = false)
       /\ length summary <= 40)
  /\ (forall row, In row (remote_branches_table (panel e')) ->
        exists name,
          row = [py "[cyan]→[/cyan]"; name; []]
          /\ name <> [] /\ trimmed name /\ ~ occurs_in (py "->") name).
Proof.
  cbv zeta. rewrite refresh_branches_effect.
  cbn [snd set_panel panel refreshed_branches local_branches_table
       remote_branches_table].
  split.
  - intros row Hrow. apply branch_rows_of_In in Hrow. destruct Hrow as (line & Hrow).
    unfold local_branch_rows in Hrow. cbv zeta in Hrow.
    set (parts := split_whitespace 2 (lstrip_chars (py "* ") (strip line))) in *.
    destruct (truthy (strip line)); cbn [andb] in Hrow; [|destruct Hrow].
    destruct (Nat.leb_spec 2 (length parts)) as [Hlen | _]; [|destruct Hrow].
    destruct Hrow as [<- | []]. eexists _, _, _. split; [reflexivity|].
    split; [destruct (startswith _ _); tauto|].
    assert (Hin : In (nth 0 parts []) parts) by (apply nth_In; lia).
    split.
    + destruct (split_whitespace_fields _ _ _ Hin) as (c & r & E & _). rewrite E.
      discriminate.
    + split.
      * intros c. apply split_whitespace_cut. lia.
      * rewrite length_firstn. lia.
  - intros row Hrow. apply branch_rows_of_In in Hrow. destruct Hrow as (line & Hrow).
    unfold remote_branch_rows in Hrow.
    destruct (truthy (strip line)) eqn:Ht; cbn [andb] in Hrow; [|destruct Hrow].
    destruct (str_in (py "->") (strip line)) eqn:Hs; cbn [negb] in Hrow;
      [destruct Hrow|].
    destruct Hrow as [<- | []]. exists (strip line). split; [reflexivity|].
    split; [now apply truthy_true|]. split; [apply strip_trimmed|].
    intros Ho. apply str_in_spec in Ho. congruence.
Qed.

End Tables.

Lemma status_line_untracked_exclusive_witness :
  let e := Toy.start nothing_staged shown_status in
  let e' := snd (status_line (py "?? newfile.txt") e) in
  staged_table (panel e') = staged_table (panel e)
  /\ unstaged_table (panel e') = unstaged_table (panel e).
Proof.
  cbv zeta.
  destruct (status_line_untracked_exclusive (py "?? newfile.txt")
              (Toy.start nothing_staged shown_status)) as (_ & _ & _ & H).
  apply H. vm_compute. intros E. discriminate E.
Defined.

Lemma refresh_status_rows_from_lines_witness :
  let e := Toy.start one_staged_no_remote blank_status in
  let e' := snd (refresh_status Toy.git e) in
  (forall row, In row (staged_table (panel e')) ->
     exists label line,
       row = [label; skipn 3 line] /\ In line (split NL None (py "A  src/a.py"))
       /\ 3 <= length line /\ In (nth 0 line 0%N) (py "MADRC"))
  /\ length (staged_table (panel e')) <= 1.
Proof.
  cbv zeta.
  destruct (@refresh_status_rows_from_lines _ Toy.git
              (Toy.start one_staged_no_remote blank_status) true (py "A  src/a.py")
              ([py "rev-parse"; py "--show-toplevel"], (true, py "/home/dev/project"))
              ([py "branch"; py "--show-current"], (true, py "main")))
    as (Hs & _ & _ & Hl & _).
  - vm_compute. reflexivity.
  - split; [exact Hs | exact Hl].
Defined.


Lemma refresh_branches_rows_witness :
  let e := Toy.start nothing_staged (Build_GitBranches [] [] []) in
  let e' := snd (refresh_branches Toy.git e) in
  exists name,
    [py "[cyan]→[/cyan]"; py "origin/main"; []] = [py "[cyan]→[/cyan]"; name; []]
    /\ name <> [] /\ trimmed name /\ ~ occurs_in (py "->") name.
Proof.
  cbv zeta.
  destruct (refresh_branches_rows Toy.git
              (Toy.start nothing_staged (Build_GitBranches [] [] []))) as [_ H].
  apply H. vm_compute. left. reflexivity.
Defined.

(* ===================================================================== *)
(** * The buttons of the status and history panels *)
(* ===================================================================== *)

Section StatusAndLogButtons.

Variable World : Type.
Variable run : list str -> World -> process_outcome * World.
Variable markup_error : str -> bool.

(** An invocation followed by the rest of a handler. *)
Lemma bind_run (P A : Type) (cmd : list str) (k : bool * str -> M World P A)
  (e : Env World P) :
  bind (run_git_command run cmd) k e
  = k (fst (run_git_command run cmd e))
      (after_call (snd (run (py "git" :: cmd) (world e))) cmd
         (fst (run_git_command run cmd e)) e).
Proof.
  unfold bind. rewrite <- run_git_command_snd.
  now destruct (run_git_command run cmd e).
Qed.

Lemma calls_since_trans (P : Type) (e e1 e2 : Env World P)
  (l1 l2 : list (list str * (bool * str))) :
  calls e1 = calls e ++ l1 -> calls_since e1 e2 = l2 -> calls e2 = calls e1 ++ l2 ->
  calls_since e e2 = l1 ++ l2.
Proof.
  intros H1 _ H2. apply calls_since_app. rewrite H2, H1. now rewrite app_assoc.
Qed.



(** X8.  Load-more asks for 20 commits more than the table shows, rebuilds
    the table from the result and notifies the number of rows of the rebuilt
    table.  When the invocation fails the table is left empty and the
    notification, an information, says 0: no error is notified. *)
Theorem load_more_outcome (e : Env World GitLog) :
  let shown := length (log_table (panel e)) in
  let cmd := [py "log"; py "-" ++ str_of_nat (shown + 20);
              py "--pretty=format:%h|%an|%ar|%s"] in
  let r := fst (run_git_command run cmd e) in
  let e' := snd (on_load_more run e) in
  calls_since e e' = [(cmd, r)]
  /\ panel e' = refreshed_log r (panel e)
  /\ notifications e'
     = notifications e
         ++ [(py "已加载 " ++ str_of_nat (length (log_table (panel e')))
                ++ py " 条记录", information)]
  /\ (fst r = false ->
      log_table (panel e') = []
      /\ notifications e' = notifications e ++ [(py "已加载 0 条记录", information)]).
Proof.
  cbv zeta. unfold on_load_more, bind, query, row_count.
  pose proof (load_commits_calls run (length (log_table (panel e)) + 20) e) as Hc.
  cbv zeta in Hc. rewrite load_commits_effect in *. cbv beta iota.
  unfold notify. cbn [snd panel calls notifications set_panel] in *.
  rewrite run_git_command_notifications.
  split; [exact Hc|]. split; [reflexivity|]. split; [reflexivity|].
  intros Hfail. unfold refreshed_log, history_rows_of. cbn [log_table].
  rewrite Hfail. cbn [andb]. split; reflexivity.
Qed.

Lemma some_pair_eq (A : Type) (a b : A) : Some (tt, a) = Some (tt, b) -> b = a.
Proof. intros E. now injection E. Qed.

Lemma get_cell_at_Some (t : DataTable) (i j : nat) (row : list str) (cell : str) :
  nth_error t i = Some row -> nth_error row j = Some cell ->
  get_cell_at t i j = Some cell.
Proof. unfold get_cell_at. now intros -> ->. Qed.

(** The hash comes back out of its cell. *)
Lemma hash_of_cell (h : str) :
  ~ In (chr "[") h ->
  replace (py "[/cyan]") [] (replace (py "[cyan]") [] (py "[cyan]" ++ h ++ py "[/cyan]"))
  = h.
Proof.
  intros Hh.
  assert (E1 : replace (py "[cyan]") [] (py "[cyan]" ++ h ++ py "[/cyan]")
               = h ++ py "[/cyan]").
  { change (replace (py "[cyan]") [] (py "[cyan]" ++ h ++ py "[/cyan]"))
      with (replace_from (py "[cyan]") [] 0 (py "[cyan]" ++ h ++ py "[/cyan]")).
    rewrite replace_from_here by discriminate.
    change (py "[cyan]") with (chr "[" :: py "cyan]").
    cbn [app]. rewrite replace_from_other by exact Hh. reflexivity. }
  rewrite E1.
  change (replace (py "[/cyan]") [] (h ++ py "[/cyan]"))
    with (replace_from (chr "[" :: py "/cyan]") [] 0 (h ++ py "[/cyan]")).
  rewrite replace_from_other by exact Hh. cbn. apply app_nil_r.
Qed.

(** X9.  Selecting a row of the history whose first cell is the marked-up
    hash [h] (free of the character [[]) asks the tool for [show --stat h].
    When that fails the handler returns with the panel as it was: nothing
    is reported.  When it succeeds, the detail to show is the text of the
    tool, cut to its first 500 characters when it has more, between the
    tags of [dim]: the handler shows it and returns when it is accepted as
    markup, and is left by the exception of the parser when it is not.
    Whenever the handler returns, the one invocation was made and the table
    and the notifications are as they were. *)
Theorem row_selected_shows_commit (event : RowSelected) (e : Env World GitLog)
  (h : str) (rest : list str) :
  let r := fst (run_git_command run [py "show"; py "--stat"; h] e) in
  let shown := if 500 <? length (snd r)
               then py "[dim]" ++ firstn 500 (snd r) ++ py "...[/dim]"
               else py "[dim]" ++ snd r ++ py "[/dim]" in
  row_key event = true ->
  nth_error (log_table (panel e)) (cursor_row event)
  = Some ((py "[cyan]" ++ h ++ py "[/cyan]") :: rest) ->
  ~ In (chr "[") h ->
  (fst r = true -> markup_error shown = true ->
   on_row_selected run markup_error event e = None)
  /\ (fst r = false \/ markup_error shown = false ->
      exists e',
        on_row_selected run markup_error event e = Some (tt, e')
        /\ calls_since e e' = [([py "show"; py "--stat"; h], r)]
        /\ log_table (panel e') = log_table (panel e)
        /\ notifications e' = notifications e
        /\ (fst r = false -> panel e' = panel e)
        /\ (fst r = true -> length (snd r) <= 500 ->
            commit_detail (panel e') = py "[dim]" ++ snd r ++ py "[/dim]")
        /\ (fst r = true -> 500 < length (snd r) ->
            commit_detail (panel e')
            = py "[dim]" ++ firstn 500 (snd r) ++ py "...[/dim]")).
Proof.
  cbv zeta. intros Hkey Hrow Hh. unfold on_row_selected. rewrite Hkey.
  rewrite (get_cell_at_Some _ _ 0 Hrow eq_refl). rewrite hash_of_cell by exact Hh.
  pose proof (run_git_command_snd run [py "show"; py "--stat"; h] e) as Hsnd.
  destruct (run_git_command run [py "show"; py "--stat"; h] e) as [[ok detail] e1].
  cbn [fst snd] in *. subst e1. unfold len, slice_to. split.
  - intros -> ->. reflexivity.
  - intros Hor. destruct ok.
    + destruct Hor as [Hor | ->]; [discriminate Hor|].
      unfold modify, after_call. eexists. split; [reflexivity|].
      cbn [panel calls notifications set_commit_detail log_table commit_detail].
      split; [apply calls_since_app; reflexivity|].
      split; [reflexivity|]. split; [reflexivity|].
      split; [discriminate|]. split.
      * intros _ H. replace (500 <? length detail) with false
          by (symmetry; apply Nat.ltb_ge; exact H). reflexivity.
      * intros _ H. replace (500 <? length detail) with true
          by (symmetry; apply Nat.ltb_lt; exact H). reflexivity.
    + unfold after_call. eexists. split; [reflexivity|].
      cbn [panel calls notifications].
      split; [apply calls_since_app; reflexivity|].
      split; [reflexivity|]. split; [reflexivity|].
      split; [reflexivity|]. split; discriminate.
Qed.

(** X10.  The other cases of a row selection.  With a false row key the
    handler does nothing.  With a cursor outside the rows of the table the
    exception of [get_cell_at] leaves the handler.  Whenever the handler
    returns, no notification is added, the table is as it was, and the
    detail is as it was or has 514 characters at most. *)
Theorem row_selected_edges (event : RowSelected) (e : Env World GitLog) :
  (row_key event = false -> on_row_selected run markup_error event e = Some (tt, e))
  /\ (row_key event = true ->
      length (log_table (panel e)) <= cursor_row event ->
      on_row_selected run markup_error event e = None)
  /\ (forall e', on_row_selected run markup_error event e = Some (tt, e') ->
        notifications e' = notifications e
        /\ log_table (panel e') = log_table (panel e)
        /\ (commit_detail (panel e') = commit_detail (panel e)
            \/ length (commit_detail (panel e')) <= 514)).
Proof.
  unfold on_row_selected. split; [|split].
  - intros ->. reflexivity.
  - intros -> H. unfold get_cell_at.
    now rewrite (proj2 (nth_error_None _ _) H).
  - intros e'. destruct (row_key event).
    2:{ intros E. injection E as <-. repeat split. now left. }
    destruct (get_cell_at _ _ 0) as [cell|]; [|discriminate].
    set (cmd := [py "show"; py "--stat"; _]).
    pose proof (run_git_command_snd run cmd e) as Hsnd.
    destruct (run_git_command run cmd e) as [[ok detail] e1].
    cbn [fst snd] in Hsnd. subst e1. unfold len, slice_to.
    destruct ok.
    + destruct (markup_error _); [discriminate|].
      unfold modify, after_call; intros E;
        apply some_pair_eq in E; subst e';
        cbn [panel notifications set_commit_detail log_table commit_detail].
      split; [reflexivity|]. split; [reflexivity|]. right.
      destruct (Nat.ltb_spec 500 (length detail)).
      * rewrite !length_app, length_firstn.
        change (length (py "[dim]")) with 5. change (length (py "...[/dim]")) with 9.
        lia.
      * rewrite !length_app.
        change (length (py "[dim]")) with 5. change (length (py "[/dim]")) with 6.
        lia.
    + unfold after_call; intros E; apply some_pair_eq in E; subst e';
        cbn [panel notifications].
      split; [reflexivity|]. split; [reflexivity|]. now left.
Qed.

End StatusAndLogButtons.


Lemma load_more_outcome_witness :
  let e := Toy.start no_repository shown_history in
  let e' := snd (on_load_more Toy.git e) in
  log_table (panel e') = []
  /\ notifications e' = [(py "已加载 0 条记录", information)].
Proof.
  cbv zeta.
  destruct (load_more_outcome Toy.git (Toy.start no_repository shown_history))
    as (_ & _ & _ & H).
  apply H. vm_compute. reflexivity.
Defined.

Lemma row_selected_shows_commit_witness :
  let e := {| world := [Completed 0 (py "commit abc123" ++ [NL]) []];
              calls := []; notifications := []; panel := shown_history |} in
  let f := {| world := [Completed 0 (py "commit abc123" ++ [NL] ++ py "    drop [/tmp] files") []];
              calls := []; notifications := []; panel := shown_history |} in
  (exists e',
      on_row_selected scripted Toy.markup_error {| row_key := true; cursor_row := 0 |} e
      = Some (tt, e')
      /\ calls_since e e' = [([py "show"; py "--stat"; py "abc123"],
                              (true, py "commit abc123"))]
      /\ commit_detail (panel e') = py "[dim]commit abc123[/dim]")
  /\ on_row_selected scripted Toy.markup_error {| row_key := true; cursor_row := 0 |} f
     = None.
Proof.
  cbv zeta. split.
  - destruct (@row_selected_shows_commit _ scripted Toy.markup_error
                {| row_key := true; cursor_row := 0 |}
                {| world := [Completed 0 (py "commit abc123" ++ [NL]) []];
                   calls := []; notifications := []; panel := shown_history |}
                (py "abc123")
                [py "Jane"; py "[dim]2 days ago[/dim]"; py "Fix bug: a | b"])
      as (_ & Hok).
    + reflexivity.
    + reflexivity.
    + vm_compute. intros H.
      repeat (destruct H as [H | H]; [discriminate H|]). exact H.
    + destruct Hok as (e' & Hrun & Hcalls & _ & _ & _ & Hshort & _).
      { right. vm_compute. reflexivity. }
      exists e'. split; [exact Hrun|]. split; [exact Hcalls|].
      apply Hshort; vm_compute; [reflexivity | lia].
  - destruct (@row_selected_shows_commit _ scripted Toy.markup_error
                {| row_key := true; cursor_row := 0 |}
                {| world := [Completed 0 (py "commit abc123" ++ [NL]
                                            ++ py "    drop [/tmp] files") []];
                   calls := []; notifications := []; panel := shown_history |}
                (py "abc123")
                [py "Jane"; py "[dim]2 days ago[/dim]"; py "Fix bug: a | b"])
      as (Hraise & _).
    + reflexivity.
    + reflexivity.
    + vm_compute. intros H.
      repeat (destruct H as [H | H]; [discriminate H|]). exact H.
    + apply Hraise; vm_compute; reflexivity.
Defined.

Lemma row_selected_edges_witness :
  let e := Toy.start nothing_staged shown_history in
  on_row_selected Toy.git Toy.markup_error {| row_key := false; cursor_row := 0 |} e
  = Some (tt, e)
  /\ on_row_selected Toy.git Toy.markup_error {| row_key := true; cursor_row := 1 |} e
     = None.
Proof.
  cbv zeta. split.
  - destruct (row_selected_edges Toy.git Toy.markup_error
                {| row_key := false; cursor_row := 0 |}
                (Toy.start nothing_staged shown_history)) as (H & _).
    apply H. reflexivity.
  - destruct (row_selected_edges Toy.git Toy.markup_error
                {| row_key := true; cursor_row := 1 |}
                (Toy.start nothing_staged shown_history)) as (_ & H & _).
    apply H; [reflexivity | vm_compute; lia].
Defined.

(* ===================================================================== *)
(** * The buttons of the branch panel *)
(* ===================================================================== *)

Section BranchButtons.

Variable World : Type.
Variable run : list str -> World -> process_outcome * World.

(** The result of an invocation depends on the world alone. *)
Lemma run_git_command_world (P : Type) (cmd : list str) (e1 e2 : Env World P) :
  world e1 = world e2 ->
  fst (run_git_command run cmd e1) = fst (run_git_command run cmd e2).
Proof.
  intros E. unfold run_git_command. rewrite E.
  now destruct (run (py "git" :: cmd) (world e2)).
Qed.

(** A branch refresh followed by a notification. *)
Lemma refresh_branches_then_notify (message : str) (sev : severity)
  (e : Env World GitBranches) :
  let e' := snd ((refresh_branches run ;; notify message sev) e) in
  exists a b,
    panel e' = refreshed_branches a b (panel e)
    /\ notifications e' = notifications e ++ [(message, sev)]
    /\ calls e' = calls e ++ [([py "branch"; py "-v"], a); ([py "branch"; py "-r"], b)].
Proof.
  cbv zeta. unfold bind. rewrite refresh_branches_effect. cbv beta iota.
  unfold notify. cbn [snd panel calls notifications set_panel].
  eexists _, _. split; [reflexivity|].
  rewrite !run_git_command_notifications, !run_git_command_calls, <- app_assoc.
  split; reflexivity.
Qed.

Lemma failure_text_length (prefix output : str) :
  length (prefix ++ firstn 50 output) <= length prefix + 50.
Proof. rewrite length_app, length_firstn. lia. Qed.

(** X11.  Push makes its one invocation and never touches the panel.  It
    notifies that it starts, then the success, or an error whose text holds
    the first 50 characters of the text of the tool at most. *)
Theorem push_outcome (e : Env World GitBranches) :
  let r := fst (run_git_command run [py "push"] e) in
  let e' := snd (on_push run e) in
  panel e' = panel e
  /\ calls_since e e' = [([py "push"], r)]
  /\ exists message sev,
       notifications e'
       = notifications e ++ [(py "正在推送...", information); (message, sev)]
       /\ (fst r = true -> message = py "✅ 推送成功" /\ sev = information)
       /\ (fst r = false ->
           message = py "❌ 推送失败: " ++ firstn 50 (snd r) /\ sev = error
           /\ length message <= 58).
Proof.
  cbv zeta.
  set (e0 := {| world := world e; calls := calls e;
                notifications := notifications e ++ [(py "正在推送...", information)];
                panel := panel e |}).
  eassert (E : on_push run e = _).
  { unfold on_push, bind at 1. unfold notify at 1. fold e0. rewrite bind_run.
    rewrite (@run_git_command_world _ [py "push"] e0 e eq_refl). reflexivity. }
  rewrite E. clear E.
  set (r := fst (run_git_command run [py "push"] e)).
  destruct r as [ok out]. cbn [fst snd]. unfold slice_to.
  destruct ok; unfold notify, after_call, e0; cbn [snd panel calls notifications].
  - split; [reflexivity|]. split; [apply calls_since_app; reflexivity|].
    eexists _, _. split; [rewrite <- app_assoc; reflexivity|].
    split; [intros _; split; reflexivity | discriminate].
  - split; [reflexivity|]. split; [apply calls_since_app; reflexivity|].
    eexists _, _. split; [rewrite <- app_assoc; reflexivity|].
    split; [discriminate|]. intros _. split; [reflexivity|]. split; [reflexivity|].
    apply (failure_text_length (py "❌ 推送失败: ") out).
Qed.

(** X12.  Pull.  When the invocation fails the panel is as it was, no other
    invocation is made and the error notified holds the first 50 characters
    of the text of the tool at most.  When it succeeds the two branch
    listings are run and the tables are rebuilt from them. *)
Theorem pull_outcome (e : Env World GitBranches) :
  let r := fst (run_git_command run [py "pull"] e) in
  let e' := snd (on_pull run e) in
  (fst r = false ->
   panel e' = panel e
   /\ calls_since e e' = [([py "pull"], r)]
   /\ notifications e'
      = notifications e
          ++ [(py "正在拉取...", information);
              (py "❌ 拉取失败: " ++ firstn 50 (snd r), error)]
   /\ length (py "❌ 拉取失败: " ++ firstn 50 (snd r)) <= 58)
  /\ (fst r = true ->
      exists a b,
        panel e' = refreshed_branches a b (panel e)
        /\ calls_since e e'
           = [([py "pull"], r); ([py "branch"; py "-v"], a);
              ([py "branch"; py "-r"], b)]
        /\ notifications e'
           = notifications e
               ++ [(py "正在拉取...", information); (py "✅ 拉取成功", information)]).
Proof.
  cbv zeta.
  set (e0 := {| world := world e; calls := calls e;
                notifications := notifications e ++ [(py "正在拉取...", information)];
                panel := panel e |}).
  eassert (E : on_pull run e = _).
  { unfold on_pull, bind at 1. unfold notify at 1. fold e0. rewrite bind_run.
    rewrite (@run_git_command_world _ [py "pull"] e0 e eq_refl). reflexivity. }
  rewrite E. clear E.
  set (r := fst (run_git_command run [py "pull"] e)).
  set (e1 := after_call _ _ r e0).
  destruct r as [ok out]. cbn [fst snd]. unfold slice_to. split; intros Hok; subst ok.
  - unfold notify, e1, after_call, e0; cbn [snd panel calls notifications].
    split; [reflexivity|]. split; [apply calls_since_app; reflexivity|].
    split; [rewrite <- app_assoc; reflexivity|].
    apply (failure_text_length (py "❌ 拉取失败: ") out).
  - destruct (refresh_branches_then_notify (py "✅ 拉取成功") information e1)
      as (a & b & Hp & Hn & Hc).
    exists a, b. split; [exact Hp|]. split.
    + apply calls_since_app. rewrite Hc. unfold e1, after_call, e0. cbn [calls].
      rewrite <- app_assoc. reflexivity.
    + rewrite Hn. unfold e1, after_call, e0. cbn [notifications].
      rewrite <- app_assoc. reflexivity.
Qed.

(** X13.  Creating a branch.  With a blank name no invocation is made, the
    panel is as it was and a warning is notified.  Otherwise the name given
    to [checkout -b] is the trimmed input; when that fails the panel, and so
    the typed name, is as it was and the error carries the text of the tool;
    when it succeeds the input is emptied and the tables are rebuilt. *)
Theorem create_branch_outcome (e : Env World GitBranches) :
  let name := strip (new_branch_input (panel e)) in
  let r := fst (run_git_command run [py "checkout"; py "-b"; name] e) in
  let e' := snd (on_create_branch run e) in
  (name = [] ->
   panel e' = panel e /\ world e' = world e /\ calls_since e e' = []
   /\ notifications e' = notifications e ++ [(py "请输入分支名称", warning)])
  /\ (name <> [] ->
      trimmed name
      /\ (fst r = false ->
          panel e' = panel e
          /\ calls_since e e' = [([py "checkout"; py "-b"; name], r)]
          /\ notifications e'
             = notifications e ++ [(py "❌ 创建失败: " ++ snd r, error)])
      /\ (fst r = true ->
          exists a b,
            panel e' = refreshed_branches a b (set_new_branch_input [] (panel e))
            /\ new_branch_input (panel e') = []
            /\ calls_since e e'
               = [([py "checkout"; py "-b"; name], r); ([py "branch"; py "-v"], a);
                  ([py "branch"; py "-r"], b)]
            /\ notifications e'
               = notifications e
                   ++ [(py "✅ 已创建并切换到分支: " ++ name, information)])).
Proof.
  cbv zeta. split.
  - intros Hname.
    eassert (E : on_create_branch run e = _).
    { unfold on_create_branch, bind at 1. unfold query. rewrite Hname.
      cbn [truthy negb]. reflexivity. }
    rewrite E. clear E. unfold notify. cbn [snd panel world calls notifications].
    split; [reflexivity|]. split; [reflexivity|]. split; [|reflexivity].
    unfold calls_since. cbn [calls]. apply skipn_all.
  - intros Hname. split; [apply strip_trimmed|].
    apply truthy_true in Hname.
    eassert (E : on_create_branch run e = _).
    { unfold on_create_branch, bind at 1. unfold query. rewrite Hname.
      cbn [negb]. rewrite bind_run. reflexivity. }
    rewrite E. clear E.
    set (cmd := [py "checkout"; py "-b"; strip (new_branch_input (panel e))]).
    set (r := fst (run_git_command run cmd e)).
    set (e1 := after_call _ _ r e).
    destruct r as [ok out]. cbn [fst snd]. split; intros Hok; subst ok.
    + unfold notify, e1, after_call; cbn [snd panel calls notifications].
      split; [reflexivity|]. split; [apply calls_since_app; reflexivity|].
      reflexivity.
    + eassert (E : forall k, (modify (set_new_branch_input []) ;; k) e1 = k _).
      { intros k. reflexivity. }
      rewrite E. clear E.
      match goal with
      | |- context [(refresh_branches run ;; notify ?m ?s) ?env] =>
        destruct (refresh_branches_then_notify m s env) as (a & b & Hp & Hn & Hc)
      end.
      exists a, b. split; [exact Hp|]. split; [rewrite Hp; reflexivity|]. split.
      * apply calls_since_app. rewrite Hc. unfold e1, after_call. cbn [calls].
        rewrite <- app_assoc. reflexivity.
      * rewrite Hn. reflexivity.
Qed.

(** X14.  Selecting a local branch.  With a cursor outside the rows of the
    table the exception of [get_cell_at] leaves the handler.  Otherwise the
    name given to [checkout] is the second cell of the selected row; when
    that fails the panel is as it was and the error carries the text of the
    tool; when it succeeds the tables are rebuilt. *)
Theorem branch_selected_outcome (event : RowSelected) (e : Env World GitBranches) :
  (length (local_branches_table (panel e)) <= cursor_row event ->
   on_branch_selected run event e = None)
  /\ (forall row name,
        nth_error (local_branches_table (panel e)) (cursor_row event) = Some row ->
        nth_error row 1 = Some name ->
        let r := fst (run_git_command run [py "checkout"; name] e) in
        exists e',
          on_branch_selected run event e = Some (tt, e')
          /\ (fst r = false ->
              panel e' = panel e
              /\ calls_since e e' = [([py "checkout"; name], r)]
              /\ notifications e'
                 = notifications e ++ [(py "❌ 切换失败: " ++ snd r, error)])
          /\ (fst r = true ->
              exists a b,
                panel e' = refreshed_branches a b (panel e)
                /\ calls_since e e'
                   = [([py "checkout"; name], r); ([py "branch"; py "-v"], a);
                      ([py "branch"; py "-r"], b)]
                /\ notifications e'
                   = notifications e
                       ++ [(py "✅ 已切换到分支: " ++ name, information)])).
Proof.
  unfold on_branch_selected. split.
  - intros H. unfold get_cell_at. now rewrite (proj2 (nth_error_None _ _) H).
  - intros row name Hrow Hname. cbv zeta.
    rewrite (get_cell_at_Some _ _ _ Hrow Hname). rewrite bind_run.
    set (r := fst (run_git_command run [py "checkout"; name] e)).
    set (e1 := after_call _ _ r e).
    destruct r as [ok out]. cbn [fst snd]. destruct ok.
    + destruct (refresh_branches_then_notify (py "✅ 已切换到分支: " ++ name)
                  information e1) as (a & b & Hp & Hn & Hc).
      match goal with
      | |- exists e', Some ?x = Some (tt, e') /\ _ => exists (snd x)
      end.
      split; [now destruct ((refresh_branches run ;; notify _ _) e1) as [[] ?]|].
      split; [discriminate|]. intros _. exists a, b. split; [exact Hp|]. split.
      * apply calls_since_app. rewrite Hc. unfold e1, after_call. cbn [calls].
        rewrite <- app_assoc. reflexivity.
      * rewrite Hn. reflexivity.
    + eexists. split; [reflexivity|]. unfold notify, e1, after_call.
      cbn [snd panel calls notifications].
      split; [|discriminate]. intros _.
      split; [reflexivity|]. split; [apply calls_since_app; reflexivity|].
      reflexivity.
Qed.

End BranchButtons.

Lemma push_outcome_witness :
  let e := Toy.start one_staged_no_remote shown_branches in
  let e' := snd (on_push Toy.git e) in
  panel e' = shown_branches
  /\ exists message sev,
       notifications e' = [(py "正在推送...", information); (message, sev)]
       /\ sev = error /\ length message <= 58.
Proof.
  cbv zeta.
  destruct (push_outcome Toy.git (Toy.start one_staged_no_remote shown_branches))
    as (Hp & _ & message & sev & Hn & _ & Hf).
  split; [exact Hp|]. exists message, sev. split; [exact Hn|].
  destruct Hf as (_ & Hs & Hl); [vm_compute; reflexivity|]. split; assumption.
Defined.

Lemma pull_outcome_witness :
  let working := {| world := [Completed 0 (py "Already up to date.") [];
                              Completed 0 (py "* main abc1234 Initial commit") [];
                              Completed 0 (py "  origin/main") []];
                    calls := []; notifications := []; panel := shown_branches |} in
  panel (snd (on_pull Toy.git (Toy.start nothing_staged shown_branches)))
  = shown_branches
  /\ exists a b,
       panel (snd (on_pull scripted working)) = refreshed_branches a b shown_branches.
Proof.
  cbv zeta. split.
  - destruct (pull_outcome Toy.git (Toy.start nothing_staged shown_branches))
      as [Hf _].
    apply Hf. vm_compute. reflexivity.
  - destruct (pull_outcome scripted
                {| world := [Completed 0 (py "Already up to date.") [];
                             Completed 0 (py "* main abc1234 Initial commit") [];
                             Completed 0 (py "  origin/main") []];
                   calls := []; notifications := []; panel := shown_branches |})
      as [_ Hs].
    destruct Hs as (a & b & Hp & _); [vm_compute; reflexivity|].
    exists a, b. exact Hp.
Defined.

Lemma create_branch_outcome_witness :
  let blank := Toy.start nothing_staged
                 (set_new_branch_input (py "   ") shown_branches) in
  let typed := Toy.start nothing_staged
                 (set_new_branch_input (py " feature/x ") shown_branches) in
  calls_since blank (snd (on_create_branch Toy.git blank)) = []
  /\ trimmed (py "feature/x")
  /\ new_branch_input (panel (snd (on_create_branch Toy.git typed)))
     = py " feature/x ".
Proof.
  cbv zeta.
  destruct (create_branch_outcome Toy.git
              (Toy.start nothing_staged
                 (set_new_branch_input (py "   ") shown_branches))) as [Hb _].
  destruct (create_branch_outcome Toy.git
              (Toy.start nothing_staged
                 (set_new_branch_input (py " feature/x ") shown_branches)))
    as [_ Ht].
  split; [apply Hb; vm_compute; reflexivity|].
  destruct Ht as (Htrim & Hf & _); [vm_compute; intros E; discriminate E|].
  split; [exact Htrim|].
  destruct Hf as (Hp & _); [vm_compute; reflexivity|].
  rewrite Hp. reflexivity.
Defined.

Lemma branch_selected_outcome_witness :
  let e := Toy.start nothing_staged shown_branches in
  on_branch_selected Toy.git {| row_key := true; cursor_row := 3 |} e = None
  /\ exists e',
       on_branch_selected Toy.git {| row_key := true; cursor_row := 0 |} e
       = Some (tt, e')
       /\ panel e' = shown_branches
       /\ calls_since e e'
          = [([py "checkout"; py "main"], (false, py "git: unknown command"))].
Proof.
  cbv zeta. split.
  - destruct (branch_selected_outcome Toy.git {| row_key := true; cursor_row := 3 |}
                (Toy.start nothing_staged shown_branches)) as [H _].
    apply H. vm_compute. lia.
  - destruct (branch_selected_outcome Toy.git {| row_key := true; cursor_row := 0 |}
                (Toy.start nothing_staged shown_branches)) as [_ H].
    destruct (H [py "[green]●[/green]"; py "main"; py "abc1234 Initial commit"]
                (py "main") eq_refl eq_refl) as (e' & Hrun & Hf & _).
    exists e'. split; [exact Hrun|].
    destruct Hf as (Hp & Hc & _); [vm_compute; reflexivity|].
    split; [exact Hp|]. rewrite Hc. vm_compute. reflexivity.
Defined.

(* ===================================================================== *)
(** * The buttons of the commit panel *)
(* ===================================================================== *)

Section CommitButtons.

Variable World : Type.
Variable run : list str -> World -> process_outcome * World.
Variable now : World -> str.
Variable markup_error : str -> bool.

Lemma update_summary_then (A : Type) (k : M World GitCommit A)
  (e : Env World GitCommit) :
  (update_summary run ;; k) e
  = k (set_panel
         (refreshed_summary (fst (run_git_command run [py "status"; py "--short"] e))
            (panel e))
         (snd (run_git_command run [py "status"; py "--short"] e))).
Proof. unfold bind. now rewrite update_summary_effect. Qed.

Lemma modify_then (A : Type) (f : GitCommit -> GitCommit) (k : M World GitCommit A)
  (e : Env World GitCommit) :
  (modify f ;; k) e = k (set_panel (f (panel e)) e).
Proof. reflexivity. Qed.

Lemma calls_since_nil (P : Type) (e e' : Env World P) :
  calls e' = calls e -> calls_since e e' = [].
Proof. intros E. unfold calls_since. rewrite E. apply skipn_all. Qed.

(** The end of a handler of the commit panel: a line for the log, then a
    notification.  The line is logged and the notification made when the
    log accepts the line; otherwise neither is. *)
Lemma log_then_notify (message note : str) (sev : severity)
  (e : Env World GitCommit) :
  let line := log_line (now (world e)) message in
  let r := (log_message now markup_error message ;;; returns (notify note sev)) e in
  world (snd r) = world e
  /\ calls (snd r) = calls e
  /\ changes_summary (panel (snd r)) = changes_summary (panel e)
  /\ commit_message (panel (snd r)) = commit_message (panel e)
  /\ (markup_error line = false ->
      fst r = Some tt
      /\ commit_log (panel (snd r)) = commit_log (panel e) ++ [line]
      /\ notifications (snd r) = notifications e ++ [(note, sev)])
  /\ (markup_error line = true ->
      fst r = None
      /\ commit_log (panel (snd r)) = commit_log (panel e)
      /\ notifications (snd r) = notifications e).
Proof.
  cbv zeta. rewrite log_message_then. cbv zeta. unfold log_line.
  destruct (markup_error _); unfold returns, bind, notify, ret;
    cbn [fst snd world calls notifications panel set_panel write_commit_log
         changes_summary commit_message commit_log];
    (split; [reflexivity|]); (split; [reflexivity|]); (split; [reflexivity|]);
    (split; [reflexivity|]); split; intros H; try discriminate H;
    (split; [reflexivity|]); split; reflexivity.
Qed.

(** X15.  With a blank message, commit and commit-and-push make no
    invocation: the world and the panel are as they were and one warning is
    notified. *)
Theorem blank_message_outcome (e : Env World GitCommit) :
  strip (commit_message (panel e)) = [] ->
  (let e' := snd (on_commit run now markup_error e) in
   world e' = world e /\ panel e' = panel e /\ calls_since e e' = []
   /\ notifications e' = notifications e ++ [(py "请输入提交信息", warning)])
  /\ (let e' := snd (on_commit_push run now markup_error e) in
      world e' = world e /\ panel e' = panel e /\ calls_since e e' = []
      /\ notifications e' = notifications e ++ [(py "请输入提交信息", warning)]).
Proof.
  intros Hmsg. cbv zeta.
  assert (E1 : on_commit run now markup_error e
               = returns (notify (py "请输入提交信息") warning) e).
  { unfold on_commit, bind at 1. unfold query. now rewrite Hmsg. }
  assert (E2 : on_commit_push run now markup_error e
               = returns (notify (py "请输入提交信息") warning) e).
  { unfold on_commit_push, bind at 1. unfold query. now rewrite Hmsg. }
  rewrite E1, E2. unfold returns, bind, notify, ret.
  cbn [snd world panel calls notifications].
  repeat split; now apply calls_since_nil.
Qed.

(** X16.  Commit, with a message that is not blank.  When the invocation
    fails, no other invocation is made and the summary and the message
    field are as they were.  When it succeeds, the message field is emptied
    and the summary is rebuilt from the status invocation that follows the
    commit.  The handler then logs one line, which holds the error text of
    the tool on failure and the message on success, and notifies the
    outcome; when the log does not accept the line as markup, the exception
    of the parser leaves the handler instead: nothing is logged and nothing
    is notified, and after a successful commit the field is emptied and the
    summary rebuilt all the same. *)
Theorem commit_outcome (e : Env World GitCommit) :
  let message := strip (commit_message (panel e)) in
  let c := run_git_command run [py "commit"; py "-m"; message] e in
  let s := run_git_command run [py "status"; py "--short"] (snd c) in
  let failure := log_line (now (world (snd c)))
                   (py "[red]❌ 提交失败[/red]: " ++ snd (fst c)) in
  let success := log_line (now (world (snd s)))
                   (py "[green]✅ 提交成功[/green]: " ++ message) in
  let r := on_commit run now markup_error e in
  let e' := snd r in
  message <> [] ->
  (fst (fst c) = false ->
   calls_since e e' = [([py "commit"; py "-m"; message], fst c)]
   /\ changes_summary (panel e') = changes_summary (panel e)
   /\ commit_message (panel e') = commit_message (panel e)
   /\ (markup_error failure = false ->
       fst r = Some tt
       /\ commit_log (panel e') = commit_log (panel e) ++ [failure]
       /\ notifications e' = notifications e ++ [(py "❌ 提交失败", error)])
   /\ (markup_error failure = true ->
       fst r = None
       /\ commit_log (panel e') = commit_log (panel e)
       /\ notifications e' = notifications e))
  /\ (fst (fst c) = true ->
      calls_since e e'
      = [([py "commit"; py "-m"; message], fst c);
         ([py "status"; py "--short"], fst s)]
      /\ changes_summary (panel e')
         = changes_summary (refreshed_summary (fst s) (panel e))
      /\ commit_message (panel e') = []
      /\ (markup_error success = false ->
          fst r = Some tt
          /\ commit_log (panel e') = commit_log (panel e) ++ [success]
          /\ notifications e' = notifications e ++ [(py "✅ 提交成功", information)])
      /\ (markup_error success = true ->
          fst r = None
          /\ commit_log (panel e') = commit_log (panel e)
          /\ notifications e' = notifications e)).
Proof.
  cbv zeta. intros Hmsg. apply truthy_true in Hmsg.
  set (cmd := [py "commit"; py "-m"; strip (commit_message (panel e))]) in *.
  eassert (E : on_commit run now markup_error e = _).
  { unfold on_commit, bind at 1. unfold query. rewrite Hmsg. cbn [negb].
    fold cmd. rewrite bind_run, <- run_git_command_snd. reflexivity. }
  rewrite E. clear E.
  pose proof (run_git_command_calls run cmd e) as Hcalls.
  pose proof (run_git_command_panel run cmd e) as Hpanel.
  pose proof (run_git_command_notifications run cmd e) as Hnotes.
  set (c := run_git_command run cmd e) in *.
  destruct (fst c) as [ok out] eqn:E1. cbn [fst snd]. split; intros Hok; subst ok.
  - destruct (log_then_notify (py "[red]❌ 提交失败[/red]: " ++ out) (py "❌ 提交失败")
                error (snd c)) as (_ & Hc & Hs & Hm & Hacc & Hrej).
    cbv zeta in Hacc, Hrej. rewrite Hs, Hm, Hpanel.
    split; [apply calls_since_app; now rewrite Hc, Hcalls|].
    split; [reflexivity|]. split; [reflexivity|]. split.
    + intros Ha. destruct (Hacc Ha) as (Hr & Hl & Hn).
      rewrite Hr, Hl, Hn, Hpanel, Hnotes. repeat split.
    + intros Ha. destruct (Hrej Ha) as (Hr & Hl & Hn).
      rewrite Hr, Hl, Hn, Hpanel, Hnotes. repeat split.
  - rewrite modify_then, update_summary_then, run_git_command_set_panel.
    cbn [fst snd].
    set (s := run_git_command run [py "status"; py "--short"] (snd c)) in *.
    match goal with
    | |- context [(log_message now markup_error ?m ;;; returns (notify ?n ?v)) ?env] =>
      destruct (log_then_notify m n v env) as (_ & Hc & Hs & Hm & Hacc & Hrej)
    end.
    cbv zeta in Hacc, Hrej. cbn [world calls notifications panel set_panel] in *.
    rewrite Hs, Hm.
    cbn [refreshed_summary set_changes_summary set_commit_message changes_summary
         commit_message commit_log].
    split.
    { apply calls_since_app. rewrite Hc. unfold s.
      rewrite run_git_command_calls, Hcalls, <- app_assoc. reflexivity. }
    split; [reflexivity|]. split; [reflexivity|]. split.
    + intros Ha. destruct (Hacc Ha) as (Hr & Hl & Hn).
      rewrite Hr, Hl, Hn. unfold s. rewrite run_git_command_notifications, Hnotes.
      cbn [refreshed_summary set_changes_summary set_commit_message commit_log].
      rewrite Hpanel. repeat split.
    + intros Ha. destruct (Hrej Ha) as (Hr & Hl & Hn).
      rewrite Hr, Hl, Hn. unfold s. rewrite run_git_command_notifications, Hnotes.
      cbn [refreshed_summary set_changes_summary set_commit_message commit_log].
      rewrite Hpanel. repeat split.
Qed.

(** Commit-and-push after a successful commit: the line of the commit is
    written to the log, then the push is invoked. *)
Lemma commit_push_after_commit (e : Env World GitCommit) :
  let message := strip (commit_message (panel e)) in
  let c := run_git_command run [py "commit"; py "-m"; message] e in
  let p := run_git_command run [py "push"] (snd c) in
  let committed := log_line (now (world (snd c)))
                     (py "[green]✅ 提交成功[/green]: " ++ message) in
  let logged := set_panel (write_commit_log committed (panel e)) (snd p) in
  message <> [] -> fst (fst c) = true ->
  on_commit_push run now markup_error e
  = if markup_error committed
    then (None, snd c)
    else if fst (fst p)
    then (modify (set_commit_message []) ;;
          update_summary run ;;
          log_message now markup_error (py "[green]✅ 推送成功[/green]") ;;;
          returns (notify (py "✅ 提交并推送成功") information)) logged
    else (log_message now markup_error
            (py "[yellow]⚠️ 推送失败[/yellow]: " ++ snd (fst p)) ;;;
          returns (notify (py "提交成功，但推送失败") warning)) logged.
Proof.
  cbv zeta. intros Hmsg Hok. apply truthy_true in Hmsg.
  set (cmd := [py "commit"; py "-m"; strip (commit_message (panel e))]) in *.
  unfold on_commit_push, bind at 1. unfold query. rewrite Hmsg. cbn [negb].
  fold cmd. rewrite bind_run, <- run_git_command_snd.
  pose proof (run_git_command_panel run cmd e) as Hpanel.
  set (c := run_git_command run cmd e) in *.
  destruct (fst c) as [ok out]. cbn [fst] in Hok. subst ok. cbn [negb].
  rewrite log_message_then. cbv zeta. unfold log_line.
  destruct (markup_error _); [reflexivity|].
  unfold bind at 1. rewrite run_git_command_set_panel, Hpanel.
  destruct (run_git_command run [py "push"] (snd c)) as [[ok2 out2] e2].
  cbn [fst snd]. destruct ok2; reflexivity.
Qed.

(** X17.  Commit-and-push, with a message that is not blank, after a
    successful commit.  The line of the commit, which holds the message, is
    written to the log first: when the log does not accept it as markup,
    the exception of the parser leaves the handler and no push is invoked.
    Otherwise the push is invoked, and when it succeeds the message field
    is emptied, the summary is rebuilt from the status invocation that
    follows the push, a second line is logged and the success notified. *)
Theorem commit_push_success (e : Env World GitCommit) :
  let message := strip (commit_message (panel e)) in
  let c := run_git_command run [py "commit"; py "-m"; message] e in
  let p := run_git_command run [py "push"] (snd c) in
  let s := run_git_command run [py "status"; py "--short"] (snd p) in
  let committed := log_line (now (world (snd c)))
                     (py "[green]✅ 提交成功[/green]: " ++ message) in
  let pushed := log_line (now (world (snd s))) (py "[green]✅ 推送成功[/green]") in
  let r := on_commit_push run now markup_error e in
  let e' := snd r in
  message <> [] -> fst (fst c) = true ->
  (markup_error committed = true ->
   fst r = None
   /\ calls_since e e' = [([py "commit"; py "-m"; message], fst c)]
   /\ panel e' = panel e
   /\ notifications e' = notifications e)
  /\ (markup_error committed = false -> fst (fst p) = true ->
      calls_since e e'
      = [([py "commit"; py "-m"; message], fst c); ([py "push"], fst p);
         ([py "status"; py "--short"], fst s)]
      /\ commit_message (panel e') = []
      /\ changes_summary (panel e')
         = changes_summary (refreshed_summary (fst s) (panel e))
      /\ (markup_error pushed = false ->
          fst r = Some tt
          /\ commit_log (panel e') = commit_log (panel e) ++ [committed; pushed]
          /\ notifications e'
             = notifications e ++ [(py "✅ 提交并推送成功", information)])
      /\ (markup_error pushed = true ->
          fst r = None
          /\ commit_log (panel e') = commit_log (panel e) ++ [committed]
          /\ notifications e' = notifications e)).
Proof.
  cbv zeta. intros Hmsg Hok.
  rewrite (commit_push_after_commit e Hmsg Hok).
  set (cmd := [py "commit"; py "-m"; strip (commit_message (panel e))]) in *.
  pose proof (run_git_command_calls run cmd e) as Hcalls.
  pose proof (run_git_command_panel run cmd e) as Hpanel.
  pose proof (run_git_command_notifications run cmd e) as Hnotes.
  set (c := run_git_command run cmd e) in *.
  pose proof (run_git_command_calls run [py "push"] (snd c)) as Hcalls2.
  pose proof (run_git_command_notifications run [py "push"] (snd c)) as Hnotes2.
  set (p := run_git_command run [py "push"] (snd c)) in *.
  split.
  - intros ->. cbn [fst snd]. split; [reflexivity|].
    split; [apply calls_since_app; exact Hcalls|]. split; assumption.
  - intros -> ->.
    rewrite modify_then, update_summary_then, !run_git_command_set_panel.
    cbn [fst snd].
    pose proof (run_git_command_calls run [py "status"; py "--short"] (snd p))
      as Hcalls3.
    pose proof (run_git_command_notifications run [py "status"; py "--short"] (snd p))
      as Hnotes3.
    set (s := run_git_command run [py "status"; py "--short"] (snd p)) in *.
    match goal with
    | |- context [(log_message now markup_error ?m ;;; returns (notify ?n ?v)) ?env] =>
      destruct (log_then_notify m n v env) as (_ & Hc & Hs & Hm & Hacc & Hrej)
    end.
    cbv zeta in Hacc, Hrej. cbn [world calls notifications panel set_panel] in *.
    rewrite Hs, Hm.
    cbn [refreshed_summary set_changes_summary set_commit_message changes_summary
         commit_message commit_log write_commit_log].
    split.
    { apply calls_since_app. rewrite Hc, Hcalls3, Hcalls2, Hcalls, <- !app_assoc.
      reflexivity. }
    split; [reflexivity|]. split; [reflexivity|]. split.
    + intros Ha. destruct (Hacc Ha) as (Hr & Hl & Hn).
      rewrite Hr, Hl, Hn, Hnotes3, Hnotes2, Hnotes.
      cbn [refreshed_summary set_changes_summary set_commit_message commit_log
           write_commit_log].
      rewrite <- app_assoc. repeat split.
    + intros Ha. destruct (Hrej Ha) as (Hr & Hl & Hn).
      rewrite Hr, Hl, Hn, Hnotes3, Hnotes2, Hnotes.
      cbn [refreshed_summary set_changes_summary set_commit_message commit_log
           write_commit_log].
      repeat split.
Qed.

(** X25.  Commit-and-push, with a message that is not blank, when the commit
    succeeds, its line is logged and the push fails: no status invocation
    follows, so the summary is the one shown before the commit, and the
    message field is as it was.  The handler then logs a line with the
    error text of the tool and notifies one warning; when the log does not
    accept that line as markup, the exception of the parser leaves the
    handler instead, and nothing is notified. *)
Theorem commit_push_push_failure (e : Env World GitCommit) :
  let message := strip (commit_message (panel e)) in
  let c := run_git_command run [py "commit"; py "-m"; message] e in
  let p := run_git_command run [py "push"] (snd c) in
  let committed := log_line (now (world (snd c)))
                     (py "[green]✅ 提交成功[/green]: " ++ message) in
  let failed := log_line (now (world (snd p)))
                  (py "[yellow]⚠️ 推送失败[/yellow]: " ++ snd (fst p)) in
  let r := on_commit_push run now markup_error e in
  let e' := snd r in
  message <> [] -> fst (fst c) = true -> markup_error committed = false ->
  fst (fst p) = false ->
  calls_since e e'
  = [([py "commit"; py "-m"; message], fst c); ([py "push"], fst p)]
  /\ changes_summary (panel e') = changes_summary (panel e)
  /\ commit_message (panel e') = commit_message (panel e)
  /\ (markup_error failed = false ->
      fst r = Some tt
      /\ commit_log (panel e') = commit_log (panel e) ++ [committed; failed]
      /\ notifications e' = notifications e ++ [(py "提交成功，但推送失败", warning)])
  /\ (markup_error failed = true ->
      fst r = None
      /\ commit_log (panel e') = commit_log (panel e) ++ [committed]
      /\ notifications e' = notifications e).
Proof.
  cbv zeta. intros Hmsg Hok Hline Hfail.
  rewrite (commit_push_after_commit e Hmsg Hok), Hline, Hfail.
  set (cmd := [py "commit"; py "-m"; strip (commit_message (panel e))]) in *.
  pose proof (run_git_command_calls run cmd e) as Hcalls.
  pose proof (run_git_command_notifications run cmd e) as Hnotes.
  set (c := run_git_command run cmd e) in *.
  pose proof (run_git_command_calls run [py "push"] (snd c)) as Hcalls2.
  pose proof (run_git_command_notifications run [py "push"] (snd c)) as Hnotes2.
  set (p := run_git_command run [py "push"] (snd c)) in *.
  match goal with
  | |- context [(log_message now markup_error ?m ;;; returns (notify ?n ?v)) ?env] =>
    destruct (log_then_notify m n v env) as (_ & Hc & Hs & Hm & Hacc & Hrej)
  end.
  cbv zeta in Hacc, Hrej. cbn [world calls notifications panel set_panel] in *.
  rewrite Hs, Hm. cbn [changes_summary commit_message write_commit_log].
  split.
  { apply calls_since_app. rewrite Hc, Hcalls2, Hcalls, <- !app_assoc.
    reflexivity. }
  split; [reflexivity|]. split; [reflexivity|]. split.
  - intros Ha. destruct (Hacc Ha) as (Hr & Hl & Hn).
    rewrite Hr, Hl, Hn, Hnotes2, Hnotes. cbn [commit_log write_commit_log].
    rewrite <- app_assoc. repeat split.
  - intros Ha. destruct (Hrej Ha) as (Hr & Hl & Hn).
    rewrite Hr, Hl, Hn, Hnotes2, Hnotes. cbn [commit_log write_commit_log].
    repeat split.
Qed.

(** X18.  Amending.  One invocation is made: [commit --amend --no-edit] with
    a blank message, [commit --amend -m message] otherwise.  The summary is
    never rebuilt.  On success the message field is emptied; on failure it
    is as it was.  The handler then logs one line, which holds the error
    text of the tool on failure, and notifies the outcome; when the log
    does not accept the line as markup the exception of the parser leaves
    the handler instead, and nothing is notified. *)
Theorem amend_outcome (e : Env World GitCommit) :
  let message := strip (commit_message (panel e)) in
  let cmd := if truthy message
             then [py "commit"; py "--amend"; py "-m"; message]
             else [py "commit"; py "--amend"; py "--no-edit"] in
  let c := run_git_command run cmd e in
  let amended := log_line (now (world (snd c))) (py "[green]✏️ 已修改上次提交[/green]") in
  let failed := log_line (now (world (snd c)))
                  (py "[red]❌ 操作失败[/red]: " ++ snd (fst c)) in
  let r := on_amend_commit run now markup_error e in
  let e' := snd r in
  calls_since e e' = [(cmd, fst c)]
  /\ changes_summary (panel e') = changes_summary (panel e)
  /\ (fst (fst c) = true ->
      commit_message (panel e') = []
      /\ (markup_error amended = false ->
          fst r = Some tt
          /\ commit_log (panel e') = commit_log (panel e) ++ [amended]
          /\ notifications e'
             = notifications e ++ [(py "✅ 已修改上次提交", information)])
      /\ (markup_error amended = true ->
          fst r = None
          /\ commit_log (panel e') = commit_log (panel e)
          /\ notifications e' = notifications e))
  /\ (fst (fst c) = false ->
      commit_message (panel e') = commit_message (panel e)
      /\ (markup_error failed = false ->
          fst r = Some tt
          /\ commit_log (panel e') = commit_log (panel e) ++ [failed]
          /\ notifications e' = notifications e ++ [(py "❌ 操作失败", error)])
      /\ (markup_error failed = true ->
          fst r = None
          /\ commit_log (panel e') = commit_log (panel e)
          /\ notifications e' = notifications e)).
Proof.
  cbv zeta.
  eassert (E : on_amend_commit run now markup_error e = _).
  { unfold on_amend_commit, bind at 1. unfold query.
    assert (Hif : forall (b : bool) (x y : list str),
               (if b then run_git_command run x else run_git_command run y)
               = run_git_command (P := GitCommit) run (if b then x else y))
      by (intros []; reflexivity).
    rewrite Hif, bind_run, <- run_git_command_snd. reflexivity. }
  rewrite E. clear E.
  set (cmd := if truthy (strip (commit_message (panel e))) then _ else _).
  pose proof (run_git_command_calls run cmd e) as Hcalls.
  pose proof (run_git_command_panel run cmd e) as Hpanel.
  pose proof (run_git_command_notifications run cmd e) as Hnotes.
  set (c := run_git_command run cmd e) in *.
  destruct (fst c) as [ok out] eqn:E1. cbn [fst snd]. destruct ok.
  - rewrite modify_then.
    match goal with
    | |- context [(log_message now markup_error ?m ;;; returns (notify ?n ?v)) ?env] =>
      destruct (log_then_notify m n v env) as (_ & Hc & Hs & Hm & Hacc & Hrej)
    end.
    cbv zeta in Hacc, Hrej. cbn [world calls notifications panel set_panel] in *.
    rewrite Hs, Hm. cbn [set_commit_message changes_summary commit_message].
    split; [apply calls_since_app; now rewrite Hc, Hcalls|].
    split; [now rewrite Hpanel|]. split; [|discriminate]. intros _.
    split; [reflexivity|]. split.
    + intros Ha. destruct (Hacc Ha) as (Hr & Hl & Hn).
      rewrite Hr, Hl, Hn, Hnotes. cbn [set_commit_message commit_log].
      rewrite Hpanel. repeat split.
    + intros Ha. destruct (Hrej Ha) as (Hr & Hl & Hn).
      rewrite Hr, Hl, Hn, Hnotes. cbn [set_commit_message commit_log].
      rewrite Hpanel. repeat split.
  - destruct (log_then_notify (py "[red]❌ 操作失败[/red]: " ++ out) (py "❌ 操作失败")
                error (snd c)) as (_ & Hc & Hs & Hm & Hacc & Hrej).
    cbv zeta in Hacc, Hrej. rewrite Hs, Hm, Hpanel.
    split; [apply calls_since_app; now rewrite Hc, Hcalls|].
    split; [reflexivity|]. split; [discriminate|]. intros _.
    split; [reflexivity|]. split.
    + intros Ha. destruct (Hacc Ha) as (Hr & Hl & Hn).
      rewrite Hr, Hl, Hn, Hpanel, Hnotes. repeat split.
    + intros Ha. destruct (Hrej Ha) as (Hr & Hl & Hn).
      rewrite Hr, Hl, Hn, Hpanel, Hnotes. repeat split.
Qed.

(** X19.  Undoing the last commit.  When [reset --soft HEAD~1] fails, no
    other invocation is made and the summary is as it was.  When it
    succeeds, the summary is rebuilt from the status invocation that
    follows it.  The message field is never changed.  The handler then logs
    one line, which holds the error text of the tool on failure, and
    notifies the outcome; when the log does not accept the line as markup
    the exception of the parser leaves the handler instead, and nothing is
    notified. *)
Theorem undo_outcome (e : Env World GitCommit) :
  let cmd := [py "reset"; py "--soft"; py "HEAD~1"] in
  let c := run_git_command run cmd e in
  let s := run_git_command run [py "status"; py "--short"] (snd c) in
  let undone := log_line (now (world (snd s))) (py "[yellow]↩️ 已撤销上次提交[/yellow]") in
  let failed := log_line (now (world (snd c)))
                  (py "[red]❌ 操作失败[/red]: " ++ snd (fst c)) in
  let r := on_undo_commit run now markup_error e in
  let e' := snd r in
  commit_message (panel e') = commit_message (panel e)
  /\ (fst (fst c) = false ->
      calls_since e e' = [(cmd, fst c)]
      /\ changes_summary (panel e') = changes_summary (panel e)
      /\ (markup_error failed = false ->
          fst r = Some tt
          /\ commit_log (panel e') = commit_log (panel e) ++ [failed]
          /\ notifications e' = notifications e ++ [(py "❌ 操作失败", error)])
      /\ (markup_error failed = true ->
          fst r = None
          /\ commit_log (panel e') = commit_log (panel e)
          /\ notifications e' = notifications e))
  /\ (fst (fst c) = true ->
      calls_since e e' = [(cmd, fst c); ([py "status"; py "--short"], fst s)]
      /\ changes_summary (panel e')
         = changes_summary (refreshed_summary (fst s) (panel e))
      /\ (markup_error undone = false ->
          fst r = Some tt
          /\ commit_log (panel e') = commit_log (panel e) ++ [undone]
          /\ notifications e'
             = notifications e ++ [(py "✅ 已撤销上次提交", information)])
      /\ (markup_error undone = true ->
          fst r = None
          /\ commit_log (panel e') = commit_log (panel e)
          /\ notifications e' = notifications e)).
Proof.
  cbv zeta.
  eassert (E : on_undo_commit run now markup_error e = _).
  { unfold on_undo_commit. rewrite bind_run, <- run_git_command_snd. reflexivity. }
  rewrite E. clear E.
  set (cmd := [py "reset"; py "--soft"; py "HEAD~1"]).
  pose proof (run_git_command_calls run cmd e) as Hcalls.
  pose proof (run_git_command_panel run cmd e) as Hpanel.
  pose proof (run_git_command_notifications run cmd e) as Hnotes.
  set (c := run_git_command run cmd e) in *.
  destruct (fst c) as [ok out] eqn:E1. cbn [fst snd]. destruct ok.
  - rewrite update_summary_then.
    pose proof (run_git_command_calls run [py "status"; py "--short"] (snd c))
      as Hcalls3.
    pose proof (run_git_command_notifications run [py "status"; py "--short"] (snd c))
      as Hnotes3.
    set (s := run_git_command run [py "status"; py "--short"] (snd c)) in *.
    match goal with
    | |- context [(log_message now markup_error ?m ;;; returns (notify ?n ?v)) ?env] =>
      destruct (log_then_notify m n v env) as (_ & Hc & Hs & Hm & Hacc & Hrej)
    end.
    cbv zeta in Hacc, Hrej. cbn [world calls notifications panel set_panel] in *.
    rewrite Hs, Hm.
    cbn [refreshed_summary set_changes_summary changes_summary commit_message].
    split; [now rewrite Hpanel|]. split; [discriminate|]. intros _. split.
    { apply calls_since_app. rewrite Hc, Hcalls3, Hcalls, <- app_assoc.
      reflexivity. }
    split; [reflexivity|]. split.
    + intros Ha. destruct (Hacc Ha) as (Hr & Hl & Hn).
      rewrite Hr, Hl, Hn, Hnotes3, Hnotes.
      cbn [refreshed_summary set_changes_summary commit_log].
      rewrite Hpanel. repeat split.
    + intros Ha. destruct (Hrej Ha) as (Hr & Hl & Hn).
      rewrite Hr, Hl, Hn, Hnotes3, Hnotes.
      cbn [refreshed_summary set_changes_summary commit_log].
      rewrite Hpanel. repeat split.
  - destruct (log_then_notify (py "[red]❌ 操作失败[/red]: " ++ out) (py "❌ 操作失败")
                error (snd c)) as (_ & Hc & Hs & Hm & Hacc & Hrej).
    cbv zeta in Hacc, Hrej. rewrite Hs, Hm, Hpanel.
    split; [reflexivity|]. split; [|discriminate]. intros _.
    split; [apply calls_since_app; now rewrite Hc, Hcalls|].
    split; [reflexivity|]. split.
    + intros Ha. destruct (Hacc Ha) as (Hr & Hl & Hn).
      rewrite Hr, Hl, Hn, Hpanel, Hnotes. repeat split.
    + intros Ha. destruct (Hrej Ha) as (Hr & Hl & Hn).
      rewrite Hr, Hl, Hn, Hpanel, Hnotes. repeat split.
Qed.

End CommitButtons.

Lemma blank_message_outcome_witness :
  let e := Toy.start one_staged_no_remote (Build_GitCommit [] (py "   ") []) in
  calls_since e (snd (on_commit Toy.git Toy.clock Toy.markup_error e)) = []
  /\ calls_since e (snd (on_commit_push Toy.git Toy.clock Toy.markup_error e)) = []
  /\ Toy.staged_paths (world (snd (on_commit_push Toy.git Toy.clock Toy.markup_error e)))
     = [py "src/a.py"].
Proof.
  cbv zeta.
  destruct (@blank_message_outcome _ Toy.git Toy.clock Toy.markup_error
              (Toy.start one_staged_no_remote (Build_GitCommit [] (py "   ") [])))
    as [(_ & _ & H1 & _) (Hw & _ & H2 & _)]; [reflexivity|].
  split; [exact H1|]. split; [exact H2|]. rewrite Hw. reflexivity.
Defined.

Lemma commit_outcome_witness :
  let staged := Toy.start one_staged_no_remote
                  (Build_GitCommit (summary_text 1 0 0) (py "fix parser") []) in
  let tagged := Toy.start one_staged_no_remote
                  (Build_GitCommit (summary_text 1 0 0) (py "drop [/tmp] files") []) in
  let clean := Toy.start nothing_staged
                 (Build_GitCommit (summary_text 0 0 0) (py "fix parser") []) in
  (fst (on_commit Toy.git Toy.clock Toy.markup_error staged) = Some tt
   /\ notifications (snd (on_commit Toy.git Toy.clock Toy.markup_error staged))
      = [(py "✅ 提交成功", information)])
  /\ (fst (on_commit Toy.git Toy.clock Toy.markup_error tagged) = None
      /\ commit_message (panel (snd (on_commit Toy.git Toy.clock Toy.markup_error tagged)))
         = []
      /\ notifications (snd (on_commit Toy.git Toy.clock Toy.markup_error tagged)) = [])
  /\ commit_message (panel (snd (on_commit Toy.git Toy.clock Toy.markup_error clean)))
     = py "fix parser".
Proof.
  cbv zeta. split; [|split].
  - destruct (@commit_outcome _ Toy.git Toy.clock Toy.markup_error
                (Toy.start one_staged_no_remote
                   (Build_GitCommit (summary_text 1 0 0) (py "fix parser") [])))
      as [_ Hs]; [vm_compute; intros E; discriminate E|].
    destruct Hs as (_ & _ & _ & Hacc & _); [vm_compute; reflexivity|].
    destruct Hacc as (Hr & _ & Hn); [vm_compute; reflexivity|].
    split; [exact Hr | exact Hn].
  - destruct (@commit_outcome _ Toy.git Toy.clock Toy.markup_error
                (Toy.start one_staged_no_remote
                   (Build_GitCommit (summary_text 1 0 0) (py "drop [/tmp] files") [])))
      as [_ Hs]; [vm_compute; intros E; discriminate E|].
    destruct Hs as (_ & _ & Hm & _ & Hrej); [vm_compute; reflexivity|].
    destruct Hrej as (Hr & _ & Hn); [vm_compute; reflexivity|].
    split; [exact Hr|]. split; [exact Hm | exact Hn].
  - destruct (@commit_outcome _ Toy.git Toy.clock Toy.markup_error
                (Toy.start nothing_staged
                   (Build_GitCommit (summary_text 0 0 0) (py "fix parser") [])))
      as [Hf _]; [vm_compute; intros E; discriminate E|].
    destruct Hf as (_ & _ & Hm & _); [vm_compute; reflexivity|]. exact Hm.
Defined.

Lemma commit_push_success_witness :
  let reachable := {| Toy.is_repository := true;
                      Toy.staged_paths := [py "src/a.py"];
                      Toy.remote_reachable := true; Toy.history := [] |} in
  let e := Toy.start reachable
             (Build_GitCommit (summary_text 1 0 0) (py "fix parser") []) in
  let f := Toy.start reachable
             (Build_GitCommit (summary_text 1 0 0) (py "drop [/tmp] files") []) in
  (commit_message (panel (snd (on_commit_push Toy.git Toy.clock Toy.markup_error e))) = []
   /\ notifications (snd (on_commit_push Toy.git Toy.clock Toy.markup_error e))
      = [(py "✅ 提交并推送成功", information)])
  /\ (fst (on_commit_push Toy.git Toy.clock Toy.markup_error f) = None
      /\ calls_since f (snd (on_commit_push Toy.git Toy.clock Toy.markup_error f))
         = [([py "commit"; py "-m"; py "drop [/tmp] files"],
             (true, py "[main 1a2b3c4] drop [/tmp] files"))]).
Proof.
  cbv zeta. split.
  - destruct (@commit_push_success _ Toy.git Toy.clock Toy.markup_error
                (Toy.start {| Toy.is_repository := true;
                              Toy.staged_paths := [py "src/a.py"];
                              Toy.remote_reachable := true; Toy.history := [] |}
                   (Build_GitCommit (summary_text 1 0 0) (py "fix parser") [])))
      as (_ & Hs).
    + vm_compute. intros E. discriminate E.
    + vm_compute. reflexivity.
    + destruct Hs as (_ & Hm & _ & Hacc & _);
        [vm_compute; reflexivity | vm_compute; reflexivity |].
      destruct Hacc as (_ & _ & Hn); [vm_compute; reflexivity|].
      split; [exact Hm | exact Hn].
  - destruct (@commit_push_success _ Toy.git Toy.clock Toy.markup_error
                (Toy.start {| Toy.is_repository := true;
                              Toy.staged_paths := [py "src/a.py"];
                              Toy.remote_reachable := true; Toy.history := [] |}
                   (Build_GitCommit (summary_text 1 0 0) (py "drop [/tmp] files") [])))
      as (Hraise & _).
    + vm_compute. intros E. discriminate E.
    + vm_compute. reflexivity.
    + destruct Hraise as (Hr & Hc & _); [vm_compute; reflexivity|].
      split; [exact Hr|]. rewrite Hc. vm_compute. reflexivity.
Defined.

Lemma commit_push_push_failure_witness :
  let e := Toy.start one_staged_no_remote
             (Build_GitCommit (summary_text 1 0 0) (py "fix parser") []) in
  let e' := snd (on_commit_push Toy.git Toy.clock Toy.markup_error e) in
  changes_summary (panel e') = summary_text 1 0 0
  /\ commit_message (panel e') = py "fix parser"
  /\ notifications e' = [(py "提交成功，但推送失败", warning)].
Proof.
  cbv zeta.
  destruct (@commit_push_push_failure _ Toy.git Toy.clock Toy.markup_error
              (Toy.start one_staged_no_remote
                 (Build_GitCommit (summary_text 1 0 0) (py "fix parser") [])))
    as (_ & Hs & Hm & Hacc & _).
  - vm_compute. intros E. discriminate E.
  - vm_compute. reflexivity.
  - vm_compute. reflexivity.
  - vm_compute. reflexivity.
  - destruct Hacc as (_ & _ & Hn); [vm_compute; reflexivity|].
    split; [exact Hs|]. split; [exact Hm | exact Hn].
Defined.

Lemma amend_outcome_witness :
  let e := {| world := [Completed 0 (py "[main 1a2b3c4] fix parser") []];
              calls := []; notifications := [];
              panel := Build_GitCommit (summary_text 1 0 0) (py " fix parser ") [] |} in
  let f := {| world := [Completed 1 [] (py "hook [/etc] rejected")];
              calls := []; notifications := [];
              panel := Build_GitCommit [] [] [] |} in
  let r := on_amend_commit scripted (fun _ => py "12:00:00") Toy.markup_error e in
  let q := on_amend_commit scripted (fun _ => py "12:00:00") Toy.markup_error f in
  (commit_message (panel (snd r)) = []
   /\ changes_summary (panel (snd r)) = summary_text 1 0 0
   /\ notifications (snd r) = [(py "✅ 已修改上次提交", information)])
  /\ (fst q = None /\ notifications (snd q) = []).
Proof.
  cbv zeta.
  destruct (@amend_outcome _ scripted (fun _ => py "12:00:00") Toy.markup_error
              {| world := [Completed 0 (py "[main 1a2b3c4] fix parser") []];
                 calls := []; notifications := [];
                 panel := Build_GitCommit (summary_text 1 0 0) (py " fix parser ") [] |})
    as (_ & Hsum & Hs & _).
  destruct (@amend_outcome _ scripted (fun _ => py "12:00:00") Toy.markup_error
              {| world := [Completed 1 [] (py "hook [/etc] rejected")];
                 calls := []; notifications := [];
                 panel := Build_GitCommit [] [] [] |})
    as (_ & _ & _ & Hf).
  split.
  - destruct Hs as (Hm & Hacc & _); [vm_compute; reflexivity|].
    destruct Hacc as (_ & _ & Hn); [vm_compute; reflexivity|].
    split; [exact Hm|]. split; [exact Hsum | exact Hn].
  - destruct Hf as (_ & _ & Hrej); [vm_compute; reflexivity|].
    destruct Hrej as (Hr & _ & Hn); [vm_compute; reflexivity|].
    split; [exact Hr | exact Hn].
Defined.

Lemma undo_outcome_witness :
  let e := {| world := [Completed 0 [] []; Completed 0 (py "A  src/a.py") []];
              calls := []; notifications := [];
              panel := Build_GitCommit (summary_text 0 0 0) [] [] |} in
  let f := Toy.start nothing_staged (Build_GitCommit (summary_text 0 0 0) [] []) in
  let r := on_undo_commit scripted (fun _ => py "12:00:00") Toy.markup_error e in
  let q := on_undo_commit Toy.git Toy.clock Toy.markup_error f in
  (changes_summary (panel (snd r)) = summary_text 1 0 0
   /\ notifications (snd r) = [(py "✅ 已撤销上次提交", information)])
  /\ (changes_summary (panel (snd q)) = summary_text 0 0 0
      /\ notifications (snd q) = [(py "❌ 操作失败", error)]).
Proof.
  cbv zeta. split.
  - destruct (@undo_outcome _ scripted (fun _ => py "12:00:00") Toy.markup_error
                {| world := [Completed 0 [] []; Completed 0 (py "A  src/a.py") []];
                   calls := []; notifications := [];
                   panel := Build_GitCommit (summary_text 0 0 0) [] [] |})
      as (_ & _ & Hs).
    destruct Hs as (_ & Hsum & Hacc & _); [vm_compute; reflexivity|].
    destruct Hacc as (_ & _ & Hn); [vm_compute; reflexivity|].
    split; [rewrite Hsum; vm_compute; reflexivity | exact Hn].
  - destruct (@undo_outcome _ Toy.git Toy.clock Toy.markup_error
                (Toy.start nothing_staged (Build_GitCommit (summary_text 0 0 0) [] [])))
      as (_ & Hf & _).
    destruct Hf as (_ & Hsum & Hacc & _); [vm_compute; reflexivity|].
    destruct Hacc as (_ & _ & Hn); [vm_compute; reflexivity|].
    split; [exact Hsum | exact Hn].
Defined.

(* ===================================================================== *)
(** * The applications *)
(* ===================================================================== *)

Section Applications.

Variable World : Type.
Variable run : list str -> World -> process_outcome * World.

Lemma str_eqb_neq (a b : str) : str_eqb a b = false <-> a <> b.
Proof.
  rewrite <- str_eqb_eq. destruct (str_eqb a b); split; congruence.
Qed.






Lemma theme_cases (t : str) :
  (str_eqb t (py "textual-dark") = true /\ t = py "textual-dark")
  \/ (str_eqb t (py "textual-dark") = false /\ t <> py "textual-dark").
Proof.
  destruct (str_eqb t (py "textual-dark")) eqn:E.
  - left. split; [reflexivity | now apply str_eqb_eq].
  - right. split; [reflexivity | now apply str_eqb_neq].
Qed.

(** X22.  Toggling the theme leaves one of the two themes, the light one
    exactly when the theme was the dark one; from either of the two themes,
    toggling twice gives the theme back.  In the application of [app.py]
    the notification names the theme that was set: light exactly when the
    theme was the dark one. *)
Theorem toggle_dark_outcome :
  (forall e : Env World GitTUI,
      let e1 := snd (action_toggle_dark e) in
      let e2 := snd (action_toggle_dark e1) in
      (theme (panel e1) = py "textual-light" \/ theme (panel e1) = py "textual-dark")
      /\ (theme (panel e1) = py "textual-light" <-> theme (panel e) = py "textual-dark")
      /\ (theme (panel e) = py "textual-light" \/ theme (panel e) = py "textual-dark" ->
          e2 = e)
      /\ theme (panel e2) <> theme (panel e1))
  /\ (forall e : Env World DemoApp,
         let e1 := snd (DemoApp_action_toggle_dark e) in
         (demo_theme (panel e1) = py "textual-light"
          <-> demo_theme (panel e) = py "textual-dark")
         /\ (demo_theme (panel e) = py "textual-dark" ->
             notifications e1
             = notifications e ++ [(py "主题已切换: 浅色", information)])
         /\ (demo_theme (panel e) <> py "textual-dark" ->
             demo_theme (panel e1) = py "textual-dark"
             /\ notifications e1
                = notifications e ++ [(py "主题已切换: 深色", information)])).
Proof.
  split.
  - intros e. cbv zeta. unfold action_toggle_dark, bind, query, modify.
    cbn [snd panel set_theme theme].
    destruct (theme_cases (theme (panel e))) as [[E Ht] | [E Ht]]; rewrite E.
    + change (str_eqb (py "textual-light") (py "textual-dark")) with false.
      split; [now left|]. split; [tauto|]. split.
      * intros _. destruct e as [w c n [s l b cm ta sc th]]. cbn in *. now subst th.
      * discriminate.
    + change (str_eqb (py "textual-dark") (py "textual-dark")) with true.
      split; [now right|]. split; [split; [discriminate | congruence]|]. split.
      * intros [H | H]; [|congruence].
        destruct e as [w c n [s l b cm ta sc th]]. cbn in *. now subst th.
      * discriminate.
  - intros e. cbv zeta. unfold DemoApp_action_toggle_dark, bind, query, modify, notify.
    cbn [snd panel demo_theme notifications].
    destruct (theme_cases (demo_theme (panel e))) as [[E Ht] | [E Ht]]; rewrite E.
    + split; [tauto|]. split; [intros _; reflexivity | congruence].
    + split; [split; [discriminate | congruence]|].
      split; [congruence | intros _; split; reflexivity].
Qed.

End Applications.

Section Tasks.

Variable World : Type.
Variable now : World -> str.

(** X23.  Adding a task.  With a blank input nothing is added: the table
    and the counter are as they were and a warning is notified.  Otherwise
    the counter grows by one, one row is added whose id is the new counter
    and whose text is the trimmed input, and the input is emptied. *)
Theorem add_task_outcome (e : Env World TaskManager) :
  let text := strip (task_input (panel e)) in
  let e' := snd (add_task now e) in
  world e' = world e
  /\ (text = [] ->
      panel e' = panel e
      /\ notifications e' = notifications e ++ [(py "⚠️ 请输入任务内容", warning)])
  /\ (text <> [] ->
      task_counter (panel e') = task_counter (panel e) + 1
      /\ task_input (panel e') = []
      /\ task_table (panel e')
         = task_table (panel e)
             ++ [[str_of_nat (task_counter (panel e) + 1); text; py "⏳ 待办";
                  now (world e)]]
      /\ trimmed text
      /\ notifications e' = notifications e ++ [(py "✅ 任务已添加: " ++ text, information)]).
Proof.
  cbv zeta.
  eassert (Ea : add_task now e = _).
  { unfold add_task, bind at 1. unfold query. reflexivity. }
  rewrite Ea. clear Ea.
  destruct (strip (task_input (panel e))) as [|c r] eqn:E; cbn [truthy].
  - unfold notify. cbn [snd world panel notifications].
    split; [reflexivity|]. split; [intros _; split; reflexivity | congruence].
  - unfold bind, modify, notify, add_row.
    cbn [snd world panel notifications task_counter task_input task_table].
    split; [reflexivity|]. split; [congruence|]. intros _.
    split; [reflexivity|]. split; [reflexivity|]. split; [reflexivity|].
    split; [rewrite <- E; apply strip_trimmed | reflexivity].
Qed.

Lemma submit_tasks_cons (t : str) (texts : list str) (e : Env World TaskManager) :
  submit_tasks now (t :: texts) e
  = submit_tasks now texts
      (snd (add_task now
              {| world := world e; calls := calls e;
                 notifications := notifications e;
                 panel := {| task_counter := task_counter (panel e);
                             task_input := t;
                             task_table := task_table (panel e) |} |})).
Proof.
  unfold submit_tasks. cbn [for_each]. unfold bind, modify.
  now destruct (add_task now _) as [[] e1].
Qed.

Lemma submit_tasks_invariant (texts : list str) (e : Env World TaskManager) :
  let e' := snd (submit_tasks now texts e) in
  let added := length (filter (fun t => truthy (strip t)) texts) in
  first_cells (task_table (panel e))
  = map str_of_nat (seq 1 (task_counter (panel e))) ->
  task_counter (panel e') = task_counter (panel e) + added
  /\ first_cells (task_table (panel e'))
     = map str_of_nat (seq 1 (task_counter (panel e) + added))
  /\ length (notifications e') = length (notifications e) + length texts
  /\ world e' = world e.
Proof.
  cbv zeta. revert e. induction texts as [|t texts IH]; intros e Hinv.
  - cbn. rewrite Nat.add_0_r. repeat split; [exact Hinv | lia].
  - rewrite submit_tasks_cons.
    set (e0 := {| world := world e; calls := calls e;
                  notifications := notifications e;
                  panel := {| task_counter := task_counter (panel e);
                              task_input := t;
                              task_table := task_table (panel e) |} |}).
    pose proof (add_task_outcome e0) as (Hw & Hblank & Hadd). cbv zeta in *.
    set (e1 := snd (add_task now e0)) in *.
    unfold e0 in Hw, Hblank, Hadd.
    cbn [panel task_counter task_table task_input world notifications]
      in Hw, Hblank, Hadd.
    cbn [filter]. destruct (strip t) as [|c r] eqn:Et; cbn [truthy].
    + destruct (Hblank eq_refl) as (Hp & Hn).
      specialize (IH e1). rewrite Hp in IH. cbn [panel task_counter task_table] in IH.
      destruct (IH Hinv) as (H1 & H2 & H3 & H4).
      split; [exact H1|]. split; [exact H2|]. split.
      * rewrite H3, Hn, length_app. cbn [length]. lia.
      * rewrite H4, Hw. reflexivity.
    + destruct Hadd as (Hc & _ & Ht & _ & Hn); [discriminate|].
      specialize (IH e1). rewrite Hc, Ht in IH.
      destruct IH as (H1 & H2 & H3 & H4).
      { unfold first_cells in *. rewrite map_app, seq_app, map_app.
        f_equal; [exact Hinv|]. cbn [seq map nth]. now rewrite Nat.add_1_r. }
      cbn [length]. split; [lia|]. split.
      * rewrite H2. f_equal. f_equal. lia.
      * split; [|rewrite H4, Hw; reflexivity].
        rewrite H3, Hn, length_app. cbn [length]. lia.
Qed.

(** X24.  From the mounted task manager, whatever texts are submitted, the
    counter is 3 plus the number of texts that are not blank, and the ids
    of the rows are 1, 2, ... up to the counter, in order; every submission
    is notified and the world is left as it was. *)
Theorem task_ids_consecutive (texts : list str) (e : Env World TaskManager) :
  panel e = new_task_manager ->
  let e' := snd ((TaskManager_on_mount (World := World) ;; submit_tasks now texts) e) in
  let count := 3 + length (filter (fun t => truthy (strip t)) texts) in
  task_counter (panel e') = count
  /\ length (task_table (panel e')) = count
  /\ first_cells (task_table (panel e')) = map str_of_nat (seq 1 count)
  /\ length (notifications e') = length (notifications e) + length texts
  /\ world e' = world e.
Proof.
  intros Hnew. cbv zeta. unfold bind, TaskManager_on_mount, modify. cbv beta iota.
  rewrite Hnew.
  match goal with
  | |- context [submit_tasks now texts ?env] =>
    pose proof (submit_tasks_invariant texts env) as H
  end.
  cbv zeta in H. destruct H as (H1 & H2 & H3 & H4); [reflexivity|].
  cbn [panel task_counter new_task_manager notifications world] in *.
  split; [exact H1|]. split.
  - match goal with
    | |- length ?t = _ =>
      assert (Hl : length (first_cells t) = length t) by apply length_map
    end.
    rewrite <- Hl. etransitivity; [apply (f_equal (@length _)); exact H2|].
    rewrite length_map, length_seq. reflexivity.
  - split; [exact H2|]. split; [exact H3 | exact H4].
Qed.

End Tasks.



Lemma toggle_dark_outcome_witness :
  let e := Toy.start nothing_staged shown_app in
  snd (action_toggle_dark (snd (action_toggle_dark e))) = e
  /\ notifications
       (snd (DemoApp_action_toggle_dark
               (Toy.start nothing_staged
                  (Build_DemoApp (py "tab-monitor") (py "content-monitor")
                     (py "textual-dark")))))
     = [(py "主题已切换: 浅色", information)].
Proof.
  cbv zeta. destruct (toggle_dark_outcome Toy.repo) as [Hg Hd]. split.
  - destruct (Hg (Toy.start nothing_staged shown_app)) as (_ & _ & H & _).
    apply H. right. reflexivity.
  - destruct (Hd (Toy.start nothing_staged
                    (Build_DemoApp (py "tab-monitor") (py "content-monitor")
                       (py "textual-dark")))) as (_ & H & _).
    apply H. reflexivity.
Defined.

Lemma add_task_outcome_witness :
  let clock := fun _ : Toy.repo => py "09:30" in
  let blank := Toy.start nothing_staged (Build_TaskManager 3 (py "   ") []) in
  let typed := Toy.start nothing_staged (Build_TaskManager 3 (py " ship it ") []) in
  panel (snd (add_task clock blank)) = panel blank
  /\ task_table (panel (snd (add_task clock typed)))
     = [[py "4"; py "ship it"; py "⏳ 待办"; py "09:30"]].
Proof.
  cbv zeta. split.
  - destruct (add_task_outcome (fun _ : Toy.repo => py "09:30")
                (Toy.start nothing_staged (Build_TaskManager 3 (py "   ") [])))
      as (_ & H & _).
    apply H. reflexivity.
  - destruct (add_task_outcome (fun _ : Toy.repo => py "09:30")
                (Toy.start nothing_staged (Build_TaskManager 3 (py " ship it ") [])))
      as (_ & _ & H).
    destruct H as (_ & _ & Ht & _); [vm_compute; intros E; discriminate E|].
    rewrite Ht. reflexivity.
Defined.

Lemma task_ids_consecutive_witness :
  let clock := fun _ : Toy.repo => py "09:30" in
  let e := Toy.start nothing_staged new_task_manager in
  let e' := snd ((TaskManager_on_mount (World := Toy.repo)
                  ;; submit_tasks clock [py "write tests"; py "  "; py "ship"]) e) in
  task_counter (panel e') = 5
  /\ first_cells (task_table (panel e')) = [py "1"; py "2"; py "3"; py "4"; py "5"].
Proof.
  cbv zeta.
  destruct (@task_ids_consecutive _ (fun _ : Toy.repo => py "09:30")
              [py "write tests"; py "  "; py "ship"]
              (Toy.start nothing_staged new_task_manager) eq_refl)
    as (Hc & _ & Hi & _).
  split; [exact Hc | exact Hi].
Defined.
